(** * The data preparation pipeline of the product dashboard ([load_data] in app.py)

    The dashboard reads a CSV of product listings into a pandas DataFrame,
    repairs the price and count columns, derives revenue, discount and badge
    columns, and hands the frame to the charts.  This file embeds [load_data]
    statement by statement over a small model of the DataFrame operations it
    calls, and proves the properties the specification states about it.

    Layout:
    - [Float64]: IEEE-754 binary64 numbers, the dtype pandas computes with;
    - [Text]: Python string operations ([strip], [split], [str], [repr]);
    - [Pandas]: cells, series and frames, and the column operations used;
    - [App]: [load_data] itself, in a state-and-exception monad whose state
      is the local frame and the list of messages shown through [st.error];
    - [PandasFacts], [SeriesFacts], [FloatFacts]: lemmas on the operations;
    - [Run], [Required]: the run of [load_data], statement by statement,
      and the two ways it can end;
    - [Rows]: what a row of the output holds, by row label;
    - [Samples]: small input files;
    - the theorems, one per property;
    - [Dashboard], [Top]: the script around [load_data]: loading, the
      sidebar and its filter, the best-seller count and [nlargest], with
      their facts and theorems.

    What the model fixes:
    - a frame is its row labels and its named columns; [dropna] keeps the
      labels of the rows it keeps, so a row of the output is the row of the
      input with the same label;
    - a cell is text, a boolean, an integer or a float, and a missing entry
      is the float NaN; numbers computed by [load_data] are kept as
      float64, also where pandas would hold a whole column as int64: the
      two agree on numbers of magnitude below 2^53, and the theorems that
      give the exact value of a count or a product are stated for those;
    - text is read as a number by [precise_xstrtod], the routine behind
      [to_numeric], with its 17-digit accumulation and single scaling;
    - text is a sequence of 8-bit characters;
    - [fillna(..., inplace=True)] on [df[name]] updates the frame. *)

From Stdlib Require Import ZArith List String Ascii Bool Lia.
From Stdlib Require Import SpecFloat DecimalString.
From Stdlib Require Import Sorted Permutation.
Import ListNotations.

Local Open Scope string_scope.
Local Open Scope Z_scope.

(* ===================================================================== *)
(** * Binary64 numbers *)
(* ===================================================================== *)

(** pandas stores numeric columns as numpy [float64].  The values are the
    binary64 numbers of IEEE 754 with a single NaN, which is also pandas'
    marker for a missing entry.  [spec_float] is exactly that set, and the
    [SF*] operations are the correctly rounded (nearest-even) ones. *)
Module Float64.

Definition prec : Z := 53.
Definition emax : Z := 1024.

Definition float64 : Type := spec_float.

Definition nan : float64 := S754_nan.
Definition zero : float64 := S754_zero false.
Definition inf : float64 := S754_infinity false.

Definition add : float64 -> float64 -> float64 := SFadd prec emax.
Definition sub : float64 -> float64 -> float64 := SFsub prec emax.
Definition mul : float64 -> float64 -> float64 := SFmul prec emax.
Definition div : float64 -> float64 -> float64 := SFdiv prec emax.
Definition opp : float64 -> float64 := SFopp.

Definition ltb : float64 -> float64 -> bool := SFltb.
Definition leb : float64 -> float64 -> bool := SFleb.
Definition eqb : float64 -> float64 -> bool := SFeqb.

Definition is_nan (x : float64) : bool :=
  match x with S754_nan => true | _ => false end.

(** Conversion of an integer, rounding to nearest even beyond 2^53. *)
Definition of_Z (z : Z) : float64 := binary_normalize prec emax z 0 false.

(** The binary64 number nearest to [m * 10^e], for a natural [m]. *)
Definition of_decimal (m : N) (e : Z) : float64 :=
  match m with
  | N0 => zero
  | Npos p =>
      match e with
      | Zneg k => div (S754_finite false p 0)
                      (S754_finite false (Pos.pow 10 k) 0)
      | _ => of_Z (Zpos p * 10 ^ e)
      end
  end.

(** [x] is not below zero: NaN apart, a value that [x < 0] rejects and
    whose sign bit is clear. *)
Definition nonneg (x : float64) : bool :=
  match x with
  | S754_zero false | S754_infinity false | S754_finite false _ _ => true
  | _ => false
  end.

End Float64.

(* ===================================================================== *)
(** * Python text operations *)
(* ===================================================================== *)

(** Text is a [string] over the 8-bit alphabet, one [ascii] per character. *)
Module Text.

Import Float64.

(** [str.isspace] on one character (the Latin-1 part of Python's table). *)
Definition isspace (c : ascii) : bool :=
  let n := N_of_ascii c in
  (((9 <=? n) && (n <=? 13)) || ((28 <=? n) && (n <=? 32))
   || (n =? 133) || (n =? 160))%N.

Fixpoint lstrip (s : string) : string :=
  match s with
  | String c s' => if isspace c then lstrip s' else s
  | EmptyString => EmptyString
  end.

Fixpoint rstrip (s : string) : string :=
  match s with
  | EmptyString => EmptyString
  | String c s' =>
      match rstrip s' with
      | EmptyString => if isspace c then EmptyString else String c EmptyString
      | r => String c r
      end
  end.

(** [s.strip()] *)
Definition strip (s : string) : string := rstrip (lstrip s).

(** [s.split(sep)] for a one-character separator: never the empty list. *)
Fixpoint split (sep : ascii) (s : string) : list string :=
  match s with
  | EmptyString => [EmptyString]
  | String c s' =>
      if Ascii.eqb c sep then EmptyString :: split sep s'
      else match split sep s' with
           | h :: t => String c h :: t
           | [] => [String c EmptyString]
           end
  end.

(** [sep in s] *)
Fixpoint contains (sep : ascii) (s : string) : bool :=
  match s with
  | EmptyString => false
  | String c s' => Ascii.eqb c sep || contains sep s'
  end.

(** [len(s)] *)
Definition len (s : string) : Z := Z.of_nat (String.length s).

(** [str(n)] for an integer. *)
Definition str_int (z : Z) : string := NilZero.string_of_int (Z.to_int z).

Definition digits_of (n : Z) : string :=
  NilZero.string_of_uint (N.to_uint (Z.to_N n)).

Fixpoint zeros (n : nat) : string :=
  match n with O => EmptyString | S k => String "0" (zeros k) end.

(** ** [repr] of a float: the shortest decimal that reads back as the
    same binary64, as CPython and numpy print it. *)

Definition same (x y : float64) : bool :=
  match x, y with
  | S754_nan, S754_nan => true
  | S754_zero s, S754_zero t | S754_infinity s, S754_infinity t => Bool.eqb s t
  | S754_finite s m e, S754_finite t n f =>
      Bool.eqb s t && Pos.eqb m n && Z.eqb e f
  | _, _ => false
  end.

(** [num/den < 10^k] *)
Definition below_pow10 (num den k : Z) : bool :=
  if 0 <=? k then num <? den * 10 ^ k else num * 10 ^ (- k) <? den.

(** The decimal point position: the least [k], searched upwards from a
    start below it, with [num/den < 10^k]. *)
Fixpoint decimal_point (fuel : nat) (num den k : Z) : Z :=
  match fuel with
  | O => k
  | S f => if below_pow10 num den k then k
           else decimal_point f num den (k + 1)
  end.

(** The [n]-digit decimals just below and above [num/den], when one of
    them reads back as [x]: the nearer one, the even one on a tie. *)
Definition candidate (x : float64) (num den decpt n : Z) : option Z :=
  let s := n - decpt in
  let a := num * 10 ^ (Z.max s 0) in
  let b := den * 10 ^ (Z.max (- s) 0) in
  let lo := a / b in
  let r := a mod b in
  let hi := lo + 1 in
  let ok c := same (of_decimal (Z.to_N c) (- s)) x in
  match ok lo, ok hi with
  | true, true =>
      match (2 * r ?= b) with
      | Lt => Some lo
      | Gt => Some hi
      | Eq => Some (if Z.even lo then lo else hi)
      end
  | true, false => Some lo
  | false, true => Some hi
  | false, false => None
  end.

Fixpoint shortest_from (fuel : nat) (x : float64) (num den decpt n : Z)
  : Z * Z :=
  match fuel with
  | O => (0, decpt)
  | S f =>
      match candidate x num den decpt n with
      | Some c => (c, decpt - n)
      | None => shortest_from f x num den decpt (n + 1)
      end
  end.

(** Drop the zeros a candidate ends in: [c * 10^q] with [c] not a
    multiple of ten. *)
Fixpoint normalise (fuel : nat) (c q : Z) : Z * Z :=
  match fuel with
  | O => (c, q)
  | S f => if (c mod 10 =? 0) && (0 <? c) then normalise f (c / 10) (q + 1)
           else (c, q)
  end.

(** Digits and decimal point of the shortest decimal for [m * 2^e]:
    the value is [0.d1d2...dn * 10^decpt]. *)
Definition shortest (m : positive) (e : Z) : string * Z :=
  let num := Zpos m * 2 ^ (Z.max e 0) in
  let den := 2 ^ (Z.max (- e) 0) in
  let bits := Zpos (digits2_pos m) + e in
  let decpt := decimal_point 8 num den ((bits - 1) * 30103 / 100000 - 1) in
  let '(c, q) := shortest_from 17 (S754_finite false m e) num den decpt 1 in
  let '(c, q) := normalise 20 c q in
  let ds := digits_of c in
  (ds, q + len ds).

Definition take (n : Z) (s : string) : string :=
  String.substring 0 (Z.to_nat n) s.
Definition drop (n : Z) (s : string) : string :=
  String.substring (Z.to_nat n) (String.length s - Z.to_nat n) s.

(** The layout [repr] picks: exponent form below 1e-4 and from 1e16 on. *)
Definition layout (ds : string) (decpt : Z) : string :=
  if (decpt <=? -4) || (16 <? decpt) then
    let ex := decpt - 1 in
    let es := digits_of (Z.abs ex) in
    take 1 ds
    ++ (if 1 <? len ds then "." ++ drop 1 ds else "")
    ++ "e" ++ (if ex <? 0 then "-" else "+")
    ++ (if len es <? 2 then "0" ++ es else es)
  else if decpt <=? 0 then
    "0." ++ zeros (Z.to_nat (- decpt)) ++ ds
  else if len ds <=? decpt then
    ds ++ zeros (Z.to_nat (decpt - len ds)) ++ ".0"
  else
    take decpt ds ++ "." ++ drop decpt ds.

(** [repr(x)], which is also [str(x)], for a float. *)
Definition repr_float (x : float64) : string :=
  match x with
  | S754_nan => "nan"
  | S754_infinity s => if s then "-inf" else "inf"
  | S754_zero s => if s then "-0.0" else "0.0"
  | S754_finite s m e =>
      let '(ds, decpt) := shortest m e in
      (if s then "-" else "") ++ layout ds decpt
  end.

Example repr_float_examples :
  map repr_float
    [of_decimal 8968 (-2); of_Z 120; of_decimal 1 (-4); of_decimal 1 (-5);
     of_Z (10 ^ 15); of_Z (10 ^ 16); of_decimal 1 (-1); opp (of_Z 5); nan]
  = ["89.68"; "120.0"; "0.0001"; "1e-05";
     "1000000000000000.0"; "1e+16"; "0.1"; "-5.0"; "nan"].
Proof. vm_compute. reflexivity. Qed.

Example split_examples :
  split "-" "89.68-99.99" = ["89.68"; "99.99"] /\
  split "-" "Free" = ["Free"] /\
  split "-" "-5.0" = [""; "5.0"] /\
  split "-" "" = [""].
Proof. repeat split. Qed.

End Text.

(* ===================================================================== *)
(** * The DataFrame operations [load_data] calls *)
(* ===================================================================== *)

Module Pandas.

Import Float64 Text.

(** ** Cells, series and frames *)

(** What a cell of a frame read by [read_csv] can hold.  A missing entry
    is the float NaN, in every column. *)
Inductive cell : Type :=
| CStr (s : string)
| CBool (b : bool)
| CInt (z : Z)
| CFloat (x : float64).

Definition NaN : cell := CFloat nan.

(** [pd.isna] / [pd.notna] on one cell. *)
Definition isna (c : cell) : bool :=
  match c with CFloat x => is_nan x | _ => false end.
Definition notna (c : cell) : bool := negb (isna c).

(** The values of a column, in the order of the frame's index. *)
Definition Series : Type := list cell.

(** A frame: the row labels and the named columns, in header order. *)
Record DataFrame : Type := mkFrame
  { index : list nat;
    columns : list (string * Series) }.

(** A frame as [read_csv] builds it: distinct row labels, one cell per
    label in every column, and a header whose names are still distinct once
    the blanks around them are stripped (for a name that occurs twice
    [df[name]] is a sub-frame, not a column; such files are left out). *)
Definition well_formed (d : DataFrame) : Prop :=
  NoDup (index d) /\
  Forall (fun nc => List.length (snd nc) = List.length (index d)) (columns d) /\
  NoDup (map (fun nc => strip (fst nc)) (columns d)).

(** [df.columns.tolist()] *)
Definition column_names (d : DataFrame) : list string :=
  map fst (columns d).

(** [name in df.columns] *)
Definition has_column (name : string) (names : list string) : bool :=
  existsb (String.eqb name) names.

Fixpoint assoc (name : string) (l : list (string * Series)) : option Series :=
  match l with
  | [] => None
  | (n, c) :: l' => if String.eqb n name then Some c else assoc name l'
  end.

(** [df[name]], [None] standing for the KeyError.  (For a name that
    occurs twice pandas gives a sub-frame instead of a column; such frames
    are not [well_formed], and the theorems leave them out.) *)
Definition get_column (name : string) (d : DataFrame) : option Series :=
  assoc name (columns d).

Fixpoint assoc_set (name : string) (v : Series) (l : list (string * Series))
  : list (string * Series) :=
  match l with
  | [] => [(name, v)]
  | (n, c) :: l' =>
      if String.eqb n name then (n, v) :: l' else (n, c) :: assoc_set name v l'
  end.

(** [df[name] = v]: replaces the column, or appends a new one. *)
Definition set_column (name : string) (v : Series) (d : DataFrame) : DataFrame :=
  mkFrame (index d) (assoc_set name v (columns d)).

(** [df.columns = f(df.columns)] *)
Definition rename_columns (f : string -> string) (d : DataFrame) : DataFrame :=
  mkFrame (index d) (map (fun nc => (f (fst nc), snd nc)) (columns d)).

(** A scalar assigned to a column is repeated for every row. *)
Definition broadcast (v : cell) (d : DataFrame) : Series :=
  repeat v (List.length (index d)).

(** Boolean-mask selection. *)
Fixpoint select {A : Type} (mask : list bool) (l : list A) : list A :=
  match mask, l with
  | b :: mask', x :: l' => if b then x :: select mask' l' else select mask' l'
  | _, _ => []
  end.

(** Keeps the rows the mask marks; the kept rows keep their labels. *)
Definition keep_rows (mask : list bool) (d : DataFrame) : DataFrame :=
  mkFrame (select mask (index d))
          (map (fun nc => (fst nc, select mask (snd nc))) (columns d)).

(** The cell of the row labelled [i], as [Series.at[i]] finds it. *)
Fixpoint at_label {A : Type} (idx : list nat) (c : list A) (i : nat) : option A :=
  match idx, c with
  | j :: idx', x :: c' => if Nat.eqb j i then Some x else at_label idx' c' i
  | _, _ => None
  end.

(** [df.at[i, name]] *)
Definition at_ (d : DataFrame) (i : nat) (name : string) : option cell :=
  match get_column name d with
  | Some c => at_label (index d) c i
  | None => None
  end.

Fixpoint map2 {A B C : Type} (f : A -> B -> C) (a : list A) (b : list B) : list C :=
  match a, b with
  | x :: a', y :: b' => f x y :: map2 f a' b'
  | _, _ => []
  end.

(** ** Text columns *)

(** [str(v)] of one cell. *)
Definition str_of (c : cell) : string :=
  match c with
  | CStr s => s
  | CBool b => if b then "True" else "False"
  | CInt z => str_int z
  | CFloat x => repr_float x
  end.

(** [s.astype(str)] *)
Definition astype_str (c : Series) : Series :=
  map (fun v => CStr (str_of v)) c.

(** [s.str.split(sep)]: a list per text entry, NaN ([None]) elsewhere. *)
Definition str_split (sep : ascii) (c : Series) : list (option (list string)) :=
  map (fun v => match v with CStr s => Some (split sep s) | _ => None end) c.

(** [s.str[k]] on a column of lists: NaN where there is no such item. *)
Definition str_get (k : nat) (c : list (option (list string))) : Series :=
  map (fun v => match v with
                | Some l => match nth_error l k with
                            | Some s => CStr s
                            | None => NaN
                            end
                | None => NaN
                end) c.

(** [s.str.len()]: NaN ([None]) for entries that are not text. *)
Definition str_len (c : Series) : list (option Z) :=
  map (fun v => match v with CStr s => Some (len s) | _ => None end) c.

(** [lengths > k]: False on NaN. *)
Definition gt (c : list (option Z)) (k : Z) : Series :=
  map (fun v => match v with Some n => CBool (k <? n) | None => CBool false end) c.

(** ** Numeric columns *)

Definition is_digit (c : ascii) : bool :=
  let n := N_of_ascii c in ((48 <=? n) && (n <=? 57))%N.

(** C's [isspace] in the "C" locale, which the number reader uses. *)
Definition isspace_ascii (c : ascii) : bool :=
  let n := N_of_ascii c in ((n =? 32) || ((9 <=? n) && (n <=? 13)))%N.

Fixpoint skip_space (s : string) : string :=
  match s with
  | String c s' => if isspace_ascii c then skip_space s' else s
  | EmptyString => EmptyString
  end.

Definition read_sign (s : string) : bool * string :=
  match s with
  | String "-" s' => (true, s')
  | String "+" s' => (false, s')
  | _ => (false, s)
  end.

(** C [int] arithmetic as compiled: 32 bits, wrapping. *)
Definition wrap32 (z : Z) : Z := (z + 2 ^ 31) mod 2 ^ 32 - 2 ^ 31.

(** The value of a digit character. *)
Definition digit_value (c : ascii) : float64 := of_Z (Z.of_N (N_of_ascii c - 48)).

Definition max_digits : nat := 17.

(** The digits before the point: [number = number * 10. + digit] for the
    first 17 digits read, every further digit only raising the exponent. *)
Fixpoint read_integer (s : string) (number : float64) (num_digits : nat)
  (exponent : Z) : float64 * nat * Z * string :=
  match s with
  | String c s' =>
      if is_digit c then
        if (num_digits <? max_digits)%nat
        then read_integer s' (add (mul number (of_Z 10)) (digit_value c))
               (S num_digits) exponent
        else read_integer s' number num_digits (exponent + 1)
      else (number, num_digits, exponent, s)
  | EmptyString => (number, num_digits, exponent, s)
  end.

(** The digits after the point: read while fewer than 17 digits have been
    taken, the further ones skipped. *)
Fixpoint read_decimals (s : string) (number : float64) (num_digits : nat)
  (num_decimals : Z) : float64 * nat * Z * string :=
  match s with
  | String c s' =>
      if is_digit c then
        if (num_digits <? max_digits)%nat
        then read_decimals s' (add (mul number (of_Z 10)) (digit_value c))
               (S num_digits) (num_decimals + 1)
        else read_decimals s' number num_digits num_decimals
      else (number, num_digits, num_decimals, s)
  | EmptyString => (number, num_digits, num_decimals, s)
  end.

(** The digits of an exponent, at most 17 of them, in an [int]. *)
Fixpoint read_exponent_digits (s : string) (n : Z) (num_digits : nat)
  : Z * nat * string :=
  match s with
  | String c s' =>
      if is_digit c && (num_digits <? max_digits)%nat
      then read_exponent_digits s'
             (wrap32 (n * 10 + Z.of_N (N_of_ascii c - 48))) (S num_digits)
      else (n, num_digits, s)
  | EmptyString => (n, num_digits, s)
  end.

(** The table [e[]] of the routine: the doubles [1e0] to [1e308]. *)
Definition e_table (k : Z) : float64 := of_Z (10 ^ k).

(** Scaling by the power of ten; [None] is the range error. *)
Definition scale (number : float64) (exponent : Z) : option float64 :=
  if 308 <? exponent then None
  else
    let r :=
      if 0 <? exponent then mul number (e_table exponent)
      else if exponent <? -308 then
        if exponent <? -616 then zero
        else div (div number (e_table (-308 - exponent))) (e_table 308)
      else div number (e_table (- exponent)) in
    match r with
    | S754_infinity _ => None
    | _ => Some r
    end.

(** [precise_xstrtod], the routine [to_numeric] reads text with: blanks, a
    sign, digits with an optional point, an optional exponent, blanks, and
    nothing else.  It is not correctly rounded: the digits are accumulated
    in a double, 17 of them at most (leading zeros count), and the result
    is scaled by one power of ten.  [None] when the text is not such a
    literal or the value is out of range. *)
Definition strtod (s : string) : option float64 :=
  let s0 := skip_space s in
  let '(negative, s1) := read_sign s0 in
  let '(number, num_digits, exponent, s2) := read_integer s1 zero 0%nat 0 in
  let '(number, num_digits, num_decimals, s3) :=
    match s2 with
    | String "." s' => read_decimals s' number num_digits 0
    | _ => (number, num_digits, 0, s2)
    end in
  let exponent := exponent - num_decimals in
  match num_digits with
  | O => None
  | _ =>
      let number := if negative then opp number else number in
      let after_exponent :=
        match s3 with
        | String c s' =>
            if Ascii.eqb c "e" || Ascii.eqb c "E" then
              let '(neg, s4) := read_sign s' in
              let '(n, cnt, s5) := read_exponent_digits s4 0 0%nat in
              match cnt with
              | O => None
              | _ => Some (wrap32 (if neg then exponent - n else exponent + n), s5)
              end
            else Some (exponent, s3)
        | EmptyString => Some (exponent, s3)
        end in
      match after_exponent with
      | None => None
      | Some (exponent, s6) =>
          match scale number exponent, skip_space s6 with
          | Some x, EmptyString => Some x
          | _, _ => None
          end
      end
  end.

Definition to_lower (c : ascii) : ascii :=
  let n := N_of_ascii c in
  if ((65 <=? n) && (n <=? 90))%N then ascii_of_N (n + 32) else c.

Fixpoint lower (s : string) : string :=
  match s with
  | EmptyString => EmptyString
  | String c s' => String (to_lower c) (lower s')
  end.

(** One text entry under [pd.to_numeric(..., errors='coerce')]: a decimal
    literal, one of the spellings of infinity, or else NaN. *)
Definition parse_float (s : string) : float64 :=
  match strtod s with
  | Some x => x
  | None =>
      let t := lower s in
      if String.eqb t "inf" || String.eqb t "+inf"
         || String.eqb t "infinity" || String.eqb t "+infinity" then inf
      else if String.eqb t "-inf" || String.eqb t "-infinity" then opp inf
      else nan
  end.

(** The number a cell stands for.  A column with no missing entry may be
    held by pandas as int64 or bool; the model keeps every number as the
    float64 of the same value. *)
Definition float_of_bool (b : bool) : float64 :=
  if b then of_Z 1 else zero.

Definition numeric_cell (c : cell) : float64 :=
  match c with
  | CStr s => parse_float s
  | CBool b => float_of_bool b
  | CInt z => of_Z z
  | CFloat x => x
  end.

(** [pd.to_numeric(s, errors='coerce')] *)
Definition to_numeric (c : Series) : Series :=
  map (fun v => CFloat (numeric_cell v)) c.

Example parse_float_examples :
  map parse_float ["89.68"; " 12 "; "+3.5"; "1e5"; "5."; ".5"; "inF"]
  = [of_decimal 8968 (-2); of_Z 12; of_decimal 35 (-1); of_Z 100000;
     of_Z 5; of_decimal 5 (-1); inf] /\
  map parse_float ["Free"; ""; "."; "1e"; "nan"; "1,000"; "$5"; "1e400"]
  = [nan; nan; nan; nan; nan; nan; nan; nan] /\
  parse_float "-2" = opp (of_Z 2).
Proof. vm_compute. repeat split. Qed.

(** The float64 values of a column for arithmetic; text in it is the
    TypeError ([None]). *)
Fixpoint values (c : Series) : option (list float64) :=
  match c with
  | [] => Some []
  | v :: c' =>
      match v, values c' with
      | CStr _, _ | _, None => None
      | CBool b, Some l => Some (float_of_bool b :: l)
      | CInt z, Some l => Some (of_Z z :: l)
      | CFloat x, Some l => Some (x :: l)
      end
  end.

Definition of_values (l : list float64) : Series := map CFloat l.

(** [a.fillna(b)]: entries missing in [a] are taken from the same row
    of [b]. *)
Definition fillna_from (a b : Series) : Series :=
  map2 (fun x y => if isna x then y else x) a b.

(** [a.fillna(v)] for a scalar [v]. *)
Definition fillna (v : cell) (a : Series) : Series :=
  map (fun x => if isna x then v else x) a.

(** [s.mean()]: the sum of the entries that are not NaN over their
    count, NaN when there is none.  Entries are added left to right, which
    is the order of numpy for fewer than eight entries (and of bottleneck
    for any number); numpy alone adds eight entries and more pairwise,
    which can change the last bit of the sum. *)
Definition mean_of (l : list float64) : float64 :=
  let xs := filter (fun x => negb (is_nan x)) l in
  div (fold_left add xs zero) (of_Z (Z.of_nat (List.length xs))).

(** [s.clip(lo, hi)]: the upper bound is applied first, NaN is kept. *)
Definition clip1 (lo hi x : float64) : float64 :=
  if is_nan x then x
  else
    let y := if leb x hi then x else hi in
    if leb lo y then y else lo.

Definition clip (lo hi : float64) (c : Series) : Series :=
  map (fun v => match v with CFloat x => CFloat (clip1 lo hi x) | _ => v end) c.

(** ** Boolean columns *)

(** [bool(v)], which [astype(bool)] applies to every entry: NaN and any
    text but the empty one are true. *)
Definition truthy (c : cell) : bool :=
  match c with
  | CStr s => negb (String.eqb s "")
  | CBool b => b
  | CInt z => negb (z =? 0)
  | CFloat x => negb (eqb x zero)
  end.

(** [s.astype(bool)] *)
Definition astype_bool (c : Series) : Series :=
  map (fun v => CBool (truthy v)) c.

(** [s.notna()] *)
Definition notna_series (c : Series) : Series :=
  map (fun v => CBool (notna v)) c.

End Pandas.

(* ===================================================================== *)
(** * app.py: [load_data] *)
(* ===================================================================== *)

Module App.

Import Float64 Text Pandas.

(** ** Running Python statements *)

(** What a run of [load_data] can change: its local frame [df], which
    every statement mutates in place, and the messages [st.error] has put
    on the page. *)
Record session : Type := mkSession
  { df : DataFrame;
    shown : list string }.

Inductive exn : Type :=
| KeyError (key : string)
| TypeError.

(** A statement either returns a value or raises; what was shown before
    an exception stays shown. *)
Definition M (A : Type) : Type := session -> (exn + A) * session.

Definition ret {A : Type} (a : A) : M A := fun s => (inr a, s).

Definition bind {A B : Type} (m : M A) (k : A -> M B) : M B :=
  fun s => match m s with
           | (inr a, s') => k a s'
           | (inl e, s') => (inl e, s')
           end.

Definition raise {A : Type} (e : exn) : M A := fun s => (inl e, s).

Declare Scope py_scope.
Delimit Scope py_scope with py.
Notation "x <- m ;; k" := (bind m (fun x => k))
  (at level 61, m at next level, right associativity) : py_scope.
Notation "m ;; k" := (bind m (fun _ => k))
  (at level 61, right associativity) : py_scope.
Local Open Scope py_scope.

(** [st.error(msg)] *)
Definition st_error (msg : string) : M unit :=
  fun s => (inr tt, mkSession (df s) (shown s ++ [msg])).

(** [df = d] *)
Definition assign (d : DataFrame) : M unit :=
  fun s => (inr tt, mkSession d (shown s)).

(** [df], read *)
Definition current : M DataFrame := fun s => (inr (df s), s).

(** [df[name]] *)
Definition getitem (name : string) : M Series :=
  fun s => match get_column name (df s) with
           | Some c => (inr c, s)
           | None => (inl (KeyError name), s)
           end.

(** [df[name] = v] for a series [v] *)
Definition setitem (name : string) (v : Series) : M unit :=
  fun s => (inr tt, mkSession (set_column name v (df s)) (shown s)).

(** [df[name] = v] for a scalar [v] *)
Definition setitem_scalar (name : string) (v : cell) : M unit :=
  fun s => (inr tt,
            mkSession (set_column name (broadcast v (df s)) (df s)) (shown s)).

(** [df[name].method(..., inplace=True)]: the column object the frame
    holds is updated through the reference [df[name]] returns (pandas
    before copy-on-write, for which the application was written). *)
Definition inplace (name : string) (f : Series -> Series) : M unit :=
  c <- getitem name ;;
  setitem name (f c).

(** [df.dropna(subset=[name], inplace=True)] *)
Definition dropna (name : string) : M unit :=
  c <- getitem name ;;
  d <- current ;;
  assign (keep_rows (map notna c) d).

(** Arithmetic between two columns of the frame; text raises. *)
Definition arith (op : float64 -> float64 -> float64) (a b : Series) : M Series :=
  match values a, values b with
  | Some x, Some y => ret (of_values (map2 op x y))
  | _, _ => raise TypeError
  end.

(** Arithmetic between a column and a number. *)
Definition arith_scalar (op : float64 -> float64 -> float64)
  (a : Series) (k : float64) : M Series :=
  match values a with
  | Some x => ret (of_values (map (fun v => op v k) x))
  | None => raise TypeError
  end.

(** [s.mean()] *)
Definition mean (a : Series) : M float64 :=
  match values a with
  | Some x => ret (mean_of x)
  | None => raise TypeError
  end.

(** Python's [if c: a else: b] over statements. *)
Definition ifelse {A : Type} (c : bool) (a b : M A) : M A :=
  if c then a else b.

(** ** The function *)

Definition category_col : string := "product_category".

Definition msg_category : string :=
  "Column 'product_category' not found. Please update Line 61. Using 'Unknown' for now.".
Definition msg_best_seller : string := "Error: Column 'is_best_seller' not found.".
Definition msg_coupon : string := "Error: Column 'has_coupon' not found.".
Definition msg_sustainability : string :=
  "Error: Column 'sustainability_tags' not found.".
Definition msg_sponsored : string := "Error: Column 'is_sponsored' not found.".

(** [load_data(filepath)], from the frame [pd.read_csv(filepath)]
    returns.  Each group of lines is one statement of the source, in
    source order.  ([st.cache_data] only memoises the call; a missing file
    makes [read_csv] raise before any of this runs.) *)
Definition load_data (csv : DataFrame) : M DataFrame :=
  (* df = pd.read_csv(filepath) *)
  assign csv ;;
  (* df.columns = df.columns.str.strip() *)
  d <- current ;;
  assign (rename_columns strip d) ;;

  (* df['discounted_price'] = df['discounted_price'].astype(str).str.split('-').str[0] *)
  c <- getitem "discounted_price" ;;
  setitem "discounted_price" (str_get 0 (str_split "-" (astype_str c))) ;;
  (* df['original_price'] = df['original_price'].astype(str).str.split('-').str[0] *)
  c <- getitem "original_price" ;;
  setitem "original_price" (str_get 0 (str_split "-" (astype_str c))) ;;

  (* df['discounted_price'] = pd.to_numeric(df['discounted_price'], errors='coerce') *)
  c <- getitem "discounted_price" ;;
  setitem "discounted_price" (to_numeric c) ;;
  (* df['original_price'] = pd.to_numeric(df['original_price'], errors='coerce') *)
  c <- getitem "original_price" ;;
  setitem "original_price" (to_numeric c) ;;

  (* df['original_price'].fillna(df['discounted_price'], inplace=True) *)
  o <- getitem "original_price" ;;
  p <- getitem "discounted_price" ;;
  setitem "original_price" (fillna_from o p) ;;
  (* df.dropna(subset=['discounted_price'], inplace=True) *)
  dropna "discounted_price" ;;

  (* df['product_rating'] = pd.to_numeric(df['product_rating'], errors='coerce') *)
  c <- getitem "product_rating" ;;
  setitem "product_rating" (to_numeric c) ;;
  (* df['total_reviews'] = pd.to_numeric(df['total_reviews'], errors='coerce') *)
  c <- getitem "total_reviews" ;;
  setitem "total_reviews" (to_numeric c) ;;
  (* df['purchased_last_month'] = pd.to_numeric(df['purchased_last_month'], errors='coerce') *)
  c <- getitem "purchased_last_month" ;;
  setitem "purchased_last_month" (to_numeric c) ;;

  (* df['purchased_last_month'].fillna(0, inplace=True) *)
  inplace "purchased_last_month" (fillna (CFloat zero)) ;;
  (* df['total_reviews'].fillna(0, inplace=True) *)
  inplace "total_reviews" (fillna (CFloat zero)) ;;
  (* df['product_rating'].fillna(df['product_rating'].mean(), inplace=True) *)
  r <- getitem "product_rating" ;;
  r' <- getitem "product_rating" ;;
  avg <- mean r' ;;
  setitem "product_rating" (fillna (CFloat avg) r) ;;

  (* if category_col not in df.columns: ... else: ... *)
  d <- current ;;
  ifelse (negb (has_column category_col (column_names d)))
    (st_error msg_category ;;
     setitem_scalar category_col (CStr "Unknown"))
    (inplace category_col (fillna (CStr "Unknown"))) ;;

  (* df['Est. Revenue (Last Month)'] = df['discounted_price'] * df['purchased_last_month'] *)
  a <- getitem "discounted_price" ;;
  b <- getitem "purchased_last_month" ;;
  v <- arith mul a b ;;
  setitem "Est. Revenue (Last Month)" v ;;

  (* df['Discount %'] = ((df['original_price'] - df['discounted_price']) / df['original_price']) * 100 *)
  a <- getitem "original_price" ;;
  b <- getitem "discounted_price" ;;
  v <- arith sub a b ;;
  a <- getitem "original_price" ;;
  v <- arith div v a ;;
  v <- arith_scalar mul v (of_Z 100) ;;
  setitem "Discount %" v ;;
  (* df['Discount %'] = df['Discount %'].fillna(0).clip(0, 100) *)
  c <- getitem "Discount %" ;;
  setitem "Discount %" (clip (of_Z 0) (of_Z 100) (fillna (CFloat zero) c)) ;;

  (* actual_columns = df.columns.tolist() *)
  d <- current ;;
  let actual_columns := column_names d in

  (* if 'is_best_seller' not in actual_columns: ... else: ... *)
  ifelse (negb (has_column "is_best_seller" actual_columns))
    (st_error msg_best_seller ;;
     setitem_scalar "is_best_seller" (CBool false))
    (c <- getitem "is_best_seller" ;;
     setitem "is_best_seller" (astype_bool c)) ;;

  (* if 'has_coupon' not in actual_columns: ... else: ... *)
  ifelse (negb (has_column "has_coupon" actual_columns))
    (st_error msg_coupon ;;
     setitem_scalar "has_coupon_bool" (CBool false))
    (c <- getitem "has_coupon" ;;
     setitem "has_coupon_bool" (gt (str_len (astype_str c)) 3)) ;;

  (* if 'sustainability_tags' not in actual_columns: ... else: ... *)
  ifelse (negb (has_column "sustainability_tags" actual_columns))
    (st_error msg_sustainability ;;
     setitem_scalar "is_sustainable" (CBool false))
    (c <- getitem "sustainability_tags" ;;
     setitem "is_sustainable" (notna_series c)) ;;

  (* if 'is_sponsored' not in actual_columns: ... else: ... *)
  ifelse (negb (has_column "is_sponsored" actual_columns))
    (st_error msg_sponsored ;;
     setitem_scalar "is_sponsored" (CStr "Unknown"))
    (inplace "is_sponsored" (fillna (CBool false))) ;;

  (* return df *)
  current.

End App.

(* ===================================================================== *)
(** * Facts about the frame operations *)
(* ===================================================================== *)

Module PandasFacts.

Import Float64 Text Pandas.

(** ** Columns by name *)

Lemma assoc_set_same name v l : assoc name (assoc_set name v l) = Some v.
Proof.
  induction l as [|[n c] l IH]; simpl.
  - now rewrite String.eqb_refl.
  - destruct (String.eqb n name) eqn:E; simpl; rewrite E; auto.
Qed.

Lemma assoc_set_other name name' v l :
  String.eqb name name' = false ->
  assoc name' (assoc_set name v l) = assoc name' l.
Proof.
  intros Hne. induction l as [|[n c] l IH]; simpl.
  - now rewrite Hne.
  - destruct (String.eqb n name) eqn:E; simpl.
    + apply String.eqb_eq in E. subst n. now rewrite Hne.
    + destruct (String.eqb n name'); auto.
Qed.

Lemma get_set_same name v d : get_column name (set_column name v d) = Some v.
Proof. apply assoc_set_same. Qed.

Lemma get_set_other name name' v d :
  String.eqb name name' = false ->
  get_column name' (set_column name v d) = get_column name' d.
Proof. apply assoc_set_other. Qed.

Lemma get_keep_rows name mask d :
  get_column name (keep_rows mask d) = option_map (select mask) (get_column name d).
Proof.
  unfold get_column, keep_rows; simpl.
  induction (columns d) as [|[n c] l IH]; simpl; auto.
  destruct (String.eqb n name); auto.
Qed.

Lemma index_set_column name v d : index (set_column name v d) = index d.
Proof. reflexivity. Qed.

Lemma index_keep_rows mask d : index (keep_rows mask d) = select mask (index d).
Proof. reflexivity. Qed.

Lemma index_rename f d : index (rename_columns f d) = index d.
Proof. reflexivity. Qed.

(** A name is in the header exactly when the column can be read. *)
Lemma has_column_get name d :
  has_column name (column_names d) =
  match get_column name d with Some _ => true | None => false end.
Proof.
  unfold has_column, column_names, get_column.
  induction (columns d) as [|[n c] l IH]; simpl; auto.
  rewrite String.eqb_sym. destruct (String.eqb n name); auto.
Qed.

Lemma has_column_set name name' v d :
  has_column name' (column_names (set_column name v d)) =
  String.eqb name name' || has_column name' (column_names d).
Proof.
  rewrite !has_column_get.
  destruct (String.eqb name name') eqn:E.
  - apply String.eqb_eq in E. subst. now rewrite get_set_same.
  - now rewrite get_set_other.
Qed.

Lemma has_column_keep_rows name mask d :
  has_column name (column_names (keep_rows mask d)) =
  has_column name (column_names d).
Proof.
  rewrite !has_column_get, get_keep_rows.
  destruct (get_column name d); reflexivity.
Qed.

(** ** Rows by label *)

Lemma at_label_map {A B : Type} (f : A -> B) idx c i :
  at_label idx (map f c) i = option_map f (at_label idx c i).
Proof.
  revert c. induction idx as [|j idx IH]; intros [|x c]; simpl; auto.
  destruct (Nat.eqb j i); auto.
Qed.

Lemma at_label_map2 {A B C : Type} (f : A -> B -> C) idx a b i :
  at_label idx (map2 f a b) i =
  match at_label idx a i, at_label idx b i with
  | Some x, Some y => Some (f x y)
  | _, _ => None
  end.
Proof.
  revert a b. induction idx as [|j idx IH]; intros [|x a] [|y b]; simpl; auto.
  - destruct (Nat.eqb j i); auto. now destruct (at_label idx a i).
  - destruct (Nat.eqb j i); auto.
Qed.

Lemma at_label_repeat {A : Type} (v : A) idx n i :
  at_label idx (repeat v n) i = Some v \/ at_label idx (repeat v n) i = None.
Proof.
  revert n. induction idx as [|j idx IH]; intros [|n]; simpl; auto.
  destruct (Nat.eqb j i); auto.
Qed.

Lemma at_label_In {A : Type} idx (c : list A) i :
  List.length c = List.length idx -> In i idx ->
  exists x, at_label idx c i = Some x.
Proof.
  revert c. induction idx as [|j idx IH]; intros [|x c] Hlen Hin;
    simpl in *; try discriminate; try contradiction.
  destruct (Nat.eqb j i) eqn:E; [eauto|].
  destruct Hin as [->|Hin]; [now rewrite Nat.eqb_refl in E|].
  apply IH; auto.
Qed.

Lemma at_label_Some_In {A : Type} idx (c : list A) i x :
  at_label idx c i = Some x -> In i idx.
Proof.
  revert c. induction idx as [|j idx IH]; intros [|y c]; simpl; try discriminate.
  destruct (Nat.eqb j i) eqn:E.
  - apply Nat.eqb_eq in E. auto.
  - intros H. right. eauto.
Qed.

Lemma at_label_repeat_In {A : Type} (v : A) idx i :
  In i idx -> at_label idx (repeat v (List.length idx)) i = Some v.
Proof.
  intros Hin.
  destruct (at_label_In idx (repeat v (List.length idx)) i) as [x Hx]; auto.
  - apply repeat_length.
  - destruct (at_label_repeat v idx (List.length idx) i) as [H|H];
      congruence.
Qed.

(** ** Masks *)

Lemma select_nil_r {A : Type} mask : select mask ([] : list A) = [].
Proof. now destruct mask. Qed.

Lemma select_In {A : Type} mask (l : list A) x : In x (select mask l) -> In x l.
Proof.
  revert l. induction mask as [|b mask IH]; intros l; simpl.
  - contradiction.
  - destruct l as [|y l]; [contradiction|].
    destruct b; simpl; intuition.
Qed.

Lemma select_NoDup {A : Type} mask (l : list A) : NoDup l -> NoDup (select mask l).
Proof.
  revert l. induction mask as [|b mask IH]; intros l H; simpl.
  - constructor.
  - destruct l as [|y l]; [constructor|].
    inversion H; subst. destruct b; auto.
    constructor; auto. intros Hin. apply select_In in Hin. contradiction.
Qed.

Lemma select_map {A B : Type} (f : A -> B) mask l :
  select mask (map f l) = map f (select mask l).
Proof.
  revert l. induction mask as [|b mask IH]; intros [|y l]; simpl; auto.
  destruct b; simpl; now rewrite IH.
Qed.

Lemma select_length {A B : Type} mask (a : list A) (b : list B) :
  List.length a = List.length b ->
  List.length (select mask a) = List.length (select mask b).
Proof.
  revert a b. induction mask as [|m mask IH]; intros [|x a] [|y b] H;
    simpl in *; try discriminate; auto.
  destruct m; simpl; auto.
Qed.

Lemma at_label_nil_r {A : Type} idx i : at_label idx ([] : list A) i = None.
Proof. now destruct idx. Qed.

(** A row that the mask keeps is found under its label with the cell it
    had; a row that the mask drops is gone. *)
Lemma at_label_select {A : Type} idx mask (c : list A) i :
  NoDup idx ->
  at_label (select mask idx) (select mask c) i =
  match at_label idx mask i with
  | Some true => at_label idx c i
  | _ => None
  end.
Proof.
  revert mask c. induction idx as [|j idx IH]; intros mask c Hnd.
  - rewrite select_nil_r. reflexivity.
  - inversion Hnd; subst.
    destruct mask as [|b mask]; [reflexivity|].
    destruct c as [|x c].
    + rewrite select_nil_r, !at_label_nil_r.
      now destruct (at_label (j :: idx) (b :: mask) i) as [[|]|].
    + simpl. destruct (Nat.eqb j i) eqn:E.
      * apply Nat.eqb_eq in E. subst j. destruct b; simpl.
        -- now rewrite Nat.eqb_refl.
        -- destruct (at_label (select mask idx) (select mask c) i) eqn:F; auto.
           apply at_label_Some_In, select_In in F. contradiction.
      * destruct b; simpl; [rewrite E|]; apply IH; auto.
Qed.

End PandasFacts.

(* ===================================================================== *)
(** * Float columns *)
(* ===================================================================== *)

Module SeriesFacts.

Import Float64 Text Pandas.

(** Filling one missing number from another, and with a constant. *)
Definition fill_from (x y : float64) : float64 := if is_nan x then y else x.
Definition fill_with (z x : float64) : float64 := if is_nan x then z else x.

Lemma values_of_values l : values (of_values l) = Some l.
Proof. induction l as [|x l IH]; simpl; [|rewrite IH]; reflexivity. Qed.

Lemma to_numeric_values c : to_numeric c = of_values (map numeric_cell c).
Proof. unfold to_numeric, of_values. now rewrite map_map. Qed.

Lemma select_of_values mask l :
  select mask (of_values l) = of_values (select mask l).
Proof. apply PandasFacts.select_map. Qed.

Lemma fillna_from_values a b :
  fillna_from (of_values a) (of_values b) = of_values (map2 fill_from a b).
Proof.
  unfold fillna_from, of_values. revert b.
  induction a as [|x a IH]; intros [|y b]; simpl; auto.
  rewrite IH. unfold fill_from. now destruct (is_nan x).
Qed.

Lemma fillna_values z a :
  fillna (CFloat z) (of_values a) = of_values (map (fill_with z) a).
Proof.
  unfold fillna, of_values. rewrite !map_map. apply map_ext.
  intros x. unfold fill_with. simpl. now destruct (is_nan x).
Qed.

Lemma notna_values l :
  map notna (of_values l) = map (fun x => negb (is_nan x)) l.
Proof. unfold of_values. now rewrite map_map. Qed.

Lemma clip_values lo hi l :
  clip lo hi (of_values l) = of_values (map (clip1 lo hi) l).
Proof. unfold clip, of_values. now rewrite !map_map. Qed.

(** ** The text of a price *)

(** What is left of a price text: the part before the first [-]. *)
Definition low_part (s : string) : string :=
  match split "-" s with
  | h :: _ => h
  | [] => EmptyString
  end.

(** The number [load_data] reads in one cell of a price column. *)
Definition price_of (c : cell) : float64 := parse_float (low_part (str_of c)).

Lemma split_not_nil sep s : split sep s <> [].
Proof.
  destruct s as [|c s]; simpl; [discriminate|].
  destruct (Ascii.eqb c sep); [discriminate|].
  destruct (split sep s); discriminate.
Qed.

(** The three steps on a price column amount to [price_of] on each cell. *)
Lemma price_column c :
  to_numeric (str_get 0 (str_split "-" (astype_str c))) =
  of_values (map price_of c).
Proof.
  unfold to_numeric, str_get, str_split, astype_str, of_values.
  rewrite !map_map. apply map_ext. intros v. unfold price_of, low_part.
  destruct (split "-" (str_of v)) as [|h t] eqn:E.
  - now apply split_not_nil in E.
  - reflexivity.
Qed.

Lemma low_part_no_dash s : contains "-" (low_part s) = false.
Proof.
  unfold low_part. induction s as [|c s IH]; simpl; auto.
  destruct (Ascii.eqb c "-") eqn:E; simpl; auto.
  destruct (split "-" s) as [|h t]; simpl; rewrite E; simpl; auto.
Qed.



End SeriesFacts.

(* ===================================================================== *)
(** * Running [load_data] *)
(* ===================================================================== *)

Module Run.

Import Float64 Text Pandas App PandasFacts SeriesFacts.
Local Open Scope py_scope.

(** ** One statement at a time *)

Lemma step_assign {B} d (f : unit -> M B) s :
  bind (assign d) f s = f tt (mkSession d (shown s)).
Proof. reflexivity. Qed.

Lemma step_current {B} (f : DataFrame -> M B) s :
  bind current f s = f (df s) s.
Proof. reflexivity. Qed.

Lemma step_getitem {B} name c (f : Series -> M B) s :
  get_column name (df s) = Some c -> bind (getitem name) f s = f c s.
Proof. intros H. unfold bind, getitem. now rewrite H. Qed.

Lemma step_getitem_fail {B} name (f : Series -> M B) s :
  get_column name (df s) = None ->
  bind (getitem name) f s = (inl (KeyError name), s).
Proof. intros H. unfold bind, getitem. now rewrite H. Qed.

Lemma step_setitem {B} name v (f : unit -> M B) s :
  bind (setitem name v) f s =
  f tt (mkSession (set_column name v (df s)) (shown s)).
Proof. reflexivity. Qed.

Lemma step_inplace {B} name g c (f : unit -> M B) s :
  get_column name (df s) = Some c ->
  bind (inplace name g) f s =
  f tt (mkSession (set_column name (g c) (df s)) (shown s)).
Proof. intros H. unfold inplace, bind, getitem, setitem. now rewrite H. Qed.

Lemma step_dropna {B} name c (f : unit -> M B) s :
  get_column name (df s) = Some c ->
  bind (dropna name) f s =
  f tt (mkSession (keep_rows (map notna c) (df s)) (shown s)).
Proof.
  intros H. unfold dropna, bind, getitem, current, assign. now rewrite H.
Qed.

Lemma step_arith {B} op a b (f : Series -> M B) s :
  bind (arith op (of_values a) (of_values b)) f s =
  f (of_values (map2 op a b)) s.
Proof. unfold arith. now rewrite !values_of_values. Qed.

Lemma step_arith_scalar {B} op a k (f : Series -> M B) s :
  bind (arith_scalar op (of_values a) k) f s =
  f (of_values (map (fun v => op v k) a)) s.
Proof. unfold arith_scalar. now rewrite !values_of_values. Qed.

Lemma step_mean {B} a (f : float64 -> M B) s :
  bind (mean (of_values a)) f s = f (mean_of a) s.
Proof. unfold mean. now rewrite !values_of_values. Qed.

(** The column a presence test leaves: the default when the source
    column is absent, the converted source column otherwise. *)
Definition guarded (present : bool) (src : option Series)
  (g : Series -> Series) (dflt : Series) : Series :=
  match present, src with
  | true, Some c => g c
  | _, _ => dflt
  end.

Lemma step_guard {B} names name dst msg v g (f : unit -> M B) s :
  (has_column name names = true -> get_column name (df s) <> None) ->
  bind (ifelse (negb (has_column name names))
          (st_error msg ;; setitem_scalar dst v)
          (c <- getitem name ;; setitem dst (g c))) f s
  = f tt (mkSession
            (set_column dst
               (guarded (has_column name names) (get_column name (df s)) g
                  (broadcast v (df s)))
               (df s))
            (shown s ++ (if has_column name names then [] else [msg]))).
Proof.
  intros H.
  unfold guarded, ifelse, bind, getitem, setitem, setitem_scalar, st_error.
  destruct (has_column name names); simpl.
  - destruct (get_column name (df s)) eqn:E; [|now destruct H].
    simpl. now rewrite app_nil_r; destruct s.
  - reflexivity.
Qed.

Ltac known :=
  repeat match goal with
         | H : get_column _ _ = Some _ |- _ => rewrite H
         end.

Ltac lookup :=
  cbn [df shown];
  repeat first [ rewrite get_set_same
               | rewrite get_set_other by reflexivity
               | rewrite get_keep_rows ];
  known; cbn [option_map]; try reflexivity.

Ltac present :=
  cbn [df shown];
  repeat first [ rewrite has_column_set | rewrite has_column_keep_rows ];
  cbn [String.eqb Ascii.eqb Bool.eqb orb andb category_col];
  repeat first [ rewrite get_set_other by reflexivity
               | rewrite get_keep_rows ].

Ltac tidy :=
  rewrite ?price_column, ?to_numeric_values, ?fillna_from_values,
    ?fillna_values, ?select_of_values, ?notna_values, ?clip_values.

Ltac step :=
  first [ rewrite step_assign
        | rewrite step_current
        | rewrite step_setitem
        | erewrite step_getitem by lookup
        | erewrite step_inplace by lookup
        | erewrite step_dropna by lookup
        | rewrite step_arith
        | rewrite step_arith_scalar
        | rewrite step_mean ];
  cbv beta zeta; cbn [df shown]; tidy.

(** ** What the run leaves *)

(** The header after [df.columns.str.strip()]. *)
Definition stripped (csv : DataFrame) : DataFrame := rename_columns strip csv.

(** The rows [dropna] keeps: those whose discounted price is a number. *)
Definition kept_mask (cd : Series) : list bool :=
  map (fun x => negb (is_nan x)) (map price_of cd).

Definition kept {A : Type} (cd : Series) (l : list A) : list A :=
  select (kept_mask cd) l.

(** The discount of one row. *)
Definition discount_percent (o d : float64) : float64 :=
  clip1 (of_Z 0) (of_Z 100)
    (fill_with zero (mul (div (sub o d) o) (of_Z 100))).

Lemma discount_column O D :
  map (clip1 (of_Z 0) (of_Z 100))
    (map (fill_with zero)
       (map (fun v => mul v (of_Z 100)) (map2 div (map2 sub O D) O)))
  = map2 discount_percent O D.
Proof.
  revert D. induction O as [|o O IH]; intros [|d D]; simpl; auto.
  now rewrite IH.
Qed.

(** The messages of a run, in the order [st.error] shows them. *)
Definition warning (d : DataFrame) (name msg : string) : list string :=
  if has_column name (column_names d) then [] else [msg].

Definition warnings (csv : DataFrame) : list string :=
  warning (stripped csv) "product_category" msg_category
  ++ warning (stripped csv) "is_best_seller" msg_best_seller
  ++ warning (stripped csv) "has_coupon" msg_coupon
  ++ warning (stripped csv) "sustainability_tags" msg_sustainability
  ++ warning (stripped csv) "is_sponsored" msg_sponsored.

(** The column a presence test leaves for source column [name]. *)
Definition optional (csv : DataFrame) (cd : Series) (name : string)
  (g : Series -> Series) (v : cell) : Series :=
  guarded (has_column name (column_names (stripped csv)))
    (option_map (kept cd) (get_column name (stripped csv)))
    g
    (repeat v (List.length (kept cd (index csv)))).

(** The columns [load_data] assigns. *)
Definition assigned : list string :=
  ["discounted_price"; "original_price"; "product_rating"; "total_reviews";
   "purchased_last_month"; "product_category"; "Est. Revenue (Last Month)";
   "Discount %"; "is_best_seller"; "has_coupon_bool"; "is_sustainable";
   "is_sponsored"].

(** The columns of the frame [load_data] returns, given the five columns
    it reads unconditionally. *)
Record prepared (csv : DataFrame) (cd co cr ct cp : Series) (out : DataFrame)
  : Prop :=
  { p_index : index out = kept cd (index csv);
    p_discounted :
      get_column "discounted_price" out =
      Some (of_values (kept cd (map price_of cd)));
    p_original :
      get_column "original_price" out =
      Some (of_values (kept cd (map2 fill_from (map price_of co) (map price_of cd))));
    p_rating :
      get_column "product_rating" out =
      Some (of_values
              (map (fill_with (mean_of (map numeric_cell (kept cd cr))))
                 (map numeric_cell (kept cd cr))));
    p_reviews :
      get_column "total_reviews" out =
      Some (of_values (map (fill_with zero) (map numeric_cell (kept cd ct))));
    p_purchased :
      get_column "purchased_last_month" out =
      Some (of_values (map (fill_with zero) (map numeric_cell (kept cd cp))));
    p_revenue :
      get_column "Est. Revenue (Last Month)" out =
      Some (of_values
              (map2 mul (kept cd (map price_of cd))
                 (map (fill_with zero) (map numeric_cell (kept cd cp)))));
    p_discount :
      get_column "Discount %" out =
      Some (of_values
              (map2 discount_percent
                 (kept cd (map2 fill_from (map price_of co) (map price_of cd)))
                 (kept cd (map price_of cd))));
    p_category :
      get_column "product_category" out =
      Some (optional csv cd "product_category"
              (fillna (CStr "Unknown")) (CStr "Unknown"));
    p_best_seller :
      get_column "is_best_seller" out =
      Some (optional csv cd "is_best_seller" astype_bool (CBool false));
    p_coupon :
      get_column "has_coupon_bool" out =
      Some (optional csv cd "has_coupon"
              (fun c => gt (str_len (astype_str c)) 3) (CBool false));
    p_sustainable :
      get_column "is_sustainable" out =
      Some (optional csv cd "sustainability_tags" notna_series (CBool false));
    p_sponsored :
      get_column "is_sponsored" out =
      Some (optional csv cd "is_sponsored"
              (fillna (CBool false)) (CStr "Unknown"));
    p_other :
      forall name, ~ In name assigned ->
        get_column name out =
        option_map (kept cd) (get_column name (stripped csv)) }.

Section Run.

Variable csv : DataFrame.
Variables cd co cr ct cp : Series.
Hypothesis Hd : get_column "discounted_price" (rename_columns strip csv) = Some cd.
Hypothesis Ho : get_column "original_price" (rename_columns strip csv) = Some co.
Hypothesis Hr : get_column "product_rating" (rename_columns strip csv) = Some cr.
Hypothesis Ht : get_column "total_reviews" (rename_columns strip csv) = Some ct.
Hypothesis Hp : get_column "purchased_last_month" (rename_columns strip csv) = Some cp.

Lemma guard_side name mask :
  has_column name (column_names (rename_columns strip csv)) = true ->
  option_map (select mask) (get_column name (rename_columns strip csv)) <> None.
Proof.
  rewrite has_column_get.
  destruct (get_column name (rename_columns strip csv)); simpl; congruence.
Qed.

Ltac branch :=
  rewrite step_guard; [|present; apply guard_side];
  present; cbv beta zeta; cbn [df shown].

(** With the five columns in the header, [load_data] returns, and what
    it returns and shows is the following. *)
Lemma load_data_run :
  exists out,
    (forall s, load_data csv s =
               (inr out, mkSession out (shown s ++ warnings csv)))
    /\ prepared csv cd co cr ct cp out.
Proof.
  eexists. split.
  - intros s. unfold load_data.
    repeat step.
    unfold inplace. branch. repeat step.
    branch. branch. branch. branch.
    unfold current. cbn [df shown].
    unfold broadcast. cbn [index set_column keep_rows rename_columns].
    unfold warnings, warning, stripped, category_col.
    rewrite <- !app_assoc. reflexivity.
  - split; unfold optional, kept, kept_mask, stripped, category_col;
      cbn [index set_column keep_rows rename_columns];
      rewrite ?discount_column;
      try (intros name Hn;
           repeat first
             [ rewrite get_set_other
                 by (apply String.eqb_neq; intros E; apply Hn;
                     rewrite <- E; simpl; auto 20)
             | rewrite get_keep_rows ];
           reflexivity);
      lookup;
      now rewrite select_of_values.
Qed.

End Run.

End Run.

(* ===================================================================== *)
(** * Facts about the numbers *)
(* ===================================================================== *)

Module FloatFacts.

Import Float64 Text Pandas SeriesFacts Run.

(** A number that is missing or not below zero. *)
Definition nan_or_nonneg (x : float64) : Prop :=
  is_nan x = true \/ nonneg x = true.

(** Rounding keeps the sign it is given. *)
Lemma round_sign s m e l :
  match binary_round_aux prec emax s m e l with
  | S754_nan => True
  | S754_zero t | S754_infinity t | S754_finite t _ _ => t = s
  end.
Proof.
  unfold binary_round_aux.
  destruct (shr_fexp prec emax m e l) as [mrs e'].
  destruct (shr_fexp prec emax _ e' loc_Exact) as [mrs' e''].
  destruct (shr_m mrs'); auto.
  destruct (Z.leb e'' (emax - prec)); auto.
Qed.

Lemma round_nonneg m e l :
  nan_or_nonneg (binary_round_aux prec emax false m e l).
Proof.
  pose proof (round_sign false m e l) as H. unfold nan_or_nonneg.
  destruct (binary_round_aux prec emax false m e l); subst; simpl; auto.
Qed.

Lemma of_Z_nonneg z : 0 <= z -> nan_or_nonneg (of_Z z).
Proof.
  intros Hz. unfold of_Z, binary_normalize.
  destruct z as [|p|p]; [right; reflexivity| |lia].
  unfold binary_round.
  destruct (shl_align p 0 _) as [mz ez]. apply round_nonneg.
Qed.

Lemma of_decimal_nonneg m e : nan_or_nonneg (of_decimal m e).
Proof.
  unfold of_decimal. destruct m as [|p]; [right; reflexivity|].
  destruct e as [|k|k].
  - apply of_Z_nonneg. lia.
  - apply of_Z_nonneg. apply Z.mul_nonneg_nonneg; [lia|].
    apply Z.pow_nonneg. lia.
  - unfold div, SFdiv.
    destruct (SFdiv_core_binary prec emax (Z.pos p) 0 (Z.pos (10 ^ k)) 0)
      as [[mz ez] lz].
    apply round_nonneg.
Qed.

(** ** Reading numbers from text *)

Lemma skip_space_no_dash s :
  contains "-" s = false -> contains "-" (skip_space s) = false.
Proof.
  induction s as [|c s IH]; simpl; auto.
  intros H. apply orb_false_iff in H. destruct H as [Hc Hs].
  destruct (isspace_ascii c); auto. simpl. now rewrite Hc, Hs.
Qed.

Lemma read_sign_no_dash s :
  contains "-" s = false -> fst (read_sign s) = false.
Proof.
  destruct s as [|c s]; simpl; auto.
  intros H. apply orb_false_iff in H. destruct H as [Hc _].
  destruct c as [[] [] [] [] [] [] [] []]; try reflexivity; discriminate.
Qed.

Lemma normalize_nonneg z e :
  0 <= z -> nan_or_nonneg (binary_normalize prec emax z e false).
Proof.
  intros Hz. unfold binary_normalize.
  destruct z as [|p|p]; [right; reflexivity| |lia].
  unfold binary_round.
  destruct (shl_align p e _) as [mz ez]. apply round_nonneg.
Qed.

Lemma add_nonneg x y :
  nan_or_nonneg x -> nan_or_nonneg y -> nan_or_nonneg (add x y).
Proof.
  intros [Hx|Hx] [Hy|Hy];
    destruct x as [[]|[]| |[] mx ex]; try discriminate;
    destruct y as [[]|[]| |[] my ey]; try discriminate;
    try (left; reflexivity); try (right; reflexivity).
  unfold add, SFadd. apply normalize_nonneg.
  destruct (shl_align _ _ _); destruct (shl_align _ _ _). simpl. lia.
Qed.

Lemma mul_nonneg x y :
  nan_or_nonneg x -> nan_or_nonneg y -> nan_or_nonneg (mul x y).
Proof.
  intros [Hx|Hx] [Hy|Hy];
    destruct x as [[]|[]| |[] mx ex]; try discriminate;
    destruct y as [[]|[]| |[] my ey]; try discriminate;
    try (left; reflexivity); try (right; reflexivity).
  unfold mul, SFmul. simpl. apply round_nonneg.
Qed.

Lemma div_nonneg x y :
  nan_or_nonneg x -> nan_or_nonneg y -> nan_or_nonneg (div x y).
Proof.
  intros [Hx|Hx] [Hy|Hy];
    destruct x as [[]|[]| |[] mx ex]; try discriminate;
    destruct y as [[]|[]| |[] my ey]; try discriminate;
    try (left; reflexivity); try (right; reflexivity).
  unfold div, SFdiv. simpl.
  destruct (SFdiv_core_binary prec emax (Z.pos mx) ex (Z.pos my) ey)
    as [[mz ez] lz].
  apply round_nonneg.
Qed.

Lemma digit_value_nonneg c : nan_or_nonneg (digit_value c).
Proof. apply of_Z_nonneg. lia. Qed.

Lemma e_table_nonneg k : nan_or_nonneg (e_table k).
Proof.
  apply of_Z_nonneg. apply Z.pow_nonneg. lia.
Qed.

Lemma read_integer_nonneg s x n e :
  nan_or_nonneg x -> nan_or_nonneg (fst (fst (fst (read_integer s x n e)))).
Proof.
  revert x n e. induction s as [|c s IH]; intros x n e Hx; [exact Hx|].
  cbn [read_integer]. destruct (is_digit c); [|exact Hx].
  destruct (n <? max_digits)%nat; apply IH; [|exact Hx].
  apply add_nonneg; [apply mul_nonneg; [assumption|apply of_Z_nonneg; lia]|].
  apply digit_value_nonneg.
Qed.

Lemma read_decimals_nonneg s x n e :
  nan_or_nonneg x -> nan_or_nonneg (fst (fst (fst (read_decimals s x n e)))).
Proof.
  revert x n e. induction s as [|c s IH]; intros x n e Hx; [exact Hx|].
  cbn [read_decimals]. destruct (is_digit c); [|exact Hx].
  destruct (n <? max_digits)%nat; apply IH; [|exact Hx].
  apply add_nonneg; [apply mul_nonneg; [assumption|apply of_Z_nonneg; lia]|].
  apply digit_value_nonneg.
Qed.

Lemma scale_nonneg x e y :
  nan_or_nonneg x -> scale x e = Some y -> nan_or_nonneg y.
Proof.
  intros Hx. unfold scale. destruct (308 <? e); [discriminate|].
  match goal with |- match ?r with _ => _ end = _ -> _ =>
    assert (H : nan_or_nonneg r); [|destruct r; try discriminate;
      intros E; injection E as <-; exact H] end.
  destruct (0 <? e); [apply mul_nonneg; [exact Hx|apply e_table_nonneg]|].
  destruct (e <? -308).
  - destruct (e <? -616); [right; reflexivity|].
    apply div_nonneg; [|apply e_table_nonneg].
    apply div_nonneg; [exact Hx|apply e_table_nonneg].
  - apply div_nonneg; [exact Hx|apply e_table_nonneg].
Qed.

Lemma strtod_nonneg s x :
  contains "-" s = false -> strtod s = Some x -> nan_or_nonneg x.
Proof.
  intros Hs. unfold strtod.
  pose proof (read_sign_no_dash _ (skip_space_no_dash _ Hs)) as Hneg.
  destruct (read_sign (skip_space s)) as [neg s1]. simpl in Hneg. subst neg.
  pose proof (read_integer_nonneg s1 zero 0 0 (or_intror eq_refl)) as H1.
  destruct (read_integer s1 zero 0 0) as [[[x1 n1] e1] s2]. simpl in H1.
  assert (H2 : forall r, r = match s2 with
                 | String "." s' => read_decimals s' x1 n1 0
                 | _ => (x1, n1, 0, s2)
                 end -> nan_or_nonneg (fst (fst (fst r)))).
  { intros r ->. destruct s2 as [|c s2]; simpl; auto.
    destruct c as [[] [] [] [] [] [] [] []]; simpl; auto.
    now apply read_decimals_nonneg. }
  specialize (H2 _ eq_refl).
  destruct (match s2 with
            | String "." s' => read_decimals s' x1 n1 0
            | _ => (x1, n1, 0, s2)
            end) as [[[x2 n2] nd] s3]. simpl in H2.
  destruct n2; [discriminate|].
  match goal with |- match ?a with _ => _ end = _ -> _ =>
    destruct a as [[ex s6]|]; [|discriminate] end.
  destruct (scale x2 ex) as [y|] eqn:E; [|discriminate].
  destruct (skip_space s6); [|discriminate].
  intros E'. injection E' as <-. eapply scale_nonneg; eauto.
Qed.

Lemma to_lower_dash c : Ascii.eqb (to_lower c) "-" = true -> Ascii.eqb c "-" = true.
Proof.
  destruct c as [[] [] [] [] [] [] [] []]; vm_compute; auto.
Qed.

Lemma lower_dash s t :
  String.eqb (lower s) (String "-" t) = true -> contains "-" s = true.
Proof.
  destruct s as [|c s]; simpl; [discriminate|].
  destruct (Ascii.eqb (to_lower c) "-") eqn:E; [|discriminate].
  intros _. now rewrite (to_lower_dash _ E).
Qed.

(** A text with no [-] in it never reads as a number below zero. *)
Lemma parse_float_nonneg s :
  contains "-" s = false -> nan_or_nonneg (parse_float s).
Proof.
  intros Hs. unfold parse_float.
  destruct (strtod s) as [x|] eqn:E; [eapply strtod_nonneg; eauto|].
  destruct (_ || _); [right; reflexivity|].
  destruct (String.eqb (lower s) "-inf") eqn:E1.
  { apply lower_dash in E1. congruence. }
  destruct (String.eqb (lower s) "-infinity") eqn:E2.
  { apply lower_dash in E2. congruence. }
  left; reflexivity.
Qed.

(** No price read by [load_data] is below zero. *)
Lemma price_of_nonneg c : nan_or_nonneg (price_of c).
Proof. apply parse_float_nonneg, low_part_no_dash. Qed.

Lemma price_not_nan_nonneg c : is_nan (price_of c) = false -> nonneg (price_of c) = true.
Proof. destruct (price_of_nonneg c); congruence. Qed.

(** ** The discount *)

Lemma hundred : of_Z 100 = S754_finite false 7036874417766400 (-46).
Proof. vm_compute. reflexivity. Qed.

Lemma clip1_range x :
  is_nan x = false ->
  leb (of_Z 0) (clip1 (of_Z 0) (of_Z 100) x) = true /\
  leb (clip1 (of_Z 0) (of_Z 100) x) (of_Z 100) = true.
Proof.
  intros Hx. unfold clip1. rewrite Hx.
  destruct (leb x (of_Z 100)) eqn:E1.
  - destruct (leb (of_Z 0) x) eqn:E2; auto.
  - change (leb (of_Z 0) (of_Z 100)) with true. cbv iota. auto.
Qed.

Lemma fill_with_not_nan x : is_nan (fill_with zero x) = false.
Proof. unfold fill_with. destruct (is_nan x) eqn:E; auto. Qed.

(** The discount is always between 0 and 100. *)
Lemma discount_range o d :
  leb (of_Z 0) (discount_percent o d) = true /\
  leb (discount_percent o d) (of_Z 100) = true.
Proof. apply clip1_range, fill_with_not_nan. Qed.

Lemma discount_nan_quotient o d :
  is_nan (div (sub o d) o) = true -> discount_percent o d = zero.
Proof.
  unfold discount_percent. destruct (div (sub o d) o); try discriminate.
  reflexivity.
Qed.

Lemma discount_zero_price d :
  nonneg d = true -> discount_percent zero d = zero.
Proof.
  unfold discount_percent. rewrite hundred.
  destruct d as [[]|[]| |[] m e]; try discriminate; reflexivity.
Qed.

Lemma sub_same m e :
  sub (S754_finite false m e) (S754_finite false m e) = zero.
Proof.
  unfold sub, SFsub. cbn [cond_Zopp]. now rewrite Z.sub_diag.
Qed.

Lemma discount_same d :
  nonneg d = true -> discount_percent d d = zero.
Proof.
  unfold discount_percent. rewrite hundred.
  destruct d as [[]|[]| |[] m e]; try discriminate; try reflexivity.
  now rewrite sub_same.
Qed.

End FloatFacts.

(* ===================================================================== *)
(** * The columns [load_data] cannot do without *)
(* ===================================================================== *)

Module Required.

Import Float64 Text Pandas App PandasFacts SeriesFacts Run.
Local Open Scope py_scope.

Ltac absent H :=
  erewrite step_getitem_fail by (lookup; rewrite ?H; reflexivity).

Section Missing.

Variable csv : DataFrame.

Lemma missing_discounted :
  get_column "discounted_price" (rename_columns strip csv) = None ->
  exists d, forall s,
    load_data csv s = (inl (KeyError "discounted_price"), mkSession d (shown s)).
Proof.
  intros H. eexists. intros s. unfold load_data.
  repeat step. absent H. reflexivity.
Qed.

Lemma missing_original cd :
  get_column "discounted_price" (rename_columns strip csv) = Some cd ->
  get_column "original_price" (rename_columns strip csv) = None ->
  exists d, forall s,
    load_data csv s = (inl (KeyError "original_price"), mkSession d (shown s)).
Proof.
  intros Hd H. eexists. intros s. unfold load_data.
  repeat step. absent H. reflexivity.
Qed.

Lemma missing_rating cd co :
  get_column "discounted_price" (rename_columns strip csv) = Some cd ->
  get_column "original_price" (rename_columns strip csv) = Some co ->
  get_column "product_rating" (rename_columns strip csv) = None ->
  exists d, forall s,
    load_data csv s = (inl (KeyError "product_rating"), mkSession d (shown s)).
Proof.
  intros Hd Ho H. eexists. intros s. unfold load_data.
  repeat step. absent H. reflexivity.
Qed.

Lemma missing_reviews cd co cr :
  get_column "discounted_price" (rename_columns strip csv) = Some cd ->
  get_column "original_price" (rename_columns strip csv) = Some co ->
  get_column "product_rating" (rename_columns strip csv) = Some cr ->
  get_column "total_reviews" (rename_columns strip csv) = None ->
  exists d, forall s,
    load_data csv s = (inl (KeyError "total_reviews"), mkSession d (shown s)).
Proof.
  intros Hd Ho Hr H. eexists. intros s. unfold load_data.
  repeat step. absent H. reflexivity.
Qed.

Lemma missing_purchased cd co cr ct :
  get_column "discounted_price" (rename_columns strip csv) = Some cd ->
  get_column "original_price" (rename_columns strip csv) = Some co ->
  get_column "product_rating" (rename_columns strip csv) = Some cr ->
  get_column "total_reviews" (rename_columns strip csv) = Some ct ->
  get_column "purchased_last_month" (rename_columns strip csv) = None ->
  exists d, forall s,
    load_data csv s =
    (inl (KeyError "purchased_last_month"), mkSession d (shown s)).
Proof.
  intros Hd Ho Hr Ht H. eexists. intros s. unfold load_data.
  repeat step. absent H. reflexivity.
Qed.

End Missing.

(** The five columns read without a presence test. *)
Definition required : list string :=
  ["discounted_price"; "original_price"; "product_rating";
   "total_reviews"; "purchased_last_month"].

(** Every run ends in one of two ways, neither of which depends on the
    session it starts from: a frame and the warnings, or a KeyError for
    a required column with nothing shown. *)
Lemma load_data_outcome csv :
  (exists cd co cr ct cp out,
      get_column "discounted_price" (stripped csv) = Some cd /\
      get_column "original_price" (stripped csv) = Some co /\
      get_column "product_rating" (stripped csv) = Some cr /\
      get_column "total_reviews" (stripped csv) = Some ct /\
      get_column "purchased_last_month" (stripped csv) = Some cp /\
      prepared csv cd co cr ct cp out /\
      forall s, load_data csv s =
                (inr out, mkSession out (shown s ++ warnings csv)))
  \/
  (exists name d,
      In name required /\
      get_column name (stripped csv) = None /\
      forall s, load_data csv s = (inl (KeyError name), mkSession d (shown s))).
Proof.
  unfold stripped, required.
  destruct (get_column "discounted_price" (rename_columns strip csv)) as [cd|] eqn:Hd.
  2:{ right. destruct (missing_discounted csv Hd) as [d H].
      exists "discounted_price", d. simpl; auto 10. }
  destruct (get_column "original_price" (rename_columns strip csv)) as [co|] eqn:Ho.
  2:{ right. destruct (missing_original csv cd Hd Ho) as [d H].
      exists "original_price", d. simpl; auto 10. }
  destruct (get_column "product_rating" (rename_columns strip csv)) as [cr|] eqn:Hr.
  2:{ right. destruct (missing_rating csv cd co Hd Ho Hr) as [d H].
      exists "product_rating", d. simpl; auto 10. }
  destruct (get_column "total_reviews" (rename_columns strip csv)) as [ct|] eqn:Ht.
  2:{ right. destruct (missing_reviews csv cd co cr Hd Ho Hr Ht) as [d H].
      exists "total_reviews", d. simpl; auto 10. }
  destruct (get_column "purchased_last_month" (rename_columns strip csv)) as [cp|] eqn:Hp.
  2:{ right. destruct (missing_purchased csv cd co cr ct Hd Ho Hr Ht Hp) as [d H].
      exists "purchased_last_month", d. simpl; auto 10. }
  left. exists cd, co, cr, ct, cp.
  destruct (load_data_run csv cd co cr ct cp Hd Ho Hr Ht Hp) as [out [Hrun Hprep]].
  exists out. do 5 (split; [reflexivity|]). split; assumption.
Qed.

End Required.

(* ===================================================================== *)
(** * Rows of the input and of the output *)
(* ===================================================================== *)

Module Rows.

Import Float64 Text Pandas App PandasFacts SeriesFacts Run FloatFacts Required.

(** ** Kept rows *)

Lemma In_select_at_label idx mask (i : nat) :
  NoDup idx -> (In i (select mask idx) <-> at_label idx mask i = Some true).
Proof.
  revert mask. induction idx as [|j idx IH]; intros mask Hnd.
  - rewrite select_nil_r. simpl. split; [contradiction|].
    now destruct mask.
  - inversion Hnd; subst. destruct mask as [|b mask]; simpl.
    { split; [contradiction|discriminate]. }
    destruct (Nat.eqb j i) eqn:E.
    + apply Nat.eqb_eq in E. subst j. destruct b; simpl.
      * split; auto.
      * split; [|discriminate]. intros Hin. apply select_In in Hin.
        contradiction.
    + apply Nat.eqb_neq in E. destruct b; simpl; rewrite <- (IH mask); auto.
      * split; [intros [?|?]; [contradiction|assumption] | auto].
      * reflexivity.
Qed.

Lemma kept_mask_at idx cd (i : nat) :
  at_label idx (kept_mask cd) i =
  option_map (fun c => negb (is_nan (price_of c))) (at_label idx cd i).
Proof.
  unfold kept_mask. rewrite !at_label_map. now destruct (at_label idx cd i).
Qed.

(** The rows [dropna] keeps are those whose discounted price reads as a
    number. *)
Lemma kept_iff idx cd (i : nat) :
  NoDup idx ->
  (In i (kept cd idx) <->
   exists c, at_label idx cd i = Some c /\ is_nan (price_of c) = false).
Proof.
  intros Hnd. unfold kept. rewrite In_select_at_label, kept_mask_at by assumption.
  destruct (at_label idx cd i) as [c|]; simpl.
  - split.
    + intros H. exists c. split; auto.
      destruct (is_nan (price_of c)); [discriminate|reflexivity].
    + intros [c' [E H]]. inversion E; subst. now rewrite H.
  - split; [discriminate|]. intros [c' [E _]]. discriminate.
Qed.

(** A kept row has, in every column, the cell it had. *)
Lemma kept_row {A : Type} idx cd (l : list A) (i : nat) :
  NoDup idx -> In i (kept cd idx) ->
  at_label (kept cd idx) (kept cd l) i = at_label idx l i.
Proof.
  intros Hnd Hin. unfold kept in *. rewrite at_label_select by assumption.
  apply In_select_at_label in Hin; auto. now rewrite Hin.
Qed.

(** ** Columns of a well-formed frame *)

Lemma assoc_rename_In f name c l :
  assoc name (map (fun nc : string * Series => (f (fst nc), snd nc)) l) = Some c ->
  exists n, In (n, c) l.
Proof.
  induction l as [|[n c'] l IH]; simpl; [discriminate|].
  destruct (String.eqb (f n) name).
  - intros E. inversion E; subst. eauto.
  - intros E. destruct (IH E) as [n' H]. eauto.
Qed.

Lemma column_length csv name c :
  well_formed csv -> get_column name (stripped csv) = Some c ->
  List.length c = List.length (index csv).
Proof.
  intros [_ [Hall _]] H. apply assoc_rename_In in H. destruct H as [n Hin].
  rewrite Forall_forall in Hall. exact (Hall _ Hin).
Qed.

(** Every row of a well-formed frame has a cell in every column. *)
Lemma cell_exists csv name c (i : nat) :
  well_formed csv -> get_column name (stripped csv) = Some c ->
  In i (index csv) -> exists v, at_label (index csv) c i = Some v.
Proof.
  intros Hwf H Hin. apply at_label_In; auto. eapply column_length; eauto.
Qed.

Lemma at_stripped csv (i : nat) name c :
  get_column name (stripped csv) = Some c ->
  at_ (stripped csv) i name = at_label (index csv) c i.
Proof. intros H. unfold at_. now rewrite H. Qed.

(** ** A successful run *)

(** A run that returns went through: the five columns were there and the
    frame returned is the prepared one. *)
Lemma success csv s out s' :
  load_data csv s = (inr out, s') ->
  exists cd co cr ct cp,
    get_column "discounted_price" (stripped csv) = Some cd /\
    get_column "original_price" (stripped csv) = Some co /\
    get_column "product_rating" (stripped csv) = Some cr /\
    get_column "total_reviews" (stripped csv) = Some ct /\
    get_column "purchased_last_month" (stripped csv) = Some cp /\
    prepared csv cd co cr ct cp out /\
    s' = mkSession out (shown s ++ warnings csv).
Proof.
  intros Hrun.
  destruct (load_data_outcome csv)
    as [(cd & co & cr & ct & cp & out0 & Hd & Ho & Hr & Ht & Hp & Hprep & H)
       |(name & d & _ & _ & H)].
  - rewrite H in Hrun. inversion Hrun; subst.
    exists cd, co, cr, ct, cp. do 5 (split; [assumption|]).
    split; [assumption|reflexivity].
  - rewrite H in Hrun. discriminate.
Qed.

Lemma nonneg_leb x : nonneg x = true -> leb zero x = true.
Proof. destruct x as [[]|[]| |[] m e]; try discriminate; reflexivity. Qed.

Section Output.

Variables (csv out : DataFrame) (cd co cr ct cp : Series).
Hypothesis Hwf : well_formed csv.
Hypothesis Hd : get_column "discounted_price" (stripped csv) = Some cd.
Hypothesis Ho : get_column "original_price" (stripped csv) = Some co.
Hypothesis Hprep : prepared csv cd co cr ct cp out.

Let Hnd : NoDup (index csv) := proj1 Hwf.

Lemma out_row_in (i : nat) : In i (index out) -> In i (index csv).
Proof.
  rewrite (p_index _ _ _ _ _ _ _ Hprep). unfold kept. apply select_In.
Qed.

(** The price cells of an output row. *)
Lemma out_prices (i : nat) :
  In i (index out) ->
  exists vd vo,
    at_ (stripped csv) i "discounted_price" = Some vd /\
    at_ (stripped csv) i "original_price" = Some vo /\
    is_nan (price_of vd) = false /\
    at_ out i "discounted_price" = Some (CFloat (price_of vd)) /\
    at_ out i "original_price" =
      Some (CFloat (fill_from (price_of vo) (price_of vd))) /\
    at_ out i "Discount %" =
      Some (CFloat (discount_percent
                      (fill_from (price_of vo) (price_of vd)) (price_of vd))).
Proof.
  intros Hin. pose proof (out_row_in i Hin) as Hin0.
  destruct Hprep as [Hidx Hpd Hpo _ _ _ _ Hdisc _ _ _ _ _ _].
  rewrite Hidx in Hin.
  destruct (proj1 (kept_iff _ cd i Hnd) Hin) as [vd [Evd Hvd]].
  destruct (cell_exists csv _ co i Hwf Ho Hin0) as [vo Evo].
  exists vd, vo.
  rewrite (at_stripped _ _ _ _ Hd), (at_stripped _ _ _ _ Ho).
  unfold at_. rewrite Hpd, Hpo, Hdisc, Hidx. unfold of_values.
  rewrite !at_label_map, at_label_map2, !kept_row by assumption.
  rewrite at_label_map2, !at_label_map, Evd, Evo. simpl.
  repeat split; auto.
Qed.

(** The cell of an output row in a column that a presence test
    guards. *)
Lemma out_optional name g v (i : nat) :
  In i (index out) ->
  at_label (index out) (optional csv cd name g v) i =
  match get_column name (stripped csv) with
  | Some c => at_label (kept cd (index csv)) (g (kept cd c)) i
  | None => Some v
  end.
Proof.
  intros Hin. rewrite (p_index _ _ _ _ _ _ _ Hprep) in *.
  unfold optional, guarded. rewrite has_column_get.
  destruct (get_column name (stripped csv)) as [c|]; simpl; auto.
  now apply at_label_repeat_In.
Qed.

(** When the source column is there, the guarded column holds the
    converted cell of the same row; when it is not, the default. *)
Lemma out_converted name dst g f v0 (i : nat) v :
  get_column dst out = Some (optional csv cd name g v0) ->
  (forall c, g c = map f c) ->
  In i (index out) ->
  at_ (stripped csv) i name = Some v ->
  at_ out i dst = Some (f v).
Proof.
  intros Hdst Hg Hin Hv. unfold at_ in *. rewrite Hdst, out_optional by assumption.
  destruct (get_column name (stripped csv)) as [c|]; [|discriminate].
  rewrite (p_index _ _ _ _ _ _ _ Hprep) in Hin.
  rewrite Hg, at_label_map, kept_row by assumption.
  cbn [index stripped rename_columns] in Hv. now rewrite Hv.
Qed.

Lemma out_default name dst g v0 (i : nat) :
  get_column dst out = Some (optional csv cd name g v0) ->
  get_column name (stripped csv) = None ->
  In i (index out) ->
  at_ out i dst = Some v0.
Proof.
  intros Hdst Hnone Hin. unfold at_. rewrite Hdst, out_optional by assumption.
  now rewrite Hnone.
Qed.

End Output.

Lemma coupon_column c :
  gt (str_len (astype_str c)) 3 = map (fun v => CBool (3 <? len (str_of v))) c.
Proof. unfold gt, str_len, astype_str. now rewrite !map_map. Qed.

(** A message is shown for a column exactly when it is absent. *)
Lemma warning_absent csv name msg :
  get_column name (stripped csv) = None -> warning (stripped csv) name msg = [msg].
Proof. intros H. unfold warning. now rewrite has_column_get, H. Qed.

End Rows.

(* ===================================================================== *)
(** * Sample inputs *)
(* ===================================================================== *)

Module Samples.

Import Float64 Text Pandas App Run.

(** The float64 nearest to [m * 10^e]. *)
Definition dec (m : N) (e : Z) : float64 := of_decimal m e.

(** A fresh page: nothing shown yet, no frame loaded. *)
Definition start : session := mkSession (mkFrame [] []) [].

(** Four listings as [read_csv] returns them: text where a column holds
    text, numbers where every entry is a number, NaN for empty fields.
    The header of the first price column carries blanks. *)
Definition listings : DataFrame :=
  mkFrame [0; 1; 2; 3]%nat
    [ ("product_title",
        [CStr "Wireless Mouse"; CStr "USB Cable"; CStr "Desk Lamp"; CStr "Notebook"]);
      (" discounted_price ",
        [CStr "89.68-99.99"; CStr "Free"; CStr "50.00"; CStr "10"]);
      ("original_price",
        [CFloat (dec 120 0); CFloat (dec 30 0); NaN; CFloat zero]);
      ("product_category",
        [CStr "Electronics"; NaN; CStr "Home"; CStr "Office"]);
      ("product_rating",
        [CFloat (dec 45 (-1)); NaN; CFloat (dec 35 (-1)); NaN]);
      ("total_reviews", [CInt 120; CInt 15; CInt 0; CInt 7]);
      ("purchased_last_month",
        [CFloat (dec 300 0); NaN; CFloat (dec 50 0); CFloat (dec 5 0)]);
      ("is_best_seller",
        [CStr "Best Seller"; CStr "No Badge"; CStr "False"; NaN]);
      ("has_coupon",
        [CStr "Save 15% with coupon"; CStr "No Coupon"; CStr "no"; NaN]);
      ("sustainability_tags",
        [CStr "Carbon impact"; NaN; NaN; NaN]);
      ("is_sponsored",
        [CStr "Sponsored"; CStr "Organic"; CStr "Organic"; NaN]) ].

Definition listings_result : (exn + DataFrame) * session :=
  Eval vm_compute in load_data listings start.

Definition listings_out : DataFrame :=
  Eval vm_compute in
    match fst listings_result with inr d => d | inl _ => mkFrame [] [] end.

Definition listings_end : session := Eval vm_compute in snd listings_result.

(** Two listings with only the columns [load_data] reads unguarded. *)
Definition bare : DataFrame :=
  mkFrame [0; 1]%nat
    [ ("discounted_price", [CFloat (dec 1999 (-2)); CFloat (dec 5 0)]);
      ("original_price", [CFloat (dec 25 0); CFloat (dec 5 0)]);
      ("product_rating", [CFloat (dec 4 0); NaN]);
      ("total_reviews", [CInt 3; CInt 0]);
      ("purchased_last_month", [CInt 10; CInt 2]) ].

Definition bare_out : DataFrame :=
  Eval vm_compute in
    match fst (load_data bare start) with inr d => d | inl _ => mkFrame [] [] end.

Definition bare_end : session := Eval vm_compute in snd (load_data bare start).

(** The same with no [original_price] column. *)
Definition no_original : DataFrame :=
  mkFrame [0; 1]%nat
    [ ("discounted_price", [CFloat (dec 1999 (-2)); CFloat (dec 5 0)]);
      ("product_rating", [CFloat (dec 4 0); NaN]);
      ("total_reviews", [CInt 3; CInt 0]);
      ("purchased_last_month", [CInt 10; CInt 2]) ].

(** Listings none of which has a rating. *)
Definition unrated : DataFrame :=
  mkFrame [0; 1]%nat
    [ ("discounted_price", [CFloat (dec 1999 (-2)); CFloat (dec 5 0)]);
      ("original_price", [CFloat (dec 25 0); CFloat (dec 5 0)]);
      ("product_rating", [NaN; NaN]);
      ("total_reviews", [CInt 3; CInt 0]);
      ("purchased_last_month", [CInt 10; CInt 2]) ].

Lemma listings_well_formed : well_formed listings.
Proof.
  split; [|split].
  - repeat constructor; simpl; intuition discriminate.
  - repeat constructor.
  - vm_compute. repeat constructor; simpl; intuition discriminate.
Defined.

Lemma bare_well_formed : well_formed bare.
Proof.
  split; [|split].
  - repeat constructor; simpl; intuition discriminate.
  - repeat constructor.
  - vm_compute. repeat constructor; simpl; intuition discriminate.
Defined.

End Samples.

(* ===================================================================== *)
(** * The properties of the preparation pipeline *)
(* ===================================================================== *)

Import Float64 Text Pandas App PandasFacts SeriesFacts Run FloatFacts Required
  Rows Samples.

(** ** Prices and dropped rows *)

(** C1.  In the frame [load_data] returns, every row has a discounted
    price that is a number (not NaN) with its sign bit clear: a finite
    number that is not below zero, or +infinity.  A row of the input is in
    the output exactly when the text of its discounted price, cut at the
    first [-], reads as a number; so rows with an unreadable price (such as
    "Free") are gone, and a row that is gone had an unreadable price:
    nothing else removes rows. *)
Theorem discounted_price_valid :
  forall csv s out s',
    well_formed csv ->
    load_data csv s = (inr out, s') ->
    (forall i, In i (index out) ->
       exists x, at_ out i "discounted_price" = Some (CFloat x) /\
                 is_nan x = false /\ nonneg x = true /\ leb zero x = true) /\
    (forall i v, at_ (stripped csv) i "discounted_price" = Some v ->
       (In i (index out) <-> is_nan (price_of v) = false)) /\
    (forall i, In i (index out) -> In i (index csv)) /\
    (forall i, In i (index csv) -> ~ In i (index out) ->
       exists v, at_ (stripped csv) i "discounted_price" = Some v /\
                 is_nan (price_of v) = true) /\
    price_of (CStr "Free") = nan.
Proof.
  intros csv s out s' Hwf Hrun.
  destruct (success _ _ _ _ Hrun)
    as (cd & co & cr & ct & cp & Hd & Ho & _ & _ & _ & Hprep & _).
  assert (Hiff : forall i v, at_ (stripped csv) i "discounted_price" = Some v ->
            (In i (index out) <-> is_nan (price_of v) = false)).
  { intros i v Hv. rewrite (at_stripped _ _ _ _ Hd) in Hv.
    rewrite (p_index _ _ _ _ _ _ _ Hprep), (kept_iff _ cd i (proj1 Hwf)).
    split.
    - intros (c & Ec & Hc). congruence.
    - intros Hc. eauto. }
  split; [|split; [exact Hiff|split; [|split]]].
  - intros i Hin.
    destruct (out_prices csv out cd co cr ct cp Hwf Hd Ho Hprep i Hin)
      as (vd & vo & _ & _ & Hnan & Hout & _).
    exists (price_of vd). split; [assumption|]. split; [assumption|].
    pose proof (price_not_nan_nonneg _ Hnan) as Hpos.
    split; [assumption|]. now apply nonneg_leb.
  - intros i. eapply out_row_in; eauto.
  - intros i Hin0 Hout.
    destruct (cell_exists csv _ cd i Hwf Hd Hin0) as [v Ev].
    rewrite <- (at_stripped _ _ _ _ Hd) in Ev.
    exists v. split; [assumption|].
    destruct (is_nan (price_of v)) eqn:E; [reflexivity|].
    exfalso. apply Hout. now apply (Hiff i v Ev).
  - vm_compute. reflexivity.
Qed.

Lemma discounted_price_valid_witness :
  well_formed listings /\
  load_data listings start = (inr listings_out, listings_end) /\
  (exists x, at_ listings_out 0 "discounted_price" = Some (CFloat x) /\
             is_nan x = false /\ nonneg x = true /\ leb zero x = true) /\
  at_ (stripped listings) 1 "discounted_price" = Some (CStr "Free") /\
  ~ In 1%nat (index listings_out).
Proof.
  assert (Hrun : load_data listings start = (inr listings_out, listings_end))
    by (vm_compute; reflexivity).
  destruct (discounted_price_valid listings start listings_out listings_end
              listings_well_formed Hrun) as (Hrow & Hkeep & _).
  split; [exact listings_well_formed|]. split; [exact Hrun|]. split.
  - apply Hrow. vm_compute. auto.
  - split; [reflexivity|]. intros Hin.
    apply (Hkeep 1%nat (CStr "Free") eq_refl) in Hin.
    vm_compute in Hin. discriminate.
Defined.

(** Two listings, the price of the second infinite: the file says [inf],
    which [read_csv] reads as a float. *)
Definition boundless : DataFrame :=
  mkFrame [0; 1]%nat
    [ ("discounted_price", [CFloat (dec 1999 (-2)); CFloat inf]);
      ("original_price", [CFloat (dec 25 0); CFloat (dec 5 0)]);
      ("product_rating", [CFloat (dec 4 0); NaN]);
      ("total_reviews", [CInt 3; CInt 0]);
      ("purchased_last_month", [CInt 10; CInt 2]) ].

(** C1 as it was stated fails: an infinite price is no decimal, yet its
    row stays, with the infinite price. *)
Theorem infinite_price_is_kept :
  at_ (stripped boundless) 1 "discounted_price" = Some (CFloat inf) /\
  str_of (CFloat inf) = "inf" /\
  exists out s',
    load_data boundless start = (inr out, s') /\
    index out = [0; 1]%nat /\
    at_ out 1 "discounted_price" = Some (CFloat inf).
Proof.
  split; [reflexivity|]. split; [vm_compute; reflexivity|].
  destruct (load_data boundless start) as [[e|out] s'] eqn:E;
    vm_compute in E; [discriminate|].
  exists out, s'. injection E as <- <-. repeat split.
Qed.

(** Whole numbers are held exactly by a float64 below 2^53; a column of
    larger whole numbers is one pandas keeps as int64. *)
Definition two53 : float64 := of_Z (2 ^ 53).


(** [x] is a number of magnitude below 2^53. *)
Definition within (x : float64) : bool := ltb (SFabs x) two53.



(** ** The discount *)

(** C2.  In every row of the output the discount is
    [(original - discounted) / original * 100], with 0 in place of NaN,
    brought into the interval from 0 to 100; it is therefore between 0 and
    100, and it is 0 whenever the quotient is NaN and whenever the original
    price is zero. *)
Theorem discount_percent_clamped :
  forall csv s out s' i,
    well_formed csv ->
    load_data csv s = (inr out, s') ->
    In i (index out) ->
    exists o d,
      at_ out i "original_price" = Some (CFloat o) /\
      at_ out i "discounted_price" = Some (CFloat d) /\
      let q := div (sub o d) o in
      let p := clip1 (of_Z 0) (of_Z 100) (fill_with zero (mul q (of_Z 100))) in
      at_ out i "Discount %" = Some (CFloat p) /\
      leb (of_Z 0) p = true /\ leb p (of_Z 100) = true /\
      (is_nan q = true -> p = zero) /\
      (eqb o zero = true -> p = zero).
Proof.
  intros csv s out s' i Hwf Hrun Hin.
  destruct (success _ _ _ _ Hrun)
    as (cd & co & cr & ct & cp & Hd & Ho & _ & _ & _ & Hprep & _).
  destruct (out_prices csv out cd co cr ct cp Hwf Hd Ho Hprep i Hin)
    as (vd & vo & _ & _ & Hnan & Hout & Horig & Hdisc).
  exists (fill_from (price_of vo) (price_of vd)), (price_of vd).
  split; [assumption|]. split; [assumption|]. cbv zeta.
  fold (discount_percent (fill_from (price_of vo) (price_of vd)) (price_of vd)).
  split; [assumption|].
  destruct (discount_range (fill_from (price_of vo) (price_of vd)) (price_of vd))
    as [Hlo Hhi].
  split; [assumption|]. split; [assumption|]. split.
  - apply discount_nan_quotient.
  - pose proof (price_not_nan_nonneg vd Hnan) as Hd0.
    assert (Ho0 : nonneg (fill_from (price_of vo) (price_of vd)) = true).
    { unfold fill_from. destruct (is_nan (price_of vo)) eqn:E; auto.
      now apply price_not_nan_nonneg. }
    intros Hz.
    destruct (fill_from (price_of vo) (price_of vd)) as [[]|[]| |[] m e];
      try discriminate.
    now apply discount_zero_price.
Qed.

Lemma discount_percent_clamped_witness :
  well_formed listings /\
  load_data listings start = (inr listings_out, listings_end) /\
  In 3%nat (index listings_out) /\
  at_ listings_out 3 "original_price" = Some (CFloat zero) /\
  at_ listings_out 3 "Discount %" = Some (CFloat zero).
Proof.
  assert (Hrun : load_data listings start = (inr listings_out, listings_end))
    by (vm_compute; reflexivity).
  assert (Hin : In 3%nat (index listings_out)) by (vm_compute; auto).
  split; [exact listings_well_formed|]. split; [exact Hrun|].
  split; [exact Hin|]. split; [reflexivity|].
  destruct (discount_percent_clamped listings start listings_out listings_end
              3%nat listings_well_formed Hrun Hin)
    as (o & d & Ho & Hd & Hp & _ & _ & _ & Hzero).
  assert (o = zero) by (vm_compute in Ho; injection Ho as <-; reflexivity).
  subst o.
  rewrite Hp. f_equal. f_equal. apply Hzero. reflexivity.
Defined.

(** C8.  Where the original price of a row reads as NaN, the output has
    the row's discounted price as its original price, and a discount of 0
    (a missing original price beside a discounted price of 50.00 gives
    50.0 and 0). *)
Theorem original_price_backfilled :
  forall csv s out s' i vo,
    well_formed csv ->
    load_data csv s = (inr out, s') ->
    In i (index out) ->
    at_ (stripped csv) i "original_price" = Some vo ->
    is_nan (price_of vo) = true ->
    exists d,
      at_ out i "discounted_price" = Some (CFloat d) /\
      at_ out i "original_price" = Some (CFloat d) /\
      at_ out i "Discount %" = Some (CFloat zero).
Proof.
  intros csv s out s' i vo Hwf Hrun Hin Hvo Hnan.
  destruct (success _ _ _ _ Hrun)
    as (cd & co & cr & ct & cp & Hd & Ho & _ & _ & _ & Hprep & _).
  destruct (out_prices csv out cd co cr ct cp Hwf Hd Ho Hprep i Hin)
    as (vd & vo' & _ & Evo & Hnum & Hout & Horig & Hdisc).
  assert (vo' = vo) by congruence. subst vo'.
  unfold fill_from in *. rewrite Hnan in *.
  exists (price_of vd). split; [assumption|]. split; [assumption|].
  rewrite Hdisc. now rewrite discount_same by (now apply price_not_nan_nonneg).
Qed.

Lemma original_price_backfilled_witness :
  well_formed listings /\
  load_data listings start = (inr listings_out, listings_end) /\
  at_ (stripped listings) 2 "discounted_price" = Some (CStr "50.00") /\
  at_ (stripped listings) 2 "original_price" = Some NaN /\
  at_ listings_out 2 "original_price" = Some (CFloat (of_decimal 50 0)) /\
  at_ listings_out 2 "Discount %" = Some (CFloat zero).
Proof.
  assert (Hrun : load_data listings start = (inr listings_out, listings_end))
    by (vm_compute; reflexivity).
  assert (Hin : In 2%nat (index listings_out)) by (vm_compute; auto).
  split; [exact listings_well_formed|]. split; [exact Hrun|].
  split; [reflexivity|]. split; [reflexivity|].
  destruct (original_price_backfilled listings start listings_out listings_end
              2%nat NaN listings_well_formed Hrun Hin eq_refl eq_refl)
    as (d & Hd & Ho & Hp).
  assert (d = of_decimal 50 0)
    by (vm_compute in Hd; injection Hd as <-; vm_compute; reflexivity).
  subst d. split; assumption.
Defined.

(** ** Badges and flags *)

Lemma str_of_missing v : isna v = true -> str_of v = "nan".
Proof.
  destruct v as [t|b|z|x]; try discriminate.
  destruct x; try discriminate. reflexivity.
Qed.

(** C7.  For a row whose [has_coupon] cell is [v], [has_coupon_bool] is
    true exactly when [v] is not missing and its text is longer than three
    characters. *)
Theorem has_coupon_bool_rule :
  forall csv s out s' i v,
    well_formed csv ->
    load_data csv s = (inr out, s') ->
    In i (index out) ->
    at_ (stripped csv) i "has_coupon" = Some v ->
    exists b,
      at_ out i "has_coupon_bool" = Some (CBool b) /\
      (b = true <-> isna v = false /\ 3 < len (str_of v)).
Proof.
  intros csv s out s' i v Hwf Hrun Hin Hv.
  destruct (success _ _ _ _ Hrun)
    as (cd & co & cr & ct & cp & Hd & Ho & _ & _ & _ & Hprep & _).
  exists (3 <? len (str_of v)). split.
  - exact (out_converted csv out cd co cr ct cp Hwf Hprep
             "has_coupon" "has_coupon_bool" _ _ _ i v
             (p_coupon _ _ _ _ _ _ _ Hprep) coupon_column Hin Hv).
  - rewrite Z.ltb_lt. split; [|tauto].
    intros Hlen. split; [|assumption].
    destruct (isna v) eqn:E; [|reflexivity].
    rewrite (str_of_missing v E) in Hlen. vm_compute in Hlen. discriminate.
Qed.

Lemma has_coupon_bool_rule_witness :
  well_formed listings /\
  load_data listings start = (inr listings_out, listings_end) /\
  at_ (stripped listings) 0 "has_coupon" = Some (CStr "Save 15% with coupon") /\
  at_ listings_out 0 "has_coupon_bool" = Some (CBool true) /\
  at_ (stripped listings) 2 "has_coupon" = Some (CStr "no") /\
  at_ listings_out 2 "has_coupon_bool" = Some (CBool false) /\
  at_ (stripped listings) 3 "has_coupon" = Some NaN /\
  at_ listings_out 3 "has_coupon_bool" = Some (CBool false).
Proof.
  assert (Hrun : load_data listings start = (inr listings_out, listings_end))
    by (vm_compute; reflexivity).
  assert (H0 : In 0%nat (index listings_out)) by (vm_compute; auto).
  assert (H2 : In 2%nat (index listings_out)) by (vm_compute; auto 10).
  assert (H3 : In 3%nat (index listings_out)) by (vm_compute; auto 10).
  split; [exact listings_well_formed|]. split; [exact Hrun|].
  destruct (has_coupon_bool_rule listings start listings_out listings_end 0%nat
              _ listings_well_formed Hrun H0 eq_refl) as (b0 & E0 & I0).
  destruct (has_coupon_bool_rule listings start listings_out listings_end 2%nat
              _ listings_well_formed Hrun H2 eq_refl) as (b2 & E2 & I2).
  destruct (has_coupon_bool_rule listings start listings_out listings_end 3%nat
              _ listings_well_formed Hrun H3 eq_refl) as (b3 & E3 & I3).
  split; [reflexivity|]. split.
  { rewrite E0. f_equal. f_equal. apply I0. split; [reflexivity|].
    vm_compute. reflexivity. }
  split; [reflexivity|]. split.
  { rewrite E2. f_equal. f_equal. destruct b2; [|reflexivity].
    destruct (proj1 I2 eq_refl) as [_ H]. vm_compute in H. discriminate. }
  split; [reflexivity|].
  rewrite E3. f_equal. f_equal. destruct b3; [|reflexivity].
  destruct (proj1 I3 eq_refl) as [H _]. vm_compute in H. discriminate.
Defined.

(** C10.  Where [is_best_seller] is in the header, its cell [v] becomes
    [bool(v)]: true for every text that is not empty (so also for "False"
    and "no") and for a missing entry, and false for the empty text, the
    integer 0, a float equal to 0 and the boolean false, and for nothing
    else. *)
Theorem best_seller_truthiness :
  (forall t, t <> "" -> truthy (CStr t) = true) /\
  truthy (CStr "False") = true /\
  truthy (CStr "no") = true /\
  (forall v, isna v = true -> truthy v = true) /\
  (forall v, truthy v = false <->
     v = CStr "" \/ v = CInt 0 \/ v = CBool false \/
     exists x, v = CFloat x /\ eqb x zero = true) /\
  map truthy [CStr ""; CInt 0; CBool false; CFloat zero; CFloat (opp zero)]
    = [false; false; false; false; false] /\
  map truthy [CBool true; CInt 1; CInt (-2); CFloat (dec 5 (-1)); CStr " "; CStr "0"]
    = [true; true; true; true; true; true] /\
  forall csv s out s' i v,
    well_formed csv ->
    load_data csv s = (inr out, s') ->
    In i (index out) ->
    at_ (stripped csv) i "is_best_seller" = Some v ->
    at_ out i "is_best_seller" = Some (CBool (truthy v)).
Proof.
  split.
  { intros t Ht. simpl. apply negb_true_iff. now apply String.eqb_neq. }
  split; [reflexivity|]. split; [reflexivity|]. split.
  { intros [t|b|z|x]; try discriminate. destruct x; try discriminate.
    reflexivity. }
  split.
  { intros v. split.
    - destruct v as [t|b|z|x]; simpl; intros H.
      + apply negb_false_iff, String.eqb_eq in H. subst. auto.
      + subst. auto.
      + apply negb_false_iff, Z.eqb_eq in H. subst. auto.
      + apply negb_false_iff in H. right. right. right. eauto.
    - intros [->|[->|[->|(x & -> & Hx)]]]; try reflexivity.
      simpl. now rewrite Hx. }
  split; [vm_compute; reflexivity|]. split; [vm_compute; reflexivity|].
  intros csv s out s' i v Hwf Hrun Hin Hv.
  destruct (success _ _ _ _ Hrun)
    as (cd & co & cr & ct & cp & Hd & Ho & _ & _ & _ & Hprep & _).
  exact (out_converted csv out cd co cr ct cp Hwf Hprep
           "is_best_seller" "is_best_seller" _ _ _ i v
           (p_best_seller _ _ _ _ _ _ _ Hprep) (fun c => eq_refl) Hin Hv).
Qed.

(** Two listings whose badge column holds booleans. *)
Definition badged : DataFrame :=
  mkFrame [0; 1]%nat
    [ ("discounted_price", [CFloat (dec 1999 (-2)); CFloat (dec 5 0)]);
      ("original_price", [CFloat (dec 25 0); CFloat (dec 5 0)]);
      ("product_rating", [CFloat (dec 4 0); NaN]);
      ("total_reviews", [CInt 3; CInt 0]);
      ("purchased_last_month", [CInt 10; CInt 2]);
      ("is_best_seller", [CBool true; CBool false]) ].

Lemma badged_well_formed : well_formed badged.
Proof.
  split; [|split].
  - repeat constructor; simpl; intuition discriminate.
  - repeat constructor.
  - vm_compute. repeat constructor; simpl; intuition discriminate.
Defined.

Lemma best_seller_truthiness_witness :
  well_formed listings /\
  load_data listings start = (inr listings_out, listings_end) /\
  at_ (stripped listings) 2 "is_best_seller" = Some (CStr "False") /\
  at_ listings_out 2 "is_best_seller" = Some (CBool true) /\
  at_ (stripped listings) 3 "is_best_seller" = Some NaN /\
  at_ listings_out 3 "is_best_seller" = Some (CBool true) /\
  well_formed badged /\
  at_ (stripped badged) 1 "is_best_seller" = Some (CBool false) /\
  exists out s',
    load_data badged start = (inr out, s') /\
    at_ out 1 "is_best_seller" = Some (CBool false).
Proof.
  assert (Hrun : load_data listings start = (inr listings_out, listings_end))
    by (vm_compute; reflexivity).
  assert (H2 : In 2%nat (index listings_out)) by (vm_compute; auto 10).
  assert (H3 : In 3%nat (index listings_out)) by (vm_compute; auto 10).
  destruct best_seller_truthiness as (_ & _ & _ & _ & _ & _ & _ & Hrows).
  split; [exact listings_well_formed|]. split; [exact Hrun|].
  split; [reflexivity|]. split.
  { exact (Hrows listings start listings_out listings_end 2%nat _
             listings_well_formed Hrun H2 eq_refl). }
  split; [reflexivity|]. split.
  { exact (Hrows listings start listings_out listings_end 3%nat _
             listings_well_formed Hrun H3 eq_refl). }
  split; [exact badged_well_formed|]. split; [reflexivity|].
  destruct (load_data badged start) as [[e|out] s'] eqn:E;
    [vm_compute in E; discriminate|].
  exists out, s'. split; [reflexivity|].
  assert (H1 : In 1%nat (index out))
    by (vm_compute in E; injection E as <- _; simpl; auto).
  exact (Hrows badged start out s' 1%nat (CBool false)
           badged_well_formed E H1 eq_refl).
Defined.

(** C6, as the specification states it: with [is_sponsored] in the header,
    every [is_sponsored] of the output is a boolean. *)
Definition sponsored_is_boolean (csv : DataFrame) : Prop :=
  forall s out s' i v,
    load_data csv s = (inr out, s') ->
    has_column "is_sponsored" (column_names (stripped csv)) = true ->
    at_ out i "is_sponsored" = Some v ->
    exists b, v = CBool b.

(** The listings have the column, and the first row keeps its text. *)
Lemma sponsored_text_is_kept :
  load_data listings start = (inr listings_out, listings_end) /\
  at_ (stripped listings) 0 "is_sponsored" = Some (CStr "Sponsored") /\
  at_ listings_out 0 "is_sponsored" = Some (CStr "Sponsored") /\
  ~ sponsored_is_boolean listings.
Proof.
  split; [vm_compute; reflexivity|].
  split; [reflexivity|]. split; [reflexivity|]. intros H.
  destruct (H start listings_out listings_end 0%nat (CStr "Sponsored"))
    as [b Hb]; try (vm_compute; reflexivity).
  discriminate.
Qed.

(** C6, amended.  Without an [is_sponsored] column every row of the output
    has "Unknown" there and the message is shown; with the column, a
    missing entry becomes False and every other entry is kept as it is. *)
Theorem is_sponsored_filled :
  forall csv s out s' i,
    well_formed csv ->
    load_data csv s = (inr out, s') ->
    In i (index out) ->
    (get_column "is_sponsored" (stripped csv) = None ->
     at_ out i "is_sponsored" = Some (CStr "Unknown") /\
     In msg_sponsored (shown s')) /\
    (forall v, at_ (stripped csv) i "is_sponsored" = Some v ->
     at_ out i "is_sponsored" = Some (if isna v then CBool false else v)).
Proof.
  intros csv s out s' i Hwf Hrun Hin.
  destruct (success _ _ _ _ Hrun)
    as (cd & co & cr & ct & cp & Hd & Ho & _ & _ & _ & Hprep & Hs).
  split.
  - intros Hnone. split.
    + exact (out_default csv out cd co cr ct cp Hprep
               "is_sponsored" "is_sponsored" _ _ i
               (p_sponsored _ _ _ _ _ _ _ Hprep) Hnone Hin).
    + subst s'. cbn [shown]. apply in_or_app. right. unfold warnings.
      rewrite (warning_absent _ _ msg_sponsored Hnone).
      repeat (apply in_or_app; right). simpl. auto.
  - intros v Hv.
    exact (out_converted csv out cd co cr ct cp Hwf Hprep
             "is_sponsored" "is_sponsored" _
             (fun c => if isna c then CBool false else c) _ i v
             (p_sponsored _ _ _ _ _ _ _ Hprep) (fun c => eq_refl) Hin Hv).
Qed.

Lemma is_sponsored_filled_witness :
  well_formed bare /\
  load_data bare start = (inr bare_out, bare_end) /\
  at_ bare_out 0 "is_sponsored" = Some (CStr "Unknown") /\
  In msg_sponsored (shown bare_end).
Proof.
  assert (Hrun : load_data bare start = (inr bare_out, bare_end))
    by (vm_compute; reflexivity).
  assert (Hin : In 0%nat (index bare_out)) by (vm_compute; auto).
  split; [exact bare_well_formed|]. split; [exact Hrun|].
  exact (proj1 (is_sponsored_filled bare start bare_out bare_end 0%nat
                  bare_well_formed Hrun Hin) eq_refl).
Defined.

(** ** Columns that may be absent *)

(** C3, as the specification states it, for one column: whenever [name]
    is not in the header the run still returns a frame. *)
Definition absence_tolerated (name : string) : Prop :=
  forall csv s,
    get_column name (stripped csv) = None ->
    exists out s', load_data csv s = (inr out, s').

(** Without [original_price] the run ends in a KeyError. *)
Lemma absent_original_price_is_fatal :
  get_column "original_price" (stripped no_original) = None /\
  fst (load_data no_original start) = inl (KeyError "original_price") /\
  ~ absence_tolerated "original_price".
Proof.
  split; [reflexivity|]. split; [vm_compute; reflexivity|].
  intros H. destruct (H no_original start eq_refl) as (out & s' & Hrun).
  vm_compute in Hrun. discriminate.
Qed.

(** The presence tests of [load_data]: the column tested, the column
    assigned, the default for every row, and the message shown. *)
Definition optional_defaults : list (string * string * cell * string) :=
  [ ("product_category", "product_category", CStr "Unknown", msg_category);
    ("is_best_seller", "is_best_seller", CBool false, msg_best_seller);
    ("has_coupon", "has_coupon_bool", CBool false, msg_coupon);
    ("sustainability_tags", "is_sustainable", CBool false, msg_sustainability);
    ("is_sponsored", "is_sponsored", CStr "Unknown", msg_sponsored) ].

(** C3, amended.  The run fails with a KeyError, and shows nothing, as soon
    as one of [discounted_price], [original_price], [product_rating],
    [total_reviews], [purchased_last_month] is absent.  With these five
    present it returns; for each of [product_category], [is_best_seller],
    [has_coupon], [sustainability_tags], [is_sponsored] that is absent, the
    column of the table holds the default in every row and the message of
    the table is shown, and no other message is shown; an absent
    [product_title] is neither replaced nor reported. *)
Theorem optional_columns_defaulted :
  forall csv s,
    well_formed csv ->
    (forall name, In name required ->
       get_column name (stripped csv) = None ->
       exists name' s',
         In name' required /\
         load_data csv s = (inl (KeyError name'), s') /\ shown s' = shown s) /\
    ((forall name, In name required -> get_column name (stripped csv) <> None) ->
     exists out,
       load_data csv s = (inr out, mkSession out (shown s ++ warnings csv)) /\
       (forall src dst v msg,
          In (src, dst, v, msg) optional_defaults ->
          get_column src (stripped csv) = None ->
          In msg (warnings csv) /\
          forall i, In i (index out) -> at_ out i dst = Some v) /\
       (forall msg, In msg (warnings csv) ->
          exists src dst v,
            In (src, dst, v, msg) optional_defaults /\
            get_column src (stripped csv) = None) /\
       (get_column "product_title" (stripped csv) = None ->
        get_column "product_title" out = None)).
Proof.
  intros csv s _.
  destruct (load_data_outcome csv)
    as [(cd & co & cr & ct & cp & out & Hd & Ho & Hr & Ht & Hp & Hprep & Hrun)
       |(name' & d & Hreq & Hnone & Hrun)].
  - split.
    { intros name Hin Hnone. unfold required in Hin. simpl in Hin.
      destruct Hin as [<-|[<-|[<-|[<-|[<-|[]]]]]]; congruence. }
    intros _. exists out. split; [apply Hrun|]. split; [|split].
    + intros src dst v msg Hin Hnone. unfold optional_defaults in Hin.
      simpl in Hin.
      destruct Hin as [E|[E|[E|[E|[E|[]]]]]]; inversion E; subst; clear E;
        (split;
         [ unfold warnings; rewrite (warning_absent _ _ _ Hnone);
           repeat first [ apply in_or_app; left; simpl; now auto
                        | apply in_or_app; right ];
           simpl; auto
         | intros i Hi; eapply out_default; eauto ]).
      * apply (p_category _ _ _ _ _ _ _ Hprep).
      * apply (p_best_seller _ _ _ _ _ _ _ Hprep).
      * apply (p_coupon _ _ _ _ _ _ _ Hprep).
      * apply (p_sustainable _ _ _ _ _ _ _ Hprep).
      * apply (p_sponsored _ _ _ _ _ _ _ Hprep).
    + intros msg Hm. unfold warnings, warning in Hm.
      rewrite !has_column_get in Hm.
      repeat (apply in_app_or in Hm; destruct Hm as [Hm|Hm]).
      * destruct (get_column "product_category" (stripped csv)) eqn:E;
          [contradiction|]. destruct Hm as [<-|[]].
        exists "product_category", "product_category", (CStr "Unknown").
        split; [simpl; auto|assumption].
      * destruct (get_column "is_best_seller" (stripped csv)) eqn:E;
          [contradiction|]. destruct Hm as [<-|[]].
        exists "is_best_seller", "is_best_seller", (CBool false).
        split; [simpl; auto|assumption].
      * destruct (get_column "has_coupon" (stripped csv)) eqn:E;
          [contradiction|]. destruct Hm as [<-|[]].
        exists "has_coupon", "has_coupon_bool", (CBool false).
        split; [simpl; auto|assumption].
      * destruct (get_column "sustainability_tags" (stripped csv)) eqn:E;
          [contradiction|]. destruct Hm as [<-|[]].
        exists "sustainability_tags", "is_sustainable", (CBool false).
        split; [simpl; auto 10|assumption].
      * destruct (get_column "is_sponsored" (stripped csv)) eqn:E;
          [contradiction|]. destruct Hm as [<-|[]].
        exists "is_sponsored", "is_sponsored", (CStr "Unknown").
        split; [simpl; auto 10|assumption].
    + intros Hnone. rewrite (p_other _ _ _ _ _ _ _ Hprep), Hnone; [reflexivity|].
      unfold assigned. simpl. intuition discriminate.
  - split.
    + intros _ _ _. exists name', (mkSession d (shown s)).
      split; [assumption|]. split; [apply Hrun|reflexivity].
    + intros Hall. destruct (Hall name' Hreq Hnone).
Qed.

Lemma optional_columns_defaulted_witness :
  well_formed bare /\
  (forall name, In name required -> get_column name (stripped bare) <> None) /\
  load_data bare start = (inr bare_out, bare_end) /\
  shown bare_end =
    [msg_category; msg_best_seller; msg_coupon; msg_sustainability; msg_sponsored] /\
  at_ bare_out 0 "product_category" = Some (CStr "Unknown") /\
  at_ bare_out 0 "is_best_seller" = Some (CBool false) /\
  at_ bare_out 0 "has_coupon_bool" = Some (CBool false) /\
  at_ bare_out 0 "is_sustainable" = Some (CBool false) /\
  at_ bare_out 0 "is_sponsored" = Some (CStr "Unknown").
Proof.
  assert (Hreq : forall name, In name required ->
                   get_column name (stripped bare) <> None).
  { intros name Hin. unfold required in Hin. simpl in Hin.
    destruct Hin as [<-|[<-|[<-|[<-|[<-|[]]]]]]; vm_compute; discriminate. }
  destruct (proj2 (optional_columns_defaulted bare start bare_well_formed) Hreq)
    as (out & Hrun & Hdef & _ & _).
  assert (Hout : out = bare_out).
  { vm_compute in Hrun. injection Hrun as <-. reflexivity. }
  subst out.
  assert (Hin : In 0%nat (index bare_out)) by (vm_compute; auto).
  split; [exact bare_well_formed|].
  split; [exact Hreq|]. split; [vm_compute; reflexivity|].
  split; [vm_compute; reflexivity|].
  split.
  { apply (Hdef "product_category" "product_category" (CStr "Unknown") msg_category);
      [simpl; auto|reflexivity|exact Hin]. }
  split.
  { apply (Hdef "is_best_seller" "is_best_seller" (CBool false) msg_best_seller);
      [simpl; auto|reflexivity|exact Hin]. }
  split.
  { apply (Hdef "has_coupon" "has_coupon_bool" (CBool false) msg_coupon);
      [simpl; auto|reflexivity|exact Hin]. }
  split.
  { apply (Hdef "sustainability_tags" "is_sustainable" (CBool false) msg_sustainability);
      [simpl; auto 10|reflexivity|exact Hin]. }
  apply (Hdef "is_sponsored" "is_sponsored" (CStr "Unknown") msg_sponsored);
    [simpl; auto 10|reflexivity|exact Hin].
Defined.

(** ** Ratings *)

(** What the model does with ratings: a missing rating of a kept row is
    replaced by the mean of the ratings that are there, taken before
    anything is filled in. *)
Lemma rating_filled_with_mean :
  forall csv s out s' cd cr i v,
    well_formed csv ->
    load_data csv s = (inr out, s') ->
    get_column "discounted_price" (stripped csv) = Some cd ->
    get_column "product_rating" (stripped csv) = Some cr ->
    In i (index out) ->
    at_ (stripped csv) i "product_rating" = Some v ->
    at_ out i "product_rating" =
    Some (CFloat (fill_with (mean_of (map numeric_cell (kept cd cr)))
                    (numeric_cell v))).
Proof.
  intros csv s out s' cd cr i v Hwf Hrun Hd Hr Hin Hv.
  destruct (success _ _ _ _ Hrun)
    as (cd' & co & cr' & ct & cp & Hd' & _ & Hr' & _ & _ & Hprep & _).
  assert (cd' = cd) by congruence. assert (cr' = cr) by congruence. subst.
  rewrite (at_stripped _ _ _ _ Hr) in Hv.
  unfold at_. rewrite (p_rating _ _ _ _ _ _ _ Hprep).
  rewrite (p_index _ _ _ _ _ _ _ Hprep) in *.
  unfold of_values. rewrite !at_label_map, kept_row, Hv by (apply Hwf || assumption).
  reflexivity.
Qed.

(** The mean of no number at all is NaN. *)
Lemma mean_of_missing l :
  (forall x, In x l -> is_nan x = true) -> mean_of l = nan.
Proof.
  intros H. unfold mean_of.
  replace (filter (fun x => negb (is_nan x)) l) with (@nil float64).
  - reflexivity.
  - induction l as [|x l IH]; simpl; auto.
    rewrite (H x) by (simpl; auto). simpl. apply IH.
    intros y Hy. apply H. simpl; auto.
Qed.

(** C5 at the failing input: when no listing has a rating, the mean is
    NaN, and the ratings of the output are NaN as they were. *)
Theorem unrated_listings_stay_nan :
  at_ (stripped unrated) 0 "product_rating" = Some NaN /\
  at_ (stripped unrated) 1 "product_rating" = Some NaN /\
  exists out s',
    load_data unrated start = (inr out, s') /\
    index out = [0; 1]%nat /\
    at_ out 0 "product_rating" = Some NaN /\
    at_ out 1 "product_rating" = Some NaN.
Proof.
  split; [reflexivity|]. split; [reflexivity|].
  destruct (load_data unrated start) as [[e|out] s'] eqn:E;
    vm_compute in E; [discriminate|].
  exists out, s'. injection E as <- <-. repeat split.
Qed.

(* ===================================================================== *)
(** * More about the frame [load_data] returns *)
(* ===================================================================== *)

(** ** Counts and revenue *)

Module Derived.

Import Float64 Text Pandas App PandasFacts SeriesFacts Run FloatFacts Required
  Rows Samples.

Section Columns.

Variables (csv out : DataFrame) (cd co cr ct cp : Series).
Hypothesis Hwf : well_formed csv.
Hypothesis Hprep : prepared csv cd co cr ct cp out.

(** A count column of the output: the number read in the input cell of
    the same row, 0 where there is none. *)
Lemma out_filled_count (c : Series) (i : nat) v :
  In i (index out) ->
  at_label (index csv) c i = Some v ->
  at_label (index out)
    (of_values (map (fill_with zero) (map numeric_cell (kept cd c)))) i
  = Some (CFloat (fill_with zero (numeric_cell v))).
Proof.
  intros Hin Hv. rewrite (p_index _ _ _ _ _ _ _ Hprep) in *.
  unfold of_values. rewrite !at_label_map, kept_row, Hv by (apply Hwf || assumption).
  reflexivity.
Qed.

Lemma out_kept_row (c : Series) (i : nat) :
  In i (index out) ->
  at_label (index out) (kept cd c) i = at_label (index csv) c i.
Proof.
  intros Hin. rewrite (p_index _ _ _ _ _ _ _ Hprep) in *.
  apply kept_row; [apply Hwf|assumption].
Qed.

End Columns.

Lemma fill_zero_not_nan x : is_nan (fill_with zero x) = false.
Proof. unfold fill_with. now destruct (is_nan x) eqn:E. Qed.

Lemma mul_zero_r d :
  nonneg d = true ->
  mul d zero = match d with S754_infinity _ => nan | _ => zero end.
Proof. destruct d as [[]|[]| |[] m e]; try discriminate; reflexivity. Qed.

End Derived.

Import Derived.

(** What a count cell of the output holds, given the input cell [v] of
    the row: a number, never NaN; 0 where [v] is missing or is text that is
    not a number; and the number [v] stands for where that is below 2^53
    in magnitude (pandas may hold larger whole numbers as int64). *)
Definition count_of (v : cell) (x : float64) : Prop :=
  is_nan x = false /\
  (is_nan (numeric_cell v) = true -> x = zero) /\
  (within (numeric_cell v) = true -> x = numeric_cell v).

(** X1.  In every row of the output [total_reviews] and
    [purchased_last_month] are numbers, never NaN: 0 where the input cell
    is missing or is text that is not a number, and the number read from
    the input cell where that is below 2^53 in magnitude. *)
Theorem counts_filled :
  forall csv s out s' i,
    well_formed csv ->
    load_data csv s = (inr out, s') ->
    In i (index out) ->
    exists vr vp xr xp,
      at_ (stripped csv) i "total_reviews" = Some vr /\
      at_ (stripped csv) i "purchased_last_month" = Some vp /\
      at_ out i "total_reviews" = Some (CFloat xr) /\
      at_ out i "purchased_last_month" = Some (CFloat xp) /\
      count_of vr xr /\ count_of vp xp.
Proof.
  intros csv s out s' i Hwf Hrun Hin.
  destruct (success _ _ _ _ Hrun)
    as (cd & co & cr & ct & cp & Hd & Ho & Hr & Ht & Hp & Hprep & _).
  pose proof (out_row_in csv out cd co cr ct cp Hprep i Hin) as Hin0.
  destruct (cell_exists csv _ ct i Hwf Ht Hin0) as [vr Evr].
  destruct (cell_exists csv _ cp i Hwf Hp Hin0) as [vp Evp].
  exists vr, vp, (fill_with zero (numeric_cell vr)),
    (fill_with zero (numeric_cell vp)).
  rewrite (at_stripped _ _ _ _ Ht), (at_stripped _ _ _ _ Hp).
  split; [assumption|]. split; [assumption|].
  unfold at_.
  rewrite (p_reviews _ _ _ _ _ _ _ Hprep), (p_purchased _ _ _ _ _ _ _ Hprep).
  rewrite (out_filled_count csv out cd co cr ct cp Hwf Hprep ct i vr Hin Evr).
  rewrite (out_filled_count csv out cd co cr ct cp Hwf Hprep cp i vp Hin Evp).
  split; [reflexivity|]. split; [reflexivity|].
  assert (H : forall v, count_of v (fill_with zero (numeric_cell v))).
  { intros v. split; [apply fill_zero_not_nan|]. unfold fill_with.
    destruct (numeric_cell v) as [[]|[]| |[] m e]; simpl;
      split; auto; discriminate. }
  split; apply H.
Qed.

Lemma counts_filled_witness :
  well_formed listings /\
  load_data listings start = (inr listings_out, listings_end) /\
  at_ (stripped listings) 0 "purchased_last_month" = Some (CFloat (dec 300 0)) /\
  at_ listings_out 0 "purchased_last_month" = Some (CFloat (dec 300 0)) /\
  at_ (stripped listings) 2 "total_reviews" = Some (CInt 0) /\
  at_ listings_out 2 "total_reviews" = Some (CFloat zero).
Proof.
  assert (Hrun : load_data listings start = (inr listings_out, listings_end))
    by (vm_compute; reflexivity).
  assert (H0 : In 0%nat (index listings_out)) by (vm_compute; auto).
  assert (H2 : In 2%nat (index listings_out)) by (vm_compute; auto 10).
  split; [exact listings_well_formed|]. split; [exact Hrun|].
  destruct (counts_filled listings start listings_out listings_end 0%nat
              listings_well_formed Hrun H0)
    as (vr0 & vp0 & xr0 & xp0 & _ & Ep0 & _ & Hp0 & _ & (_ & _ & Hx0)).
  destruct (counts_filled listings start listings_out listings_end 2%nat
              listings_well_formed Hrun H2)
    as (vr2 & vp2 & xr2 & xp2 & Er2 & _ & Hr2 & _ & (_ & _ & Hx2) & _).
  assert (vp0 = CFloat (dec 300 0))
    by (vm_compute in Ep0; injection Ep0 as <-; vm_compute; reflexivity).
  assert (vr2 = CInt 0) by (vm_compute in Er2; injection Er2 as <-; reflexivity).
  subst. split; [reflexivity|].
  rewrite Hx0 in Hp0 by (vm_compute; reflexivity).
  split; [exact Hp0|]. split; [reflexivity|].
  rewrite Hx2 in Hr2 by (vm_compute; reflexivity). exact Hr2.
Defined.

(** X2.  In every row of the output the estimated revenue is the product
    of the row's discounted price and its units purchased, as long as
    price, units and product are below 2^53 (beyond that pandas may hold
    whole numbers as int64, which the product overflows differently);
    where the units are missing in the input it is 0, or NaN if the price
    is infinite. *)
Theorem revenue_is_price_times_units :
  forall csv s out s' i,
    well_formed csv ->
    load_data csv s = (inr out, s') ->
    In i (index out) ->
    exists d p,
      at_ out i "discounted_price" = Some (CFloat d) /\
      at_ out i "purchased_last_month" = Some (CFloat p) /\
      (within d = true -> within p = true -> within (mul d p) = true ->
       at_ out i "Est. Revenue (Last Month)" = Some (CFloat (mul d p))) /\
      (forall v, at_ (stripped csv) i "purchased_last_month" = Some v ->
         is_nan (numeric_cell v) = true ->
         at_ out i "Est. Revenue (Last Month)" =
           Some (CFloat match d with S754_infinity _ => nan | _ => zero end)).
Proof.
  intros csv s out s' i Hwf Hrun Hin.
  destruct (success _ _ _ _ Hrun)
    as (cd & co & cr & ct & cp & Hd & Ho & Hr & Ht & Hp & Hprep & _).
  pose proof (out_row_in csv out cd co cr ct cp Hprep i Hin) as Hin0.
  destruct (out_prices csv out cd co cr ct cp Hwf Hd Ho Hprep i Hin)
    as (vd & vo & Evd & _ & Hnan & Hout & _).
  destruct (cell_exists csv _ cp i Hwf Hp Hin0) as [vp Evp].
  exists (price_of vd), (fill_with zero (numeric_cell vp)).
  split; [assumption|].
  assert (Hpur : at_ out i "purchased_last_month" =
                 Some (CFloat (fill_with zero (numeric_cell vp)))).
  { unfold at_. rewrite (p_purchased _ _ _ _ _ _ _ Hprep).
    exact (out_filled_count csv out cd co cr ct cp Hwf Hprep cp i vp Hin Evp). }
  split; [assumption|].
  assert (Hrev : at_ out i "Est. Revenue (Last Month)" =
                 Some (CFloat (mul (price_of vd)
                                 (fill_with zero (numeric_cell vp))))).
  { unfold at_ in *.
    rewrite (p_discounted _ _ _ _ _ _ _ Hprep) in Hout.
    rewrite (p_purchased _ _ _ _ _ _ _ Hprep) in Hpur.
    rewrite (p_revenue _ _ _ _ _ _ _ Hprep).
    unfold of_values in *. rewrite at_label_map in *.
    rewrite at_label_map2.
    destruct (at_label (index out) (kept cd (map price_of cd)) i) as [d|];
      [|discriminate].
    destruct (at_label (index out)
                (map (fill_with zero) (map numeric_cell (kept cd cp))) i) as [p|];
      [|discriminate].
    simpl in *. congruence. }
  split; [intros _ _ _; exact Hrev|].
  intros v Hv Hmiss. rewrite (at_stripped _ _ _ _ Hp) in Hv.
  assert (v = vp) by congruence. subst v.
  rewrite Hrev. do 2 f_equal.
  unfold fill_with. rewrite Hmiss.
  apply mul_zero_r, price_not_nan_nonneg, Hnan.
Qed.

Lemma revenue_is_price_times_units_witness :
  well_formed listings /\
  load_data listings start = (inr listings_out, listings_end) /\
  at_ listings_out 3 "discounted_price" = Some (CFloat (dec 10 0)) /\
  at_ listings_out 3 "purchased_last_month" = Some (CFloat (dec 5 0)) /\
  within (dec 10 0) = true /\ within (dec 5 0) = true /\
  within (mul (dec 10 0) (dec 5 0)) = true /\
  at_ listings_out 3 "Est. Revenue (Last Month)" = Some (CFloat (dec 50 0)).
Proof.
  assert (Hrun : load_data listings start = (inr listings_out, listings_end))
    by (vm_compute; reflexivity).
  assert (H3 : In 3%nat (index listings_out)) by (vm_compute; auto 10).
  split; [exact listings_well_formed|]. split; [exact Hrun|].
  destruct (revenue_is_price_times_units listings start listings_out listings_end
              3%nat listings_well_formed Hrun H3) as (d & p & Hd & Hp & Hrev & _).
  assert (d = dec 10 0)
    by (vm_compute in Hd; injection Hd as <-; vm_compute; reflexivity).
  assert (p = dec 5 0)
    by (vm_compute in Hp; injection Hp as <-; vm_compute; reflexivity).
  subst. split; [exact Hd|]. split; [exact Hp|].
  do 3 (split; [vm_compute; reflexivity|]).
  rewrite Hrev by (vm_compute; reflexivity). vm_compute. reflexivity.
Defined.

(** ** Category and sustainability *)

(** X3.  In every row of the output [product_category] is never missing:
    with the column in the input, a missing category becomes "Unknown" and
    any other entry is kept as it is. *)
Theorem category_never_missing :
  forall csv s out s' i,
    well_formed csv ->
    load_data csv s = (inr out, s') ->
    In i (index out) ->
    (exists c, at_ out i "product_category" = Some c /\ isna c = false) /\
    (forall v, at_ (stripped csv) i "product_category" = Some v ->
       at_ out i "product_category" = Some (if isna v then CStr "Unknown" else v)).
Proof.
  intros csv s out s' i Hwf Hrun Hin.
  destruct (success _ _ _ _ Hrun)
    as (cd & co & cr & ct & cp & Hd & Ho & _ & _ & _ & Hprep & _).
  assert (Hconv : forall v, at_ (stripped csv) i "product_category" = Some v ->
            at_ out i "product_category" =
            Some (if isna v then CStr "Unknown" else v)).
  { intros v Hv.
    exact (out_converted csv out cd co cr ct cp Hwf Hprep
             "product_category" "product_category" _
             (fun c => if isna c then CStr "Unknown" else c) _ i v
             (p_category _ _ _ _ _ _ _ Hprep) (fun c => eq_refl) Hin Hv). }
  split; [|exact Hconv].
  destruct (get_column "product_category" (stripped csv)) as [c|] eqn:E.
  - pose proof (out_row_in csv out cd co cr ct cp Hprep i Hin) as Hin0.
    destruct (cell_exists csv _ c i Hwf E Hin0) as [v Ev].
    rewrite <- (at_stripped _ _ _ _ E) in Ev.
    exists (if isna v then CStr "Unknown" else v). split; [auto|].
    destruct (isna v) eqn:Hv; auto.
  - exists (CStr "Unknown"). split; [|reflexivity].
    exact (out_default csv out cd co cr ct cp Hprep
             "product_category" "product_category" _ _ i
             (p_category _ _ _ _ _ _ _ Hprep) E Hin).
Qed.

Lemma category_never_missing_witness :
  well_formed listings /\
  load_data listings start = (inr listings_out, listings_end) /\
  at_ (stripped listings) 2 "product_category" = Some (CStr "Home") /\
  at_ listings_out 2 "product_category" = Some (CStr "Home").
Proof.
  assert (Hrun : load_data listings start = (inr listings_out, listings_end))
    by (vm_compute; reflexivity).
  assert (H2 : In 2%nat (index listings_out)) by (vm_compute; auto 10).
  split; [exact listings_well_formed|]. split; [exact Hrun|].
  split; [reflexivity|].
  exact (proj2 (category_never_missing listings start listings_out listings_end
                  2%nat listings_well_formed Hrun H2) (CStr "Home") eq_refl).
Defined.

(** X4.  With [sustainability_tags] in the input, [is_sustainable] of an
    output row is true exactly when the row's tag is not missing. *)
Theorem is_sustainable_rule :
  forall csv s out s' i v,
    well_formed csv ->
    load_data csv s = (inr out, s') ->
    In i (index out) ->
    at_ (stripped csv) i "sustainability_tags" = Some v ->
    at_ out i "is_sustainable" = Some (CBool (negb (isna v))).
Proof.
  intros csv s out s' i v Hwf Hrun Hin Hv.
  destruct (success _ _ _ _ Hrun)
    as (cd & co & cr & ct & cp & Hd & Ho & _ & _ & _ & Hprep & _).
  exact (out_converted csv out cd co cr ct cp Hwf Hprep
           "sustainability_tags" "is_sustainable" _ (fun c => CBool (notna c)) _ i v
           (p_sustainable _ _ _ _ _ _ _ Hprep) (fun c => eq_refl) Hin Hv).
Qed.

Lemma is_sustainable_rule_witness :
  well_formed listings /\
  load_data listings start = (inr listings_out, listings_end) /\
  at_ (stripped listings) 0 "sustainability_tags" = Some (CStr "Carbon impact") /\
  at_ listings_out 0 "is_sustainable" = Some (CBool true) /\
  at_ (stripped listings) 2 "sustainability_tags" = Some NaN /\
  at_ listings_out 2 "is_sustainable" = Some (CBool false).
Proof.
  assert (Hrun : load_data listings start = (inr listings_out, listings_end))
    by (vm_compute; reflexivity).
  assert (H0 : In 0%nat (index listings_out)) by (vm_compute; auto).
  assert (H2 : In 2%nat (index listings_out)) by (vm_compute; auto 10).
  split; [exact listings_well_formed|]. split; [exact Hrun|].
  split; [reflexivity|]. split.
  { exact (is_sustainable_rule listings start listings_out listings_end 0%nat _
             listings_well_formed Hrun H0 eq_refl). }
  split; [reflexivity|].
  exact (is_sustainable_rule listings start listings_out listings_end 2%nat _
           listings_well_formed Hrun H2 eq_refl).
Defined.

(** ** What is left alone *)

(** X5.  A column that [load_data] does not assign (the title, the raw
    coupon text, the tags, any other column of the file) has, in every row
    of the output, the cell the row had in the input. *)
Theorem other_columns_untouched :
  forall csv s out s' name i,
    well_formed csv ->
    load_data csv s = (inr out, s') ->
    ~ In name assigned ->
    In i (index out) ->
    at_ out i name = at_ (stripped csv) i name.
Proof.
  intros csv s out s' name i Hwf Hrun Hname Hin.
  destruct (success _ _ _ _ Hrun)
    as (cd & co & cr & ct & cp & Hd & Ho & _ & _ & _ & Hprep & _).
  unfold at_. rewrite (p_other _ _ _ _ _ _ _ Hprep name Hname).
  destruct (get_column name (stripped csv)) as [c|]; simpl; [|reflexivity].
  exact (out_kept_row csv out cd co cr ct cp Hwf Hprep c i Hin).
Qed.

Lemma other_columns_untouched_witness :
  well_formed listings /\
  load_data listings start = (inr listings_out, listings_end) /\
  ~ In "product_title" assigned /\
  at_ listings_out 2 "product_title" = Some (CStr "Desk Lamp").
Proof.
  assert (Hrun : load_data listings start = (inr listings_out, listings_end))
    by (vm_compute; reflexivity).
  assert (H2 : In 2%nat (index listings_out)) by (vm_compute; auto 10).
  assert (Hn : ~ In "product_title" assigned)
    by (unfold assigned; simpl; intuition discriminate).
  split; [exact listings_well_formed|]. split; [exact Hrun|].
  split; [exact Hn|].
  rewrite (other_columns_untouched listings start listings_out listings_end
             "product_title" 2%nat listings_well_formed Hrun Hn H2).
  reflexivity.
Defined.

(** A name is in the stripped header exactly when it is the stripped form
    of a name of the file's header. *)
Lemma has_column_stripped csv name :
  has_column name (column_names (stripped csv)) = true <->
  exists n, In n (column_names csv) /\ name = strip n.
Proof.
  unfold has_column, column_names, stripped, rename_columns. simpl.
  rewrite existsb_exists. split.
  - intros (x & Hx & E). apply String.eqb_eq in E. subst x.
    rewrite map_map in Hx. apply in_map_iff in Hx.
    destruct Hx as ([n c] & E & Hin). simpl in E.
    exists n. split; [|now symmetry].
    apply in_map_iff. exists (n, c). auto.
  - intros (n & Hn & ->). exists (strip n). split; [|apply String.eqb_refl].
    apply in_map_iff in Hn. destruct Hn as ([n' c] & E & Hin). simpl in E. subst n'.
    rewrite map_map. apply in_map_iff. exists (n, c). auto.
Qed.

(** X6.  The columns of the output are the columns of the file, under
    their names with the surrounding blanks stripped, and the twelve columns
    [load_data] assigns, whether the file had them or not; there is no
    other column. *)
Theorem output_columns :
  forall csv s out s' name,
    load_data csv s = (inr out, s') ->
    (has_column name (column_names out) = true <->
     In name assigned \/ exists n, In n (column_names csv) /\ name = strip n).
Proof.
  intros csv s out s' name Hrun.
  destruct (success _ _ _ _ Hrun)
    as (cd & co & cr & ct & cp & Hd & Ho & _ & _ & _ & Hprep & _).
  rewrite <- has_column_stripped. rewrite !has_column_get.
  destruct (in_dec string_dec name assigned) as [Hin|Hout].
  - split; [auto|]. intros _. unfold assigned in Hin. simpl in Hin.
    destruct Hprep.
    repeat (destruct Hin as [<-|Hin];
            [match goal with H : get_column ?n out = Some _ |- context [get_column ?n out] =>
               now rewrite H end|]).
    contradiction.
  - rewrite (p_other _ _ _ _ _ _ _ Hprep name Hout).
    destruct (get_column name (stripped csv)); simpl; split; auto.
    + intros [H|H]; [contradiction|discriminate].
Qed.

Lemma output_columns_witness :
  load_data listings start = (inr listings_out, listings_end) /\
  In " discounted_price " (column_names listings) /\
  has_column "discounted_price" (column_names listings_out) = true /\
  has_column "Discount %" (column_names listings_out) = true /\
  has_column " discounted_price " (column_names listings_out) = false.
Proof.
  assert (Hrun : load_data listings start = (inr listings_out, listings_end))
    by (vm_compute; reflexivity).
  split; [exact Hrun|]. split; [simpl; auto|]. split.
  { apply (output_columns listings start listings_out listings_end _ Hrun).
    left. unfold assigned. simpl. auto. }
  split.
  { apply (output_columns listings start listings_out listings_end _ Hrun).
    left. unfold assigned. simpl. auto 10. }
  reflexivity.
Defined.

(** ** The shape of the output *)

Module Shape.

Import Float64 Text Pandas App PandasFacts SeriesFacts Run FloatFacts Required Rows.

Lemma map2_length {A B C : Type} (f : A -> B -> C) a b :
  List.length a = List.length b -> List.length (map2 f a b) = List.length a.
Proof.
  revert b. induction a as [|x a IH]; intros [|y b] H; simpl in *;
    try discriminate; auto.
Qed.

Lemma select_length_le {A : Type} mask (l : list A) :
  (List.length (select mask l) <= List.length l)%nat.
Proof.
  revert l. induction mask as [|b mask IH]; intros [|x l]; simpl; try lia.
  specialize (IH l). destruct b; simpl; lia.
Qed.

Lemma kept_length {A : Type} csv cd (l : list A) :
  List.length l = List.length (index csv) ->
  List.length (kept cd l) = List.length (kept cd (index csv)).
Proof. apply select_length. Qed.

Lemma optional_length csv cd name g v :
  well_formed csv ->
  (forall c, List.length (g c) = List.length c) ->
  List.length (optional csv cd name g v) = List.length (kept cd (index csv)).
Proof.
  intros Hwf Hg. unfold optional, guarded.
  destruct (has_column name (column_names (stripped csv)));
    [|apply repeat_length].
  destruct (get_column name (stripped csv)) as [c|] eqn:E; simpl;
    [|apply repeat_length].
  rewrite Hg. apply kept_length. eapply column_length; eauto.
Qed.


(** The frame a run returns has distinct labels, no more rows than the
    input, and one cell per row in every column. *)
Lemma out_shape :
  forall csv s out s',
    well_formed csv ->
    load_data csv s = (inr out, s') ->
    NoDup (index out) /\
    (List.length (index out) <= List.length (index csv))%nat /\
    forall name c, get_column name out = Some c ->
      List.length c = List.length (index out).
Proof.
  intros csv s out s' Hwf Hrun.
  destruct (success _ _ _ _ Hrun)
    as (cd & co & cr & ct & cp & Hd & Ho & Hr & Ht & Hp & Hprep & _).
  pose proof (p_index _ _ _ _ _ _ _ Hprep) as Hidx.
  split; [|split].
  - rewrite Hidx. apply select_NoDup, Hwf.
  - rewrite Hidx. apply select_length_le.
  - intros name c Hc. rewrite Hidx.
    pose proof (column_length csv _ cd Hwf Hd) as Ld.
    pose proof (column_length csv _ co Hwf Ho) as Lo.
    pose proof (column_length csv _ cr Hwf Hr) as Lr.
    pose proof (column_length csv _ ct Hwf Ht) as Lt.
    pose proof (column_length csv _ cp Hwf Hp) as Lp.
    assert (LP : List.length (kept cd (map price_of cd)) =
                 List.length (kept cd (index csv)))
      by (apply kept_length; now rewrite length_map).
    assert (LO : List.length
                   (kept cd (map2 fill_from (map price_of co) (map price_of cd))) =
                 List.length (kept cd (index csv))).
    { apply kept_length. rewrite map2_length; rewrite !length_map; congruence. }
    destruct (in_dec string_dec name assigned) as [Hin|Hout].
    + unfold assigned in Hin. simpl in Hin. destruct Hprep.
      repeat (destruct Hin as [<-|Hin];
              [match goal with
               | H : get_column ?n out = Some _, H' : get_column ?n out = Some c |- _ =>
                   rewrite H in H'; injection H' as <-
               end|]); try contradiction;
        unfold of_values;
        rewrite ?length_map;
        try (apply optional_length; [assumption|];
             intros; unfold fillna, astype_bool, notna_series, gt, str_len, astype_str;
             now rewrite ?length_map);
        try assumption;
        try (apply kept_length; assumption).
      * rewrite map2_length; rewrite ?length_map; [assumption|].
        rewrite LP. symmetry. now apply kept_length.
      * rewrite map2_length; congruence.
    + rewrite (p_other _ _ _ _ _ _ _ Hprep name Hout) in Hc.
      destruct (get_column name (stripped csv)) as [c0|] eqn:E; [|discriminate].
      injection Hc as <-. apply kept_length. eapply column_length; eauto.
Qed.

End Shape.

Import Shape.

(** X7.  The frame [load_data] returns is again a table: its row labels
    are distinct, it has no more rows than the input, and every column has
    exactly one cell per row. *)
Theorem output_well_formed :
  forall csv s out s',
    well_formed csv ->
    load_data csv s = (inr out, s') ->
    NoDup (index out) /\
    (List.length (index out) <= List.length (index csv))%nat /\
    forall name c, get_column name out = Some c ->
      List.length c = List.length (index out).
Proof. exact out_shape. Qed.

Lemma output_well_formed_witness :
  well_formed listings /\
  load_data listings start = (inr listings_out, listings_end) /\
  NoDup (index listings_out) /\
  List.length (index listings_out) = 3%nat /\
  List.length (index listings) = 4%nat.
Proof.
  assert (Hrun : load_data listings start = (inr listings_out, listings_end))
    by (vm_compute; reflexivity).
  split; [exact listings_well_formed|]. split; [exact Hrun|].
  split; [|split; reflexivity].
  exact (proj1 (output_well_formed listings start listings_out listings_end
                  listings_well_formed Hrun)).
Defined.

(** ** Prices below zero *)

(** The sign bit of a float: set for negative numbers, for -0.0 and for
    -inf. *)
Definition signbit (x : float64) : bool :=
  match x with
  | S754_zero s | S754_infinity s | S754_finite s _ _ => s
  | S754_nan => false
  end.

Lemma low_part_dash t : low_part (String "-" t) = "".
Proof. reflexivity. Qed.

(** X8.  A row whose discounted price is written with a leading minus
    sign is dropped: this is so for every negative integer, for every float
    with the sign bit set, and for every text that starts with [-], because
    the text is cut at the first [-] before it is read. *)
Theorem negative_price_dropped :
  (forall z, z < 0 -> exists t, str_of (CInt z) = String "-" t) /\
  (forall x, signbit x = true -> exists t, str_of (CFloat x) = String "-" t) /\
  forall csv s out s' i v t,
    well_formed csv ->
    load_data csv s = (inr out, s') ->
    at_ (stripped csv) i "discounted_price" = Some v ->
    str_of v = String "-" t ->
    ~ In i (index out).
Proof.
  split; [|split].
  - intros [|p|p] Hz; try lia. simpl. unfold str_int. simpl. eauto.
  - intros [[]|[]| |[] m e]; try discriminate; intros _; simpl; eauto.
    destruct (shortest m e) as [ds decpt]. simpl. eauto.
  - intros csv s out s' i v t Hwf Hrun Hv Htext Hin.
    destruct (success _ _ _ _ Hrun)
      as (cd & co & cr & ct & cp & Hd & Ho & _ & _ & _ & Hprep & _).
    rewrite (at_stripped _ _ _ _ Hd) in Hv.
    rewrite (p_index _ _ _ _ _ _ _ Hprep) in Hin.
    apply (kept_iff _ cd i (proj1 Hwf)) in Hin.
    destruct Hin as (c & Ec & Hc).
    assert (c = v) by congruence. subst c.
    unfold price_of in Hc. rewrite Htext, low_part_dash in Hc.
    vm_compute in Hc. discriminate.
Qed.

(** Two listings, the second with a price below zero. *)
Definition refund : DataFrame :=
  mkFrame [0; 1]%nat
    [ ("discounted_price", [CFloat (dec 1999 (-2)); CFloat (opp (dec 5 0))]);
      ("original_price", [CFloat (dec 25 0); CFloat (dec 5 0)]);
      ("product_rating", [CFloat (dec 4 0); NaN]);
      ("total_reviews", [CInt 3; CInt 0]);
      ("purchased_last_month", [CInt 10; CInt 2]) ].

Lemma refund_well_formed : well_formed refund.
Proof.
  split; [|split].
  - repeat constructor; simpl; intuition discriminate.
  - repeat constructor.
  - vm_compute. repeat constructor; simpl; intuition discriminate.
Defined.

Lemma negative_price_dropped_witness :
  well_formed refund /\
  at_ (stripped refund) 1 "discounted_price" = Some (CFloat (opp (dec 5 0))) /\
  str_of (CFloat (opp (dec 5 0))) = "-5.0" /\
  exists out s',
    load_data refund start = (inr out, s') /\ ~ In 1%nat (index out).
Proof.
  split; [exact refund_well_formed|]. split; [reflexivity|].
  split; [vm_compute; reflexivity|].
  destruct (load_data refund start) as [[e|out] s'] eqn:E;
    [vm_compute in E; discriminate|].
  exists out, s'. split; [reflexivity|].
  destruct negative_price_dropped as (_ & _ & H).
  apply (H refund start out s' 1%nat (CFloat (opp (dec 5 0))) "5.0"
           refund_well_formed E eq_refl).
  vm_compute. reflexivity.
Defined.

(** ** Ratings *)

(** X9.  Ratings are filled with one value per run.  A kept row whose
    rating is missing gets that value, a kept row with a rating (below 2^53
    in magnitude) keeps it.  The value is NaN when no kept row has a
    rating, and with fewer than eight rows kept it is the sum of the
    ratings, added in row order, over their number.  (For eight rows and
    more the order in which numpy adds depends on how it was built.) *)
Theorem rating_fill_value :
  forall csv s out s' cd cr,
    well_formed csv ->
    load_data csv s = (inr out, s') ->
    get_column "discounted_price" (stripped csv) = Some cd ->
    get_column "product_rating" (stripped csv) = Some cr ->
    exists m,
      (forall i v,
         In i (index out) ->
         at_ (stripped csv) i "product_rating" = Some v ->
         (is_nan (numeric_cell v) = true ->
          at_ out i "product_rating" = Some (CFloat m)) /\
         (within (numeric_cell v) = true ->
          at_ out i "product_rating" = Some (CFloat (numeric_cell v)))) /\
      ((forall v, In v (kept cd cr) -> is_nan (numeric_cell v) = true) ->
       m = nan) /\
      ((List.length (index out) < 8)%nat ->
       m = mean_of (map numeric_cell (kept cd cr))).
Proof.
  intros csv s out s' cd cr Hwf Hrun Hd Hr.
  exists (mean_of (map numeric_cell (kept cd cr))).
  split; [|split; [|reflexivity]].
  - intros i v Hin Hv.
    rewrite (rating_filled_with_mean csv s out s' cd cr i v Hwf Hrun Hd Hr Hin Hv).
    unfold fill_with. split.
    + intros E. now rewrite E.
    + intros E. destruct (numeric_cell v); try discriminate; reflexivity.
  - intros Hall. apply mean_of_missing. intros x Hx.
    apply in_map_iff in Hx. destruct Hx as (v & <- & Hv). now apply Hall.
Qed.

Lemma rating_fill_value_witness :
  well_formed listings /\
  load_data listings start = (inr listings_out, listings_end) /\
  (List.length (index listings_out) < 8)%nat /\
  at_ (stripped listings) 3 "product_rating" = Some NaN /\
  at_ listings_out 3 "product_rating" = Some (CFloat (dec 4 0)) /\
  at_ (stripped listings) 0 "product_rating" = Some (CFloat (dec 45 (-1))) /\
  at_ listings_out 0 "product_rating" = Some (CFloat (dec 45 (-1))).
Proof.
  assert (Hrun : load_data listings start = (inr listings_out, listings_end))
    by (vm_compute; reflexivity).
  assert (H0 : In 0%nat (index listings_out)) by (vm_compute; auto 10).
  assert (H3 : In 3%nat (index listings_out)) by (vm_compute; auto 10).
  assert (Hfew : (List.length (index listings_out) < 8)%nat)
    by (vm_compute; lia).
  split; [exact listings_well_formed|]. split; [exact Hrun|].
  split; [exact Hfew|].
  destruct (rating_fill_value listings start listings_out listings_end
              _ _ listings_well_formed Hrun eq_refl eq_refl)
    as (m & Hrows & _ & Hm).
  specialize (Hm Hfew).
  split; [reflexivity|]. split.
  - rewrite (proj1 (Hrows 3%nat NaN H3 eq_refl) eq_refl), Hm.
    vm_compute. reflexivity.
  - split; [reflexivity|].
    rewrite (proj2 (Hrows 0%nat _ H0 eq_refl)) by (vm_compute; reflexivity).
    vm_compute. reflexivity.
Defined.

(* ===================================================================== *)
(** * app.py: the script around [load_data] *)
(* ===================================================================== *)

(** The script loads the frame, offers the categories in the sidebar,
    narrows the frame to the chosen one and computes what the page shows.
    What follows embeds the data side of it; drawing the charts is left to
    plotly. *)
Module Dashboard.

Import Float64 Text Pandas App Run.

(** ** Loading (lines 106-116) *)

(** What [read_csv] finds under the name the script asks for: no file,
    a file it cannot read as a table (empty, malformed, not decodable, not
    permitted: it raises an exception that is not FileNotFoundError), or a
    table. *)
Inductive disk : Type :=
| Absent
| Unreadable (what : string)
| Present (csv : DataFrame).

(** The exception caught at line 113: raised by [read_csv], or by the
    statements of [load_data] after it. *)
Inductive raised : Type :=
| ByRead (what : string)
| ByLoad (e : exn).

(** What the script puts on the page while loading. *)
Inductive notice : Type :=
| Error (msg : string)          (* st.error(msg) *)
| LoadingError (e : raised)     (* st.error(f"An error occurred during data loading: {e}") *)
| Traceback (e : raised).       (* st.exception(e) *)

(** [st.stop()], or the frame the rest of the script works on. *)
Inductive loaded : Type :=
| Stop
| Go (df : DataFrame).

Definition msg_not_found : string :=
  "Error: The file 'amazon_products_sales_data_cleaned.csv' was not found.".
Definition msg_same_folder : string :=
  "Please make sure it's in the **exact same folder** as your 'App.py' file.".

(** The session [load_data] is called in: nothing shown by it yet. *)
Definition fresh : session := mkSession (mkFrame [] []) [].

(** [try: df = load_data(...) except FileNotFoundError: ... except
    Exception as e: ...] *)
Definition load (d : disk) : loaded * list notice :=
  match d with
  | Absent => (Stop, [Error msg_not_found; Error msg_same_folder])
  | Unreadable what =>
      (Stop, [LoadingError (ByRead what); Traceback (ByRead what)])
  | Present csv =>
      match load_data csv fresh with
      | (inr df, s) => (Go df, map Error (shown s))
      | (inl e, s) =>
          (Stop, (map Error (shown s)
                  ++ [LoadingError (ByLoad e); Traceback (ByLoad e)])%list)
      end
  end.

(** ** Comparing cells *)

(** The exact value of a number: [m * 2^e], an infinity, or NaN. *)
Inductive number : Type :=
| NegInf
| Fin (m e : Z)
| PosInf
| NotANumber.

Definition number_of (c : cell) : option number :=
  match c with
  | CStr _ => None
  | CBool b => Some (Fin (if b then 1 else 0) 0)
  | CInt z => Some (Fin z 0)
  | CFloat (S754_zero _) => Some (Fin 0 0)
  | CFloat (S754_finite s m e) => Some (Fin (if s then Z.neg m else Z.pos m) e)
  | CFloat (S754_infinity s) => Some (if s then NegInf else PosInf)
  | CFloat S754_nan => Some NotANumber
  end.

(** Order of two numbers, none when one is NaN.  Python compares an
    integer and a float by their exact values. *)
Definition compare_numbers (a b : number) : option comparison :=
  match a, b with
  | NotANumber, _ | _, NotANumber => None
  | NegInf, NegInf | PosInf, PosInf => Some Eq
  | NegInf, _ | _, PosInf => Some Lt
  | _, NegInf | PosInf, _ => Some Gt
  | Fin m1 e1, Fin m2 e2 =>
      let e := Z.min e1 e2 in
      Some (Z.compare (m1 * 2 ^ (e1 - e)) (m2 * 2 ^ (e2 - e)))
  end.

(** [a == b] *)
Definition py_eq (a b : cell) : bool :=
  match a, b with
  | CStr s, CStr t => String.eqb s t
  | _, _ =>
      match number_of a, number_of b with
      | Some x, Some y =>
          match compare_numbers x y with Some Eq => true | _ => false end
      | _, _ => false
      end
  end.

(** [a < b]; text against a number is the TypeError ([None]). *)
Definition py_lt (a b : cell) : option bool :=
  match a, b with
  | CStr s, CStr t => Some (String.ltb s t)
  | _, _ =>
      match number_of a, number_of b with
      | Some x, Some y =>
          Some match compare_numbers x y with Some Lt => true | _ => false end
      | _, _ => None
      end
  end.

(** ** The sidebar (lines 127-135) *)

(** Two entries that [unique] takes for one: equal ones, and NaN with
    NaN. *)
Definition same (a b : cell) : bool := py_eq a b || (isna a && isna b).

(** [s.unique()]: the distinct entries in the order they first appear. *)
Fixpoint unique (c : Series) : list cell :=
  match c with
  | [] => []
  | x :: c' => x :: filter (fun y => negb (same x y)) (unique c')
  end.

(** Where a stable sort puts [x] in a sorted list: after every entry
    that is below it. *)
Fixpoint insert (x : cell) (l : list cell) : option (list cell) :=
  match l with
  | [] => Some [x]
  | h :: t =>
      match py_lt h x with
      | None => None
      | Some true => option_map (cons h) (insert x t)
      | Some false => Some (x :: l)
      end
  end.

(** [sorted(l)]: ascending and stable, the TypeError ([None]) when text
    meets a number.  (For entries that [<] orders totally, which is what
    [load_data] leaves in a column, every stable sort gives this list.) *)
Fixpoint sorted (l : list cell) : option (list cell) :=
  match l with
  | [] => Some []
  | x :: l' =>
      match sorted l' with
      | Some s => insert x s
      | None => None
      end
  end.

(** [categories = ['All'] + sorted(df[category_col].unique())] *)
Definition categories (df : DataFrame) : exn + list cell :=
  match get_column category_col df with
  | None => inl (KeyError category_col)
  | Some c =>
      match sorted (unique c) with
      | Some l => inr (CStr "All" :: l)
      | None => inl TypeError
      end
  end.

(** [if selected_category == 'All': filtered_df = df.copy()
     else: filtered_df = df[df[category_col] == selected_category]] *)
Definition filtered_df (df : DataFrame) (selected_category : cell)
  : exn + DataFrame :=
  if py_eq selected_category (CStr "All") then inr df
  else
    match get_column category_col df with
    | None => inl (KeyError category_col)
    | Some c =>
        inr (keep_rows (map (fun v => py_eq v selected_category) c) df)
    end.

(** ** The best-seller count (line 143) *)

(** [s.sum()] of a boolean column: how many entries are True.  ([None]
    for a column that holds anything else, whose sum follows other
    rules.) *)
Fixpoint sum_bool (c : Series) : option Z :=
  match c with
  | [] => Some 0
  | CBool b :: c' => option_map (Z.add (if b then 1 else 0)) (sum_bool c')
  | _ :: _ => None
  end.

(** [total_best_sellers = filtered_df['is_best_seller'].sum()] *)
Definition total_best_sellers (filtered : DataFrame) : exn + option Z :=
  match get_column "is_best_seller" filtered with
  | None => inl (KeyError "is_best_seller")
  | Some c => inr (sum_bool c)
  end.

Example sorted_examples :
  sorted [CStr "Home"; CStr "Electronics"; CStr "Unknown"; CStr "All"]
  = Some [CStr "All"; CStr "Electronics"; CStr "Home"; CStr "Unknown"] /\
  sorted [CInt 3; CFloat (of_decimal 25 (-1)); CInt 2]
  = Some [CInt 2; CFloat (of_decimal 25 (-1)); CInt 3] /\
  sorted [CInt 3; CStr "Unknown"] = None /\
  unique [CStr "b"; CStr "a"; CStr "b"; CInt 1; CBool true]
  = [CStr "b"; CStr "a"; CInt 1].
Proof. vm_compute. repeat split. Qed.

End Dashboard.

(* ===================================================================== *)
(** * Facts about the script *)
(* ===================================================================== *)

Module DashboardFacts.

Import Float64 Text Pandas App PandasFacts SeriesFacts Run FloatFacts Required
  Rows Shape Dashboard.

(** ** Order of text *)

Definition text_le (a b : string) : Prop := String.leb a b = true.
Definition text_lt (a b : string) : Prop := String.ltb a b = true.

Lemma ltb_leb a b : String.ltb a b = true -> String.leb a b = true.
Proof. unfold String.ltb, String.leb. now destruct (String.compare a b). Qed.

Lemma not_ltb_leb a b : String.ltb a b = false -> String.leb b a = true.
Proof.
  unfold String.ltb, String.leb. rewrite (String.compare_antisym b a).
  now destruct (String.compare a b).
Qed.

Lemma leb_neq_ltb a b : String.leb a b = true -> a <> b -> String.ltb a b = true.
Proof.
  unfold String.ltb, String.leb. intros H Hne.
  destruct (String.compare a b) eqn:E; auto.
  apply String.compare_eq_iff in E. contradiction.
Qed.

(** ** Sorting a list of text *)

Lemma insert_text x l :
  Sorted text_le l ->
  exists l',
    insert (CStr x) (map CStr l) = Some (map CStr l') /\
    Sorted text_le l' /\ Permutation (x :: l) l' /\
    (forall a, HdRel text_le a l -> text_le a x -> HdRel text_le a l').
Proof.
  induction l as [|h t IH]; intros Hs.
  - exists [x]. simpl. repeat split; auto.
  - simpl. destruct (String.ltb h x) eqn:E.
    + inversion Hs; subst. destruct (IH H1) as (l' & Hins & Hs' & Hp & Hhd).
      exists (h :: l'). rewrite Hins. simpl. repeat split.
      * constructor; auto. apply Hhd; auto. now apply ltb_leb.
      * rewrite perm_swap. now constructor.
      * intros a Ha _. inversion Ha; subst. now constructor.
    + exists (x :: h :: t). repeat split; auto.
      constructor; auto. constructor. now apply not_ltb_leb.
Qed.

Lemma sorted_text l :
  exists l',
    sorted (map CStr l) = Some (map CStr l') /\
    Sorted text_le l' /\ Permutation l l'.
Proof.
  induction l as [|x l IH].
  - exists []. simpl. auto.
  - destruct IH as (s & Hs & Hsorted & Hp). simpl. rewrite Hs.
    destruct (insert_text x s Hsorted) as (l' & Hins & Hs' & Hp' & _).
    exists l'. repeat split; auto.
    rewrite <- Hp'. now constructor.
Qed.

Lemma sorted_strict l : Sorted text_le l -> NoDup l -> Sorted text_lt l.
Proof.
  induction 1 as [|a l Hs IH Hhd]; intros Hnd; constructor.
  - apply IH. now inversion Hnd.
  - inversion Hnd; subst. destruct Hhd as [|b l Hab]; constructor.
    apply leb_neq_ltb; auto. intros ->. apply H1. simpl; auto.
Qed.

(** ** Distinct entries of a list of text *)

Lemma filter_text f l :
  filter f (map CStr l) = map CStr (filter (fun t => f (CStr t)) l).
Proof.
  induction l as [|x l IH]; simpl; auto.
  destruct (f (CStr x)); simpl; now rewrite IH.
Qed.

Lemma unique_text l :
  exists l',
    unique (map CStr l) = map CStr l' /\ NoDup l' /\
    (forall t, In t l' <-> In t l).
Proof.
  induction l as [|x l IH].
  - exists []. simpl. repeat split; auto. constructor.
  - destruct IH as (u & Hu & Hnd & Hin). simpl. rewrite Hu, filter_text.
    exists (x :: filter (fun t => negb (same (CStr x) (CStr t))) u).
    split; [reflexivity|]. split.
    + constructor.
      * rewrite filter_In. intros [_ H]. simpl in H.
        unfold same in H. simpl in H. now rewrite String.eqb_refl in H.
      * now apply NoDup_filter.
    + intros t. simpl. rewrite filter_In, Hin. unfold same. simpl.
      rewrite orb_false_r. split.
      * intros [?|[? _]]; auto.
      * intros [->|H]; auto.
        destruct (String.eqb x t) eqn:E; auto.
        apply String.eqb_eq in E. auto.
Qed.

Lemma all_text c :
  (forall v, In v c -> exists t, v = CStr t) -> exists l, c = map CStr l.
Proof.
  induction c as [|v c IH]; intros H.
  - now exists [].
  - destruct (H v) as [t ->]; [simpl; auto|].
    destruct IH as [l ->]; [intros; apply H; simpl; auto|].
    now exists (t :: l).
Qed.

(** ** Cells and rows *)

Lemma at_label_In_cell {A : Type} idx (c : list A) (i : nat) v :
  at_label idx c i = Some v -> In v c.
Proof.
  revert c. induction idx as [|j idx IH]; intros [|x c]; simpl; try discriminate.
  destruct (Nat.eqb j i).
  - intros E. inversion E. auto.
  - intros E. right. eauto.
Qed.

Lemma In_cell_at_label {A : Type} idx (c : list A) v :
  NoDup idx -> List.length c = List.length idx -> In v c ->
  exists i, at_label idx c i = Some v.
Proof.
  revert c. induction idx as [|j idx IH]; intros [|x c] Hnd Hlen Hin;
    simpl in *; try discriminate; try contradiction.
  inversion Hnd; subst. destruct Hin as [->|Hin].
  - exists j. now rewrite Nat.eqb_refl.
  - destruct (IH c H2 (eq_add_S _ _ Hlen) Hin) as [i Hi]. exists i.
    destruct (Nat.eqb j i) eqn:E; auto.
    apply Nat.eqb_eq in E. subst. apply at_label_Some_In in Hi. contradiction.
Qed.

(** The sidebar of a frame whose categories are all text. *)
Lemma categories_text df c :
  get_column category_col df = Some c ->
  (forall v, In v c -> exists t, v = CStr t) ->
  exists l,
    categories df = inr (CStr "All" :: map CStr l) /\
    Sorted text_lt l /\
    (forall t, In t l <-> In (CStr t) c).
Proof.
  intros Hc Htext. destruct (all_text c Htext) as [ts ->].
  destruct (unique_text ts) as (u & Hu & Hnd & Hin).
  destruct (sorted_text u) as (l & Hl & Hs & Hp).
  exists l. unfold categories. rewrite Hc, Hu, Hl. split; [reflexivity|]. split.
  - apply sorted_strict; auto. eapply Permutation_NoDup; eauto.
  - intros t. rewrite in_map_iff. split.
    + intros H. exists t. split; auto. apply Hin.
      eapply Permutation_in; [apply Permutation_sym|]; eauto.
    + intros (t' & E & H). inversion E; subst.
      eapply Permutation_in; eauto. now apply Hin.
Qed.

(** ** Narrowing the frame *)

Lemma narrowed_rows df c sel (i : nat) :
  NoDup (index df) ->
  (In i (select (map (fun v => py_eq v sel) c) (index df)) <->
   exists v, at_label (index df) c i = Some v /\ py_eq v sel = true).
Proof.
  intros Hnd. rewrite In_select_at_label, at_label_map by assumption.
  destruct (at_label (index df) c i) as [v|]; simpl.
  - split.
    + intros E. exists v. split; auto. now inversion E.
    + intros (v' & E & H). inversion E; subst. now rewrite H.
  - split; [discriminate|]. intros (v' & E & _). discriminate.
Qed.

Lemma narrowed_cell df mask (i : nat) name :
  NoDup (index df) ->
  In i (index (keep_rows mask df)) ->
  at_ (keep_rows mask df) i name = at_ df i name.
Proof.
  intros Hnd Hin. unfold at_. rewrite get_keep_rows.
  destruct (get_column name df) as [c|]; simpl; auto.
  rewrite at_label_select by assumption.
  apply In_select_at_label in Hin; auto. now rewrite Hin.
Qed.

(** ** Flags *)

Lemma sum_bool_flags bs :
  sum_bool (map CBool bs) =
  Some (Z.of_nat (List.length (filter (fun b => b) bs))).
Proof.
  induction bs as [|b bs IH]; [reflexivity|].
  cbn [map sum_bool]. rewrite IH. cbn [option_map].
  destruct b; cbn [filter List.length]; f_equal; lia.
Qed.

Lemma filter_all_true bs :
  (forall b, In b bs -> b = true) -> filter (fun b => b) bs = bs.
Proof.
  induction bs as [|b bs IH]; simpl; intros H; auto.
  rewrite (H b) by auto. f_equal. apply IH. auto.
Qed.

Lemma filter_all_false bs :
  (forall b, In b bs -> b = false) -> filter (fun b : bool => b) bs = [].
Proof.
  induction bs as [|b bs IH]; simpl; intros H; auto.
  rewrite (H b) by auto. apply IH. auto.
Qed.

(** The badge column of the output: booleans, one per row; all False
    without the source column, all True when every source entry is
    truthy. *)
Lemma badge_flags csv out cd co cr ct cp :
  well_formed csv ->
  prepared csv cd co cr ct cp out ->
  exists bs,
    get_column "is_best_seller" out = Some (map CBool bs) /\
    List.length bs = List.length (index out) /\
    (get_column "is_best_seller" (stripped csv) = None ->
     forall b, In b bs -> b = false) /\
    (forall c, get_column "is_best_seller" (stripped csv) = Some c ->
       (forall v, In v c -> truthy v = true) ->
       forall b, In b bs -> b = true).
Proof.
  intros Hwf Hprep.
  pose proof (p_best_seller _ _ _ _ _ _ _ Hprep) as Hcol.
  pose proof (p_index _ _ _ _ _ _ _ Hprep) as Hidx.
  unfold optional, guarded in Hcol. rewrite has_column_get in Hcol.
  destruct (get_column "is_best_seller" (stripped csv)) as [c|] eqn:E;
    simpl in Hcol.
  - exists (map truthy (kept cd c)). split; [|split; [|split]].
    + rewrite Hcol. unfold astype_bool. now rewrite map_map.
    + rewrite length_map, Hidx. apply kept_length. eapply column_length; eauto.
    + discriminate.
    + intros c' Ec Hall b Hb. inversion Ec; subst c'.
      apply in_map_iff in Hb. destruct Hb as (v & <- & Hv).
      apply Hall. eapply select_In; eauto.
  - exists (repeat false (List.length (kept cd (index csv)))).
    split; [|split; [|split]].
    + rewrite Hcol. now rewrite map_repeat.
    + now rewrite repeat_length, Hidx.
    + intros _ b Hb. now apply repeat_spec in Hb.
    + discriminate.
Qed.

End DashboardFacts.

Import Dashboard DashboardFacts.

(** ** Loading *)

(** X10.  Loading ends in one of four ways.  Without the file the page
    gets the two file-not-found messages and the script stops.  With a file
    that [read_csv] cannot read the script stops, the page holding the
    report of that exception.  With a table that has the five columns
    [load_data] cannot do without, the script goes on with the prepared
    frame, the page holding only the warnings for absent optional columns.
    With a table that lacks one of the five it stops, and the page holds
    the report of the KeyError for such a column and nothing else: no
    warning is shown before a failure, and no other exception occurs. *)
Theorem load_outcome :
  load Absent = (Stop, [Error msg_not_found; Error msg_same_folder]) /\
  (forall what,
     load (Unreadable what) =
       (Stop, [LoadingError (ByRead what); Traceback (ByRead what)])) /\
  forall csv,
    well_formed csv ->
    (exists df,
        load (Present csv) = (Go df, map Error (warnings csv)) /\
        load_data csv fresh = (inr df, mkSession df (warnings csv)) /\
        forall name, In name required -> get_column name (stripped csv) <> None)
    \/
    (exists name,
        In name required /\
        get_column name (stripped csv) = None /\
        load (Present csv) =
          (Stop, [LoadingError (ByLoad (KeyError name));
                  Traceback (ByLoad (KeyError name))])).
Proof.
  split; [reflexivity|]. split; [reflexivity|]. intros csv _.
  destruct (load_data_outcome csv)
    as [(cd & co & cr & ct & cp & out & Hd & Ho & Hr & Ht & Hp & Hprep & Hrun)
       |(name & d & Hreq & Hnone & Hrun)].
  - left. exists out. unfold load. rewrite (Hrun fresh). simpl.
    split; [reflexivity|]. split; [reflexivity|].
    intros name Hin. unfold required in Hin. simpl in Hin.
    destruct Hin as [<-|[<-|[<-|[<-|[<-|[]]]]]]; congruence.
  - right. exists name. unfold load. rewrite (Hrun fresh). simpl. auto.
Qed.

Lemma load_outcome_witness :
  well_formed listings /\
  load (Present listings) = (Go listings_out, []) /\
  ((exists df,
       load (Present listings) = (Go df, map Error (warnings listings)) /\
       load_data listings fresh = (inr df, mkSession df (warnings listings)) /\
       forall name, In name required ->
         get_column name (stripped listings) <> None)
   \/
   (exists name,
       In name required /\
       get_column name (stripped listings) = None /\
       load (Present listings) =
         (Stop, [LoadingError (ByLoad (KeyError name));
                 Traceback (ByLoad (KeyError name))]))).
Proof.
  split; [exact listings_well_formed|].
  split; [vm_compute; reflexivity|].
  exact (proj2 (proj2 load_outcome) listings listings_well_formed).
Defined.

(** ** The sidebar *)

(** X11.  For a frame whose categories are all text, the sidebar offers
    "All" followed by the categories in strictly ascending order, each once;
    a text is among them exactly when it is the category of some row. *)
Theorem categories_in_order :
  forall df c,
    NoDup (index df) ->
    get_column category_col df = Some c ->
    List.length c = List.length (index df) ->
    (forall v, In v c -> exists t, v = CStr t) ->
    exists l,
      categories df = inr (CStr "All" :: map CStr l) /\
      Sorted (fun a b => String.ltb a b = true) l /\
      (forall t, In t l <->
         exists i, at_ df i "product_category" = Some (CStr t)).
Proof.
  intros df c Hnd Hc Hlen Htext.
  destruct (categories_text df c Hc Htext) as (l & Hcat & Hs & Hin).
  exists l. split; [assumption|]. split; [exact Hs|].
  intros t. rewrite Hin. unfold at_. change "product_category" with category_col.
  rewrite Hc. split.
  - apply In_cell_at_label; assumption.
  - intros [i Hi]. eapply at_label_In_cell; eauto.
Qed.

Lemma categories_in_order_witness :
  load_data listings start = (inr listings_out, listings_end) /\
  categories listings_out =
    inr [CStr "All"; CStr "Electronics"; CStr "Home"; CStr "Office"] /\
  exists l,
    categories listings_out = inr (CStr "All" :: map CStr l) /\
    Sorted (fun a b => String.ltb a b = true) l /\
    (forall t, In t l <->
       exists i, at_ listings_out i "product_category" = Some (CStr t)).
Proof.
  split; [vm_compute; reflexivity|]. split; [vm_compute; reflexivity|].
  apply (categories_in_order listings_out
           [CStr "Electronics"; CStr "Home"; CStr "Office"]).
  - vm_compute. repeat constructor; simpl; intuition discriminate.
  - reflexivity.
  - reflexivity.
  - simpl. intros v [<-|[<-|[<-|[]]]]; eauto.
Defined.

(** X12.  Narrowing keeps, for a choice other than "All", exactly the rows
    whose category equals the choice, each with all its cells; the choice
    "All" keeps the frame as it is. *)
Theorem filtered_rows :
  forall df sel,
    NoDup (index df) ->
    (py_eq sel (CStr "All") = true -> filtered_df df sel = inr df) /\
    (py_eq sel (CStr "All") = false ->
     forall c, get_column category_col df = Some c ->
     exists f,
       filtered_df df sel = inr f /\
       column_names f = column_names df /\
       (forall i, In i (index f) <->
          exists v, at_ df i "product_category" = Some v /\ py_eq v sel = true) /\
       (forall i name, In i (index f) -> at_ f i name = at_ df i name)).
Proof.
  intros df sel Hnd. unfold filtered_df. split.
  - intros H. now rewrite H.
  - intros H c Hc. rewrite H, Hc.
    exists (keep_rows (map (fun v => py_eq v sel) c) df).
    split; [reflexivity|]. split; [|split].
    + unfold column_names, keep_rows. simpl. rewrite map_map. reflexivity.
    + intros i. unfold at_. change "product_category" with category_col.
      rewrite Hc. apply narrowed_rows. assumption.
    + intros i name Hin. apply narrowed_cell; assumption.
Qed.

Lemma filtered_rows_witness :
  NoDup (index listings_out) /\
  py_eq (CStr "Home") (CStr "All") = false /\
  exists f,
    filtered_df listings_out (CStr "Home") = inr f /\
    index f = [2%nat] /\
    at_ f 2 "product_title" = Some (CStr "Desk Lamp").
Proof.
  assert (Hnd : NoDup (index listings_out))
    by (vm_compute; repeat constructor; simpl; intuition discriminate).
  split; [exact Hnd|]. split; [reflexivity|].
  destruct (proj2 (filtered_rows listings_out (CStr "Home") Hnd) eq_refl
              _ eq_refl) as (f & Hf & _ & _ & Hcell).
  exists f. split; [exact Hf|].
  assert (Hidx : index f = [2%nat])
    by (vm_compute in Hf; injection Hf as <-; reflexivity).
  split; [exact Hidx|].
  rewrite Hcell; [reflexivity|]. rewrite Hidx. simpl. auto.
Defined.

(** X14.  A category that is itself called "All" cannot be looked at on
    its own: the sidebar then lists "All" twice, and choosing it shows
    every row of the frame. *)
Theorem category_named_all :
  forall df c,
    get_column category_col df = Some c ->
    (forall v, In v c -> exists t, v = CStr t) ->
    In (CStr "All") c ->
    exists l,
      categories df = inr (CStr "All" :: l) /\
      In (CStr "All") l /\
      filtered_df df (CStr "All") = inr df.
Proof.
  intros df c Hc Htext Hall.
  destruct (categories_text df c Hc Htext) as (l & Hcat & _ & Hin).
  exists (map CStr l). split; [assumption|]. split; [|reflexivity].
  apply in_map. now apply Hin.
Qed.

(** A frame with a category called "All". *)
Definition shelves : DataFrame :=
  mkFrame [0; 1]%nat
    [ ("product_title", [CStr "Gift Card"; CStr "Desk Lamp"]);
      ("product_category", [CStr "All"; CStr "Home"]) ].

Lemma category_named_all_witness :
  categories shelves = inr [CStr "All"; CStr "All"; CStr "Home"] /\
  filtered_df shelves (CStr "All") = inr shelves.
Proof.
  destruct (category_named_all shelves [CStr "All"; CStr "Home"])
    as (l & Hcat & _ & Hf).
  - reflexivity.
  - simpl. intros v [<-|[<-|[]]]; eauto.
  - simpl. auto.
  - split; [|exact Hf]. vm_compute. reflexivity.
Defined.

(** ** Text beside numbers *)

Module Mixed.

Import Float64 Text Pandas App Dashboard.

Definition is_text (c : cell) : bool :=
  match c with CStr _ => true | _ => false end.

Lemma py_lt_kind a b r : py_lt a b = Some r -> is_text a = is_text b.
Proof.
  destruct a as [s|b1|z|[[]|[]| |[] m e]], b as [t|b2|z2|[[]|[]| |[] m' e']];
    simpl; try discriminate; auto.
Qed.

Lemma same_kind a b : same a b = true -> is_text a = is_text b.
Proof.
  destruct a as [s|b1|z|[[]|[]| |[] m e]], b as [t|b2|z2|[[]|[]| |[] m' e']];
    auto; unfold same; simpl; discriminate.
Qed.

Lemma insert_In x l l' :
  insert x l = Some l' -> forall y, In y l' <-> y = x \/ In y l.
Proof.
  revert l'. induction l as [|h t IH]; intros l' H y; simpl in H.
  - inversion H; subst. simpl. intuition.
  - destruct (py_lt h x) as [[]|]; try discriminate.
    + destruct (insert x t) as [s|] eqn:E; [|discriminate].
      inversion H; subst. simpl. rewrite (IH s eq_refl). intuition.
    + inversion H; subst. simpl. intuition.
Qed.

(** Sorting goes through only for entries of one kind. *)
Lemma sorted_one_kind l l' :
  sorted l = Some l' ->
  (forall y, In y l' <-> In y l) /\
  (forall a b, In a l -> In b l -> is_text a = is_text b).
Proof.
  revert l'. induction l as [|x t IH]; intros l' H; simpl in H.
  - inversion H; subst. split; [tauto|]. intros a b [].
  - destruct (sorted t) as [s|] eqn:E; [|discriminate].
    destruct (IH s eq_refl) as [Hin Hkind].
    pose proof (insert_In x s l' H) as Hins. split.
    + intros y. rewrite Hins, Hin. simpl. intuition.
    + assert (Hx : forall a, In a t -> is_text a = is_text x).
      { intros a Ha. destruct s as [|h s'].
        - apply Hin in Ha. destruct Ha.
        - simpl in H. destruct (py_lt h x) as [r|] eqn:Elt; [|discriminate].
          apply py_lt_kind in Elt. rewrite <- Elt.
          apply Hkind; auto. apply Hin. simpl; auto. }
      intros a b [<-|Ha] [<-|Hb]; auto.
      symmetry. auto.
Qed.

Lemma unique_kind c y :
  In y c -> exists y', In y' (unique c) /\ is_text y' = is_text y.
Proof.
  induction c as [|x c IH]; simpl; [contradiction|].
  intros [->|Hy].
  - exists y. auto.
  - destruct (IH Hy) as (y' & Hin & Hk).
    destruct (same x y') eqn:E.
    + exists x. split; auto. apply same_kind in E. congruence.
    + exists y'. split; auto. right. apply filter_In. split; auto.
      now rewrite E.
Qed.

End Mixed.

Import Mixed.

(** X15.  When the category column holds a text and an entry that is not
    text (numeric categories one of which was missing and has become
    "Unknown", say), building the sidebar raises TypeError. *)
Theorem mixed_categories_raise :
  forall df c t v,
    get_column category_col df = Some c ->
    In (CStr t) c ->
    In v c ->
    is_text v = false ->
    categories df = inl TypeError.
Proof.
  intros df c t v Hc Ht Hv Hkind. unfold categories. rewrite Hc.
  destruct (sorted (unique c)) as [l|] eqn:E; [|reflexivity].
  exfalso. destruct (sorted_one_kind _ _ E) as [_ Hone].
  destruct (unique_kind c _ Ht) as (a & Ha & Ka).
  destruct (unique_kind c _ Hv) as (b & Hb & Kb).
  specialize (Hone a b Ha Hb). simpl in Ka. congruence.
Qed.

(** Listings whose categories are numbers, one of them missing. *)
Definition numbered : DataFrame :=
  mkFrame [0; 1]%nat
    [ ("discounted_price", [CFloat (dec 1999 (-2)); CFloat (dec 5 0)]);
      ("original_price", [CFloat (dec 25 0); CFloat (dec 5 0)]);
      ("product_category", [CFloat (dec 7 0); NaN]);
      ("product_rating", [CFloat (dec 4 0); NaN]);
      ("total_reviews", [CInt 3; CInt 0]);
      ("purchased_last_month", [CInt 10; CInt 2]) ].

Lemma mixed_categories_raise_witness :
  exists df s',
    load_data numbered start = (inr df, s') /\
    get_column category_col df = Some [CFloat (dec 7 0); CStr "Unknown"] /\
    categories df = inl TypeError.
Proof.
  destruct (load_data numbered start) as [[e|df] s'] eqn:E;
    [vm_compute in E; discriminate|].
  exists df, s'. split; [reflexivity|].
  assert (Hc : get_column category_col df =
               Some [CFloat (dec 7 0); CStr "Unknown"]).
  { vm_compute in E. injection E as <- _. vm_compute. reflexivity. }
  split; [exact Hc|].
  apply (mixed_categories_raise df _ "Unknown" (CFloat (dec 7 0)) Hc);
    simpl; auto.
Defined.

(** ** The best-seller count *)

Module Offered.

Import Float64 Text Pandas App PandasFacts Run Dashboard.

Lemma unique_In c y : In y (unique c) -> In y c.
Proof.
  revert y. induction c as [|x c IH]; intros y; simpl; [auto|].
  intros [->|H]; [now left|]. right. apply IH.
  apply filter_In in H. tauto.
Qed.

Lemma compare_numbers_refl x :
  x <> NotANumber -> compare_numbers x x = Some Eq.
Proof.
  destruct x; simpl; try congruence. intros _.
  now rewrite Z.min_id, Z.compare_refl.
Qed.

(** An entry that is not missing equals itself. *)
Lemma py_eq_refl v : isna v = false -> py_eq v v = true.
Proof.
  destruct v as [t|b|z|[[]|[]| |[] m e]]; intros H; try discriminate;
    try apply String.eqb_refl;
    cbv [py_eq number_of]; rewrite compare_numbers_refl by discriminate;
    reflexivity.
Qed.

(** No category of the prepared frame is missing. *)
Lemma category_cells_present csv cd v :
  In v (optional csv cd "product_category"
          (fillna (CStr "Unknown")) (CStr "Unknown")) ->
  isna v = false.
Proof.
  unfold optional, guarded.
  destruct (has_column _ _);
    [destruct (option_map _ _) as [c|]|]; intros H;
    try (apply repeat_spec in H; now subst).
  unfold fillna in H. apply in_map_iff in H. destruct H as (x & <- & _).
  now destruct (isna x) eqn:E.
Qed.

End Offered.

Import Offered.

(** X13.  After a successful load, every category the sidebar offers
    after "All" selects at least one row, whatever the categories are
    (text or numbers); "All" itself gives back the whole frame, which has
    no row when no price of the file could be read. *)
Theorem every_option_has_rows :
  forall csv s out s' l,
    well_formed csv ->
    load_data csv s = (inr out, s') ->
    categories out = inr (CStr "All" :: l) ->
    filtered_df out (CStr "All") = inr out /\
    forall o, In o l ->
      exists f i,
        filtered_df out o = inr f /\
        In i (index f) /\
        exists v, at_ out i "product_category" = Some v /\ py_eq v o = true.
Proof.
  intros csv s out s' l Hwf Hrun Hcat. split; [reflexivity|].
  intros o Ho.
  destruct (out_shape csv s out s' Hwf Hrun) as (Hnd & _ & Hlen).
  destruct (success _ _ _ _ Hrun)
    as (cd & co & cr & ct & cp & _ & _ & _ & _ & _ & Hprep & _).
  pose proof (p_category _ _ _ _ _ _ _ Hprep) as Hc.
  set (c := optional csv cd "product_category"
              (fillna (CStr "Unknown")) (CStr "Unknown")) in *.
  unfold categories in Hcat. change category_col with "product_category" in Hcat.
  rewrite Hc in Hcat.
  destruct (sorted (unique c)) as [l'|] eqn:E; [|discriminate].
  injection Hcat as <-.
  apply (proj1 (sorted_one_kind _ _ E)) in Ho. apply unique_In in Ho.
  pose proof (category_cells_present csv cd o Ho) as Hna.
  destruct (In_cell_at_label (index out) c o Hnd (Hlen _ _ Hc) Ho) as [i Hi].
  pose proof (at_label_Some_In _ _ _ _ Hi) as Hrow.
  assert (Hv : exists v, at_ out i "product_category" = Some v /\
                         py_eq v o = true).
  { exists o. unfold at_. rewrite Hc. split; [assumption|].
    now apply py_eq_refl. }
  destruct (py_eq o (CStr "All")) eqn:EAll.
  - exists out, i. unfold filtered_df. rewrite EAll. auto.
  - exists (keep_rows (map (fun v => py_eq v o) c) out), i.
    unfold filtered_df. rewrite EAll.
    change category_col with "product_category". rewrite Hc.
    split; [reflexivity|]. split; [|assumption].
    apply narrowed_rows; [assumption|].
    exists o. split; [assumption|]. now apply py_eq_refl.
Qed.

Lemma every_option_has_rows_witness :
  well_formed listings /\
  load_data listings start = (inr listings_out, listings_end) /\
  categories listings_out =
    inr [CStr "All"; CStr "Electronics"; CStr "Home"; CStr "Office"] /\
  exists f i,
    filtered_df listings_out (CStr "Office") = inr f /\
    In i (index f) /\
    exists v, at_ listings_out i "product_category" = Some v /\
              py_eq v (CStr "Office") = true.
Proof.
  assert (Hrun : load_data listings start = (inr listings_out, listings_end))
    by (vm_compute; reflexivity).
  assert (Hcat : categories listings_out =
            inr [CStr "All"; CStr "Electronics"; CStr "Home"; CStr "Office"])
    by (vm_compute; reflexivity).
  split; [exact listings_well_formed|]. split; [exact Hrun|].
  split; [exact Hcat|].
  apply (proj2 (every_option_has_rows listings start listings_out listings_end
                  _ listings_well_formed Hrun Hcat)).
  simpl. auto.
Defined.

(** X16.  The best-seller count of the page is a number between 0 and the
    number of rows shown.  It is 0 when the file has no [is_best_seller]
    column, and it is the number of rows shown, every listing counting as
    a best seller, when every entry of that column is truthy, as all
    non-empty text and every missing entry are. *)
Theorem best_seller_count :
  forall csv s out s' sel f,
    well_formed csv ->
    load_data csv s = (inr out, s') ->
    filtered_df out sel = inr f ->
    exists n,
      total_best_sellers f = inr (Some n) /\
      0 <= n <= Z.of_nat (List.length (index f)) /\
      (get_column "is_best_seller" (stripped csv) = None -> n = 0) /\
      (forall c, get_column "is_best_seller" (stripped csv) = Some c ->
         (forall v, In v c -> truthy v = true) ->
         n = Z.of_nat (List.length (index f))).
Proof.
  intros csv s out s' sel f Hwf Hrun Hf.
  destruct (success _ _ _ _ Hrun)
    as (cd & co & cr & ct & cp & Hd & Ho & _ & _ & _ & Hprep & _).
  destruct (badge_flags csv out cd co cr ct cp Hwf Hprep)
    as (bs & Hcol & Hlen & Hnone & Hall).
  assert (Hshape : exists bs',
            get_column "is_best_seller" f = Some (map CBool bs') /\
            List.length bs' = List.length (index f) /\
            (forall b, In b bs' -> In b bs)).
  { unfold filtered_df in Hf. destruct (py_eq sel (CStr "All")).
    - injection Hf as <-. exists bs. auto.
    - destruct (get_column category_col out) as [c|]; [|discriminate].
      injection Hf as <-.
      exists (select (map (fun v => py_eq v sel) c) bs).
      rewrite get_keep_rows, Hcol. simpl. rewrite select_map.
      split; [reflexivity|]. split.
      + now apply select_length.
      + intros b. apply select_In. }
  destruct Hshape as (bs' & Hcol' & Hlen' & Hsub).
  exists (Z.of_nat (List.length (filter (fun b => b) bs'))).
  unfold total_best_sellers. rewrite Hcol', sum_bool_flags.
  split; [reflexivity|]. split; [|split].
  - rewrite <- Hlen'. pose proof (filter_length_le (fun b => b) bs'). lia.
  - intros H. rewrite filter_all_false; auto.
  - intros c Hc Htruthy. rewrite filter_all_true; [now rewrite Hlen'|].
    intros b Hb. eapply Hall; eauto.
Qed.

Lemma best_seller_count_witness :
  well_formed listings /\
  load_data listings start = (inr listings_out, listings_end) /\
  filtered_df listings_out (CStr "All") = inr listings_out /\
  get_column "is_best_seller" (stripped listings) =
    Some [CStr "Best Seller"; CStr "No Badge"; CStr "False"; NaN] /\
  total_best_sellers listings_out = inr (Some 3).
Proof.
  assert (Hrun : load_data listings start = (inr listings_out, listings_end))
    by (vm_compute; reflexivity).
  split; [exact listings_well_formed|]. split; [exact Hrun|].
  split; [reflexivity|]. split; [reflexivity|].
  destruct (best_seller_count listings start listings_out listings_end
              (CStr "All") listings_out listings_well_formed Hrun eq_refl)
    as (n & Hn & _ & _ & Hall).
  rewrite Hn. f_equal. f_equal.
  apply (Hall _ eq_refl). simpl.
  intros v [<-|[<-|[<-|[<-|[]]]]]; reflexivity.
Defined.

(* ===================================================================== *)
(** * The largest rows (lines 158 and 184) *)
(* ===================================================================== *)

Module Top.

Import Float64 Text Pandas App PandasFacts SeriesFacts.

(** [x] may stand before [y] when rows are put in descending order: it is
    at least [y], or [y] is NaN, which goes last. *)
Definition before (x y : float64) : bool :=
  is_nan y || (negb (is_nan x) && leb y x).

(** Puts a row, which comes earlier in the frame than those of [l], into
    [l] (already in descending order): behind the rows that are strictly
    larger, so that rows that tie stay in frame order. *)
Fixpoint insert_desc (a : nat * float64) (l : list (nat * float64))
  : list (nat * float64) :=
  match l with
  | [] => [a]
  | b :: t => if before (snd a) (snd b) then a :: l else b :: insert_desc a t
  end.

Fixpoint sort_desc (l : list (nat * float64)) : list (nat * float64) :=
  match l with
  | [] => []
  | a :: t => insert_desc a (sort_desc t)
  end.

(** The values of a column with their positions. *)
Definition enumerate (xs : list float64) : list (nat * float64) :=
  combine (seq 0 (List.length xs)) xs.

(** The entries of [l] at the positions [ps], in the order of [ps]. *)
Definition gather {A : Type} (ps : list nat) (l : list A) : list A :=
  flat_map (fun p => match nth_error l p with Some x => [x] | None => [] end) ps.

(** [df.take(ps)]: the rows at the positions [ps], with their labels. *)
Definition take_rows (ps : list nat) (d : DataFrame) : DataFrame :=
  mkFrame (gather ps (index d))
          (map (fun nc => (fst nc, gather ps (snd nc))) (columns d)).

(** A column of numbers has one numeric dtype; cells of several kinds,
    or text, make it an object column. *)
Definition one_dtype (c : Series) : bool :=
  forallb (fun v => match v with CFloat _ => true | _ => false end) c ||
  forallb (fun v => match v with CInt _ => true | _ => false end) c ||
  forallb (fun v => match v with CBool _ => true | _ => false end) c.

(** [df.nlargest(n, name)]: the first [n] rows when the rows are put in
    descending order of the column, NaN last.  (Rows that tie are kept in
    frame order, as pandas does when it has to choose among more than [n]
    rows; with at most [n] rows the order pandas leaves among ties depends
    on the sort numpy was built with.)  An object column is a
    TypeError. *)
Definition nlargest (n : nat) (name : string) (d : DataFrame) : exn + DataFrame :=
  match get_column name d with
  | None => inl (KeyError name)
  | Some c =>
      match (if one_dtype c then values c else None) with
      | None => inl TypeError
      | Some xs =>
          inr (take_rows (firstn n (map fst (sort_desc (enumerate xs)))) d)
      end
  end.

End Top.

Module TopFacts.

Import Float64 Text Pandas App PandasFacts SeriesFacts Top.

(** ** The order of floats *)

(** A float that is not NaN, as a triple that orders as the float does:
    first its class, then exponent and mantissa. *)
Definition rank (x : float64) : Z * Z * Z :=
  match x with
  | S754_infinity true => (-2, 0, 0)
  | S754_finite true m e => (-1, - e, Z.neg m)
  | S754_zero _ => (0, 0, 0)
  | S754_finite false m e => (1, e, Z.pos m)
  | S754_infinity false => (2, 0, 0)
  | S754_nan => (3, 0, 0)
  end.

Definition lex_le (a b : Z * Z * Z) : Prop :=
  let '(a1, a2, a3) := a in
  let '(b1, b2, b3) := b in
  a1 < b1 \/ (a1 = b1 /\ (a2 < b2 \/ (a2 = b2 /\ a3 <= b3))).

Lemma leb_rank x y :
  is_nan x = false -> is_nan y = false ->
  (leb x y = true <-> lex_le (rank x) (rank y)).
Proof.
  destruct x as [[]|[]| |[] m e], y as [[]|[]| |[] m' e'];
    try discriminate; intros _ _; unfold leb, SFleb, lex_le; simpl;
    try (split; [intros _; lia | reflexivity]);
    try (split; [discriminate | lia]).
  - change (Pos.compare_cont Eq m m') with (Pos.compare m m').
    destruct (Z.compare_spec e e'); destruct (Pos.compare_spec m m'); simpl;
      split; try discriminate; try reflexivity; lia.
  - change (Pos.compare_cont Eq m m') with (Pos.compare m m').
    destruct (Z.compare_spec e e'); destruct (Pos.compare_spec m m'); simpl;
      split; try discriminate; try reflexivity; lia.
Qed.

Lemma lex_le_total a b : lex_le a b \/ lex_le b a.
Proof. destruct a as [[a1 a2] a3], b as [[b1 b2] b3]. unfold lex_le. lia. Qed.

Lemma lex_le_trans a b c : lex_le a b -> lex_le b c -> lex_le a c.
Proof.
  destruct a as [[a1 a2] a3], b as [[b1 b2] b3], c as [[c1 c2] c3].
  unfold lex_le. lia.
Qed.

Lemma before_total x y : before x y = false -> before y x = true.
Proof.
  unfold before. destruct (is_nan y) eqn:Hy; [discriminate|].
  destruct (is_nan x) eqn:Hx; [reflexivity|]. simpl.
  intros H. destruct (lex_le_total (rank x) (rank y)) as [L|L].
  - now apply leb_rank.
  - apply leb_rank in L; auto. congruence.
Qed.

Lemma before_trans x y z :
  before x y = true -> before y z = true -> before x z = true.
Proof.
  unfold before. destruct (is_nan z) eqn:Hz; [reflexivity|].
  destruct (is_nan y) eqn:Hy; [discriminate|].
  destruct (is_nan x) eqn:Hx; [discriminate|]. simpl.
  intros H1 H2. apply leb_rank in H1, H2; auto.
  apply leb_rank; auto. eapply lex_le_trans; eauto.
Qed.

(** ** Sorting *)

Definition row_before (a b : nat * float64) : Prop :=
  before (snd a) (snd b) = true.

Lemma insert_desc_perm a l : Permutation (insert_desc a l) (a :: l).
Proof.
  induction l as [|b t IH]; simpl; [reflexivity|].
  destruct (before (snd a) (snd b)); [reflexivity|].
  rewrite IH. apply perm_swap.
Qed.

Lemma sort_desc_perm l : Permutation (sort_desc l) l.
Proof.
  induction l as [|a t IH]; simpl; [reflexivity|].
  rewrite insert_desc_perm. now constructor.
Qed.

Lemma insert_desc_sorted a l :
  StronglySorted row_before l -> StronglySorted row_before (insert_desc a l).
Proof.
  induction 1 as [|b t Ht IH Hb]; simpl.
  - constructor; constructor.
  - destruct (before (snd a) (snd b)) eqn:E.
    + constructor; [constructor; assumption|].
      constructor; [exact E|].
      rewrite Forall_forall in *. intros c Hc.
      unfold row_before. eapply before_trans; [exact E|]. now apply Hb.
    + constructor; [assumption|].
      rewrite Forall_forall in *. intros c Hc.
      apply (Permutation_in _ (insert_desc_perm a t)) in Hc.
      destruct Hc as [<-|Hc]; [|now apply Hb].
      now apply before_total.
Qed.

Lemma sort_desc_sorted l : StronglySorted row_before (sort_desc l).
Proof.
  induction l as [|a t IH]; simpl; [constructor|].
  now apply insert_desc_sorted.
Qed.

Lemma firstn_In {A : Type} n (l : list A) x : In x (firstn n l) -> In x l.
Proof.
  revert l. induction n as [|n IH]; intros [|y l]; simpl; try (now intros []).
  intros [->|H]; auto.
Qed.

Lemma skipn_In {A : Type} n (l : list A) x : In x (skipn n l) -> In x l.
Proof.
  revert l. induction n as [|n IH]; intros [|y l]; simpl; auto.
Qed.

Lemma firstn_NoDup {A : Type} n (l : list A) : NoDup l -> NoDup (firstn n l).
Proof.
  intros H. revert n. induction H as [|x l Hx Hl IH]; intros [|n]; simpl;
    try constructor; auto.
  intros Hin. apply Hx. eapply firstn_In; eauto.
Qed.

Lemma sorted_split {A : Type} (R : A -> A -> Prop) n l :
  StronglySorted R l ->
  forall a b, In a (firstn n l) -> In b (skipn n l) -> R a b.
Proof.
  intros H. revert n. induction H as [|x l Hl IH Hx]; intros n a b.
  - destruct n; simpl; intros [].
  - destruct n as [|n]; simpl; [intros []|].
    intros [<-|Ha] Hb.
    + rewrite Forall_forall in Hx. apply Hx.
      eapply skipn_In. exact Hb.
    + eapply IH; eauto.
Qed.

Lemma sorted_map {A B : Type} (f : A -> B) (R : B -> B -> Prop) l :
  StronglySorted (fun a b => R (f a) (f b)) l -> StronglySorted R (map f l).
Proof.
  induction 1 as [|x l Hl IH Hx]; simpl; constructor; auto.
  rewrite Forall_forall in *. intros y Hy.
  apply in_map_iff in Hy. destruct Hy as (z & <- & Hz). now apply Hx.
Qed.

Lemma sorted_firstn {A : Type} (R : A -> A -> Prop) n l :
  StronglySorted R l -> StronglySorted R (firstn n l).
Proof.
  intros H. revert n. induction H as [|x l Hl IH Hx]; intros [|n]; simpl;
    try constructor; auto.
  rewrite Forall_forall in *. intros y Hy. apply Hx.
  eapply firstn_In. exact Hy.
Qed.

(** ** Positions *)

Lemma enumerate_from (xs : list float64) k a :
  In a (combine (seq k (List.length xs)) xs) ->
  (k <= fst a)%nat /\ nth_error xs (fst a - k) = Some (snd a).
Proof.
  revert k. induction xs as [|x xs IH]; intros k; simpl; [intros []|].
  intros [<-|H].
  - simpl. rewrite Nat.sub_diag. auto.
  - apply IH in H. destruct H as [H1 H2]. split; [lia|].
    replace (fst a - k)%nat with (S (fst a - S k)) by lia. exact H2.
Qed.

Lemma enumerate_nth xs a :
  In a (enumerate xs) -> nth_error xs (fst a) = Some (snd a).
Proof.
  intros H. apply enumerate_from in H. destruct H as [_ H].
  now rewrite Nat.sub_0_r in H.
Qed.

Lemma enumerate_fst xs : map fst (enumerate xs) = seq 0 (List.length xs).
Proof.
  unfold enumerate. generalize 0%nat.
  induction xs as [|x xs IH]; intros k; simpl; [reflexivity|].
  now rewrite IH.
Qed.

Lemma sorted_positions xs :
  Permutation (map fst (sort_desc (enumerate xs))) (seq 0 (List.length xs)).
Proof.
  rewrite <- enumerate_fst. apply Permutation_map, sort_desc_perm.
Qed.

Lemma sorted_nth xs a :
  In a (sort_desc (enumerate xs)) -> nth_error xs (fst a) = Some (snd a).
Proof.
  intros H. apply enumerate_nth.
  eapply Permutation_in; [apply sort_desc_perm|exact H].
Qed.

(** ** Taking rows by position *)

Lemma gather_pairs {A : Type} (l : list (nat * A)) xs :
  (forall a, In a l -> nth_error xs (fst a) = Some (snd a)) ->
  gather (map fst l) xs = map snd l.
Proof.
  induction l as [|a l IH]; intros H; simpl; [reflexivity|].
  rewrite (H a) by (now left). simpl. f_equal.
  apply IH. intros b Hb. apply H. now right.
Qed.

Lemma gather_map {A B : Type} (f : A -> B) ps l :
  gather ps (map f l) = map f (gather ps l).
Proof.
  induction ps as [|p ps IH]; simpl; [reflexivity|].
  rewrite nth_error_map, map_app, IH.
  now destruct (nth_error l p).
Qed.

Lemma gather_length {A : Type} ps (l : list A) :
  (forall p, In p ps -> (p < List.length l)%nat) ->
  List.length (gather ps l) = List.length ps.
Proof.
  induction ps as [|p ps IH]; intros H; simpl; [reflexivity|].
  destruct (nth_error l p) eqn:E.
  - simpl. f_equal. apply IH. intros q Hq. apply H. now right.
  - apply nth_error_None in E. specialize (H p (or_introl eq_refl)). lia.
Qed.

Lemma gather_In {A : Type} ps (l : list A) x :
  In x (gather ps l) <-> exists p, In p ps /\ nth_error l p = Some x.
Proof.
  unfold gather. rewrite in_flat_map. split.
  - intros (p & Hp & Hx). exists p. split; [assumption|].
    destruct (nth_error l p); [|destruct Hx].
    destruct Hx as [<-|[]]. reflexivity.
  - intros (p & Hp & E). exists p. split; [assumption|].
    rewrite E. now left.
Qed.

Lemma nth_error_NoDup {A : Type} (l : list A) p q x :
  NoDup l -> nth_error l p = Some x -> nth_error l q = Some x -> p = q.
Proof.
  intros Hnd Hp Hq. rewrite NoDup_nth_error in Hnd. apply Hnd.
  - apply nth_error_Some. congruence.
  - congruence.
Qed.

Lemma gather_NoDup {A : Type} ps (l : list A) :
  NoDup ps -> NoDup l -> NoDup (gather ps l).
Proof.
  intros Hps Hl. induction Hps as [|p ps Hp Hps IH]; simpl; [constructor|].
  destruct (nth_error l p) as [x|] eqn:E; simpl; [|assumption].
  constructor; [|assumption].
  intros Hx. apply gather_In in Hx. destruct Hx as (q & Hq & Eq).
  assert (p = q) by exact (nth_error_NoDup l p q x Hl E Eq). subst. contradiction.
Qed.

Lemma at_label_nth {A : Type} idx (c : list A) p i :
  NoDup idx -> nth_error idx p = Some i -> at_label idx c i = nth_error c p.
Proof.
  intros Hnd. revert c p. induction Hnd as [|j idx Hj Hnd IH]; intros c p.
  - destruct p; discriminate.
  - destruct p as [|p]; simpl.
    + intros E. injection E as ->. destruct c; [reflexivity|].
      now rewrite Nat.eqb_refl.
    + intros E. destruct c as [|x c]; [reflexivity|].
      assert (j <> i) by (intros ->; apply Hj; eapply nth_error_In; eauto).
      rewrite (proj2 (Nat.eqb_neq j i)) by assumption. now apply IH.
Qed.

Lemma at_label_gather {A : Type} idx (c : list A) ps i :
  NoDup idx -> List.length c = List.length idx ->
  In i (gather ps idx) ->
  at_label (gather ps idx) (gather ps c) i = at_label idx c i.
Proof.
  intros Hnd Hlen. induction ps as [|p ps IH]; simpl; [intros []|].
  destruct (nth_error idx p) as [j|] eqn:Ej.
  - assert (exists x, nth_error c p = Some x) as [x Ex].
    { destruct (nth_error c p) eqn:E; [eauto|].
      apply nth_error_None in E.
      assert (p < List.length idx)%nat by (apply nth_error_Some; congruence).
      lia. }
    rewrite Ex. simpl. destruct (Nat.eqb j i) eqn:E.
    + apply Nat.eqb_eq in E. subst j. intros _.
      rewrite (at_label_nth idx c p i Hnd Ej). now rewrite Ex.
    + intros [->|H]; [now rewrite Nat.eqb_refl in E|]. now apply IH.
  - assert (nth_error c p = None) as ->.
    { apply nth_error_None. apply nth_error_None in Ej. lia. }
    simpl. apply IH.
Qed.

Lemma get_take_rows name ps d :
  get_column name (take_rows ps d) = option_map (gather ps) (get_column name d).
Proof.
  unfold get_column, take_rows. simpl.
  induction (columns d) as [|[n c] l IH]; simpl; [reflexivity|].
  destruct (String.eqb n name); [reflexivity|assumption].
Qed.

(** Where the column is a float column, [nlargest] takes the rows at the
    first [n] positions of the descending order. *)
Lemma nlargest_floats n name d xs :
  get_column name d = Some (of_values xs) ->
  nlargest n name d =
    inr (take_rows (firstn n (map fst (sort_desc (enumerate xs)))) d).
Proof.
  intros H. unfold nlargest. rewrite H.
  assert (E : one_dtype (of_values xs) = true).
  { unfold one_dtype. apply Bool.orb_true_iff. left.
    apply Bool.orb_true_iff. left.
    apply forallb_forall. intros v Hv. apply in_map_iff in Hv.
    now destruct Hv as (x & <- & _). }
  rewrite E. now rewrite values_of_values.
Qed.

Lemma positions_valid n xs p :
  In p (firstn n (map fst (sort_desc (enumerate xs)))) ->
  (p < List.length xs)%nat.
Proof.
  intros H. apply firstn_In in H.
  apply (Permutation_in _ (sorted_positions xs)) in H.
  apply in_seq in H. lia.
Qed.

Lemma positions_NoDup n xs :
  NoDup (firstn n (map fst (sort_desc (enumerate xs)))).
Proof.
  apply firstn_NoDup.
  eapply Permutation_NoDup; [symmetry; apply sorted_positions|].
  apply seq_NoDup.
Qed.

(** What [nlargest] gives on a column of floats. *)
Lemma nlargest_takes df n name xs :
  NoDup (index df) ->
  (forall nm c, get_column nm df = Some c ->
     List.length c = List.length (index df)) ->
  get_column name df = Some (of_values xs) ->
  exists top,
    nlargest n name df = inr top /\
    column_names top = column_names df /\
    List.length (index top) = Nat.min n (List.length (index df)) /\
    NoDup (index top) /\
    (forall i, In i (index top) -> In i (index df)) /\
    (forall i nm, In i (index top) -> at_ top i nm = at_ df i nm).
Proof.
  intros Hnd Hlen Hc.
  set (ps := firstn n (map fst (sort_desc (enumerate xs)))).
  assert (Lx : List.length xs = List.length (index df)).
  { rewrite <- (Hlen _ _ Hc). unfold of_values. now rewrite length_map. }
  exists (take_rows ps df). split; [now apply nlargest_floats|].
  split; [|split; [|split; [|split]]].
  - unfold column_names, take_rows. simpl. now rewrite map_map.
  - simpl. rewrite gather_length.
    + unfold ps. rewrite length_firstn, <- Lx.
      now rewrite (Permutation_length (sorted_positions xs)), length_seq.
    + intros p Hp. rewrite <- Lx. eapply positions_valid; eauto.
  - simpl. apply gather_NoDup; [apply positions_NoDup|assumption].
  - simpl. intros i Hi. apply gather_In in Hi.
    destruct Hi as (p & _ & Hp). eapply nth_error_In; eauto.
  - intros i nm Hi. unfold at_. rewrite get_take_rows.
    destruct (get_column nm df) as [c|] eqn:E; simpl; [|reflexivity].
    apply at_label_gather; [assumption|exact (Hlen _ _ E)|exact Hi].
Qed.

(** Narrowing keeps the shape of a frame and its float columns. *)
Lemma keep_rows_shape mask d :
  NoDup (index d) ->
  (forall nm c, get_column nm d = Some c ->
     List.length c = List.length (index d)) ->
  NoDup (index (keep_rows mask d)) /\
  (forall nm c, get_column nm (keep_rows mask d) = Some c ->
     List.length c = List.length (index (keep_rows mask d))).
Proof.
  intros Hnd Hlen. split.
  - simpl. now apply select_NoDup.
  - intros nm c. rewrite get_keep_rows.
    destruct (get_column nm d) as [c0|] eqn:E; [|discriminate].
    simpl. intros H. injection H as <-.
    apply select_length. eauto.
Qed.

Lemma keep_rows_floats mask d name xs :
  get_column name d = Some (of_values xs) ->
  get_column name (keep_rows mask d) = Some (of_values (select mask xs)).
Proof.
  intros H. rewrite get_keep_rows, H. simpl. now rewrite select_of_values.
Qed.

End TopFacts.

Import Top TopFacts.

(** ** The charts of the largest rows *)

(** X17.  [nlargest(n, name)] on a column of floats gives [n] rows of
    the frame, or all of them where it has fewer: each is a row of the
    frame, taken once, with its label and all its cells, under the same
    header. *)
Theorem nlargest_rows :
  forall df n name xs,
    NoDup (index df) ->
    (forall nm c, get_column nm df = Some c ->
       List.length c = List.length (index df)) ->
    get_column name df = Some (of_values xs) ->
    exists top,
      nlargest n name df = inr top /\
      column_names top = column_names df /\
      List.length (index top) = Nat.min n (List.length (index df)) /\
      NoDup (index top) /\
      (forall i, In i (index top) -> In i (index df)) /\
      (forall i nm, In i (index top) -> at_ top i nm = at_ df i nm).
Proof. intros df n name xs. apply nlargest_takes. Qed.

(** The revenue column of the sample output. *)
Definition listings_revenue : list float64 :=
  Eval vm_compute in
    match get_column "Est. Revenue (Last Month)" listings_out with
    | Some c => match values c with Some l => l | None => [] end
    | None => []
    end.

Lemma listings_out_shape :
  NoDup (index listings_out) /\
  (forall nm c, get_column nm listings_out = Some c ->
     List.length c = List.length (index listings_out)).
Proof.
  assert (Hrun : load_data listings start = (inr listings_out, listings_end))
    by (vm_compute; reflexivity).
  destruct (out_shape listings start listings_out listings_end
              listings_well_formed Hrun) as (H1 & _ & H2).
  split; assumption.
Qed.

Lemma nlargest_rows_witness :
  get_column "Est. Revenue (Last Month)" listings_out =
    Some (of_values listings_revenue) /\
  exists top,
    nlargest 2 "Est. Revenue (Last Month)" listings_out = inr top /\
    index top = [0; 2]%nat /\
    at_ top 2 "product_title" = Some (CStr "Desk Lamp").
Proof.
  split; [reflexivity|].
  destruct (nlargest_rows listings_out 2 "Est. Revenue (Last Month)"
              listings_revenue (proj1 listings_out_shape)
              (proj2 listings_out_shape) eq_refl)
    as (top & Htop & _ & _ & _ & _ & Hcell).
  exists top. split; [exact Htop|].
  assert (Hidx : index top = [0; 2]%nat)
    by (vm_compute in Htop; injection Htop as <-; reflexivity).
  split; [exact Hidx|].
  rewrite Hcell; [reflexivity|]. rewrite Hidx. simpl. auto.
Defined.

(** X18.  The rows [nlargest] gives come in descending order of the
    column, rows without a value last, and no row left out has more than a
    row taken: a row left out has no value, or every row taken has a value
    that is at least as large. *)
Theorem nlargest_order :
  forall df n name xs,
    NoDup (index df) ->
    (forall nm c, get_column nm df = Some c ->
       List.length c = List.length (index df)) ->
    get_column name df = Some (of_values xs) ->
    exists top ys,
      nlargest n name df = inr top /\
      get_column name top = Some (of_values ys) /\
      StronglySorted (fun a b => before a b = true) ys /\
      (forall i x y,
         In i (index df) -> ~ In i (index top) ->
         at_ df i name = Some (CFloat x) -> In y ys ->
         is_nan x = true \/ (is_nan y = false /\ leb x y = true)).
Proof.
  intros df n name xs Hnd Hlen Hc.
  set (S := sort_desc (enumerate xs)).
  assert (Lx : List.length xs = List.length (index df)).
  { rewrite <- (Hlen _ _ Hc). unfold of_values. now rewrite length_map. }
  exists (take_rows (firstn n (map fst S)) df), (map snd (firstn n S)).
  split; [now apply nlargest_floats|]. split; [|split].
  - rewrite get_take_rows, Hc. simpl. f_equal.
    rewrite firstn_map. unfold of_values.
    rewrite <- (gather_pairs (firstn n S) xs).
    + apply gather_map.
    + intros a Ha. apply sorted_nth. eapply firstn_In; eauto.
  - apply sorted_map, sorted_firstn. apply sort_desc_sorted.
  - intros i x y Hi Hout Hx Hy.
    destruct (In_nth_error _ _ Hi) as [p Hp].
    assert (Hlt : (p < List.length xs)%nat)
      by (rewrite Lx; apply nth_error_Some; congruence).
    assert (Hin : In p (map fst S)).
    { eapply Permutation_in; [symmetry; apply sorted_positions|].
      apply in_seq. lia. }
    rewrite <- (firstn_skipn n (map fst S)) in Hin.
    apply in_app_or in Hin. destruct Hin as [Hin|Hin].
    { exfalso. apply Hout. simpl. apply gather_In. eauto. }
    rewrite skipn_map in Hin. apply in_map_iff in Hin.
    destruct Hin as (b & Eb & Hb).
    pose proof (sorted_nth xs b (skipn_In _ _ _ Hb)) as Eb'.
    rewrite Eb in Eb'.
    unfold at_ in Hx. rewrite Hc in Hx.
    rewrite (at_label_nth _ _ p i Hnd Hp) in Hx.
    unfold of_values in Hx. rewrite nth_error_map, Eb' in Hx.
    injection Hx as <-.
    apply in_map_iff in Hy. destruct Hy as (a & <- & Ha).
    pose proof (sorted_split row_before n S (sort_desc_sorted _) a b Ha Hb) as R.
    unfold row_before, before in R.
    destruct (is_nan (snd b)); [now left|right].
    simpl in R. apply Bool.andb_true_iff in R. destruct R as [R1 R2].
    split; [|assumption]. now destruct (is_nan (snd a)).
Qed.

Lemma nlargest_order_witness :
  get_column "Est. Revenue (Last Month)" listings_out =
    Some (of_values listings_revenue) /\
  exists top ys,
    nlargest 2 "Est. Revenue (Last Month)" listings_out = inr top /\
    get_column "Est. Revenue (Last Month)" top = Some (of_values ys) /\
    StronglySorted (fun a b => before a b = true) ys /\
    (forall i x y,
       In i (index listings_out) -> ~ In i (index top) ->
       at_ listings_out i "Est. Revenue (Last Month)" = Some (CFloat x) ->
       In y ys ->
       is_nan x = true \/ (is_nan y = false /\ leb x y = true)).
Proof.
  split; [reflexivity|].
  exact (nlargest_order listings_out 2 "Est. Revenue (Last Month)"
           listings_revenue (proj1 listings_out_shape)
           (proj2 listings_out_shape) eq_refl).
Defined.

(** X19.  Once the data is loaded neither list of largest rows can fail.
    Whatever is chosen in the sidebar, narrowing gives a frame, the ten rows
    by revenue and the five by units are found in it (all its rows where it
    has fewer), and each row found is a narrowed row of the loaded frame
    with its cells. *)
Theorem top_rows_found :
  forall csv s out s' sel,
    well_formed csv ->
    load_data csv s = (inr out, s') ->
    exists filtered top10 top5,
      filtered_df out sel = inr filtered /\
      nlargest 10 "Est. Revenue (Last Month)" filtered = inr top10 /\
      nlargest 5 "purchased_last_month" filtered = inr top5 /\
      List.length (index top10) = Nat.min 10 (List.length (index filtered)) /\
      List.length (index top5) = Nat.min 5 (List.length (index filtered)) /\
      (forall i, In i (index top10) ->
         In i (index filtered) /\ forall nm, at_ top10 i nm = at_ out i nm) /\
      (forall i, In i (index top5) ->
         In i (index filtered) /\ forall nm, at_ top5 i nm = at_ out i nm).
Proof.
  intros csv s out s' sel Hwf Hrun.
  destruct (out_shape csv s out s' Hwf Hrun) as (Hnd & _ & Hlen).
  destruct (success _ _ _ _ Hrun)
    as (cd & co & cr & ct & cp & _ & _ & _ & _ & _ & Hprep & _).
  pose proof (p_revenue _ _ _ _ _ _ _ Hprep) as Hrev.
  pose proof (p_purchased _ _ _ _ _ _ _ Hprep) as Hpur.
  pose proof (p_category _ _ _ _ _ _ _ Hprep) as Hcat.
  assert (exists filtered xr xp,
            filtered_df out sel = inr filtered /\
            NoDup (index filtered) /\
            (forall nm c, get_column nm filtered = Some c ->
               List.length c = List.length (index filtered)) /\
            get_column "Est. Revenue (Last Month)" filtered = Some (of_values xr) /\
            get_column "purchased_last_month" filtered = Some (of_values xp) /\
            (forall i nm, In i (index filtered) ->
               at_ filtered i nm = at_ out i nm))
    as (filtered & xr & xp & Hf & Hnd' & Hlen' & Hr' & Hp' & Hcell).
  { unfold filtered_df. destruct (py_eq sel (CStr "All")).
    - eexists out, _, _. repeat split; eauto.
    - change category_col with "product_category". rewrite Hcat.
      eexists _, _, _. split; [reflexivity|].
      destruct (keep_rows_shape
                  (map (fun v => py_eq v sel)
                     (optional csv cd "product_category"
                        (fillna (CStr "Unknown")) (CStr "Unknown")))
                  out Hnd Hlen) as [H1 H2].
      split; [exact H1|]. split; [exact H2|].
      split; [apply keep_rows_floats; exact Hrev|].
      split; [apply keep_rows_floats; exact Hpur|].
      intros i nm Hi. now apply narrowed_cell. }
  destruct (nlargest_takes filtered 10 _ xr Hnd' Hlen' Hr')
    as (top10 & H10 & _ & L10 & _ & In10 & C10).
  destruct (nlargest_takes filtered 5 _ xp Hnd' Hlen' Hp')
    as (top5 & H5 & _ & L5 & _ & In5 & C5).
  exists filtered, top10, top5. do 5 (split; [assumption|]). split.
  - intros i Hi. split; [now apply In10|].
    intros nm. rewrite C10 by assumption. apply Hcell. now apply In10.
  - intros i Hi. split; [now apply In5|].
    intros nm. rewrite C5 by assumption. apply Hcell. now apply In5.
Qed.

Lemma top_rows_found_witness :
  well_formed listings /\
  load_data listings start = (inr listings_out, listings_end) /\
  exists filtered top10 top5,
    filtered_df listings_out (CStr "Home") = inr filtered /\
    nlargest 10 "Est. Revenue (Last Month)" filtered = inr top10 /\
    nlargest 5 "purchased_last_month" filtered = inr top5 /\
    index top10 = [2%nat] /\ index top5 = [2%nat].
Proof.
  assert (Hrun : load_data listings start = (inr listings_out, listings_end))
    by (vm_compute; reflexivity).
  split; [exact listings_well_formed|]. split; [exact Hrun|].
  destruct (top_rows_found listings start listings_out listings_end
              (CStr "Home") listings_well_formed Hrun)
    as (filtered & top10 & top5 & Hf & H10 & H5 & _).
  exists filtered, top10, top5. do 3 (split; [assumption|]).
  vm_compute in Hf. injection Hf as <-.
  vm_compute in H10. injection H10 as <-.
  vm_compute in H5. injection H5 as <-.
  split; reflexivity.
Defined.
